(** * ClipAI main process: summarization orchestration pipeline

    A shallow embedding of [src/main.js]: configuration loading and
    migration, accelerator normalisation, selection capture, the provider
    gateway, and the [runSummary] orchestrator with the popup toggle
    logic.

    Conventions of the embedding.
    - A JavaScript string is the list of its UTF-16 code units
      ([jsstring]); [length], [slice], [trim], [split] and [charCodeAt]
      work on code units exactly as in JavaScript.
    - JavaScript numbers are modelled by [Z]: every number the modelled code
      computes with is an integer far below 2^53, where double arithmetic
      is exact.  The one fractional product, [contextLimit * 0.1], is taken
      with its [Math.ceil] (see [safetyMarginOf]).
    - An [async] function is cut at its [await]s into synchronous phases;
      what the outside world answers (clipboard, clock, HTTP) is an
      explicit argument of the phase that consumes it.  A thrown value is
      an [exn] (name and message); an awaited promise is fulfilled,
      rejected or never settled ([promise]).
    - A plain object is the association list of its own properties
      ([lookup]); where the code reads a property under a name that may be
      inherited from [Object.prototype], the definition says what the
      inherited value does ([inherited]).
    - Case mapping is modelled on ASCII ([toLowerCase], [toUpperCase]);
      statements that depend on it beyond comparing with ASCII words are
      made for ASCII strings ([isAscii]).
    - Messages sent to windows and calls to the provider are recorded in an
      event trace. *)

From Stdlib Require Import ZArith List Bool Lia String Ascii QArith Qround.
From Stdlib Require Import ListSet DecimalString Floats Uint63.
Import ListNotations.

Local Open Scope Z_scope.

(* ====================================================================== *)
(** * JavaScript strings and scalar values *)

Module Js.

Definition jsstring := list N.

(** A string literal of the source (ASCII text). *)
Definition lit (s : string) : jsstring :=
  map N_of_ascii (list_ascii_of_string s).

Arguments lit s%_string.

Definition strlen (s : jsstring) : Z := Z.of_nat (List.length s).

Definition str_eq_dec : forall a b : jsstring, {a = b} + {a <> b} :=
  list_eq_dec N.eq_dec.

(** [a === b] on strings. *)
Definition streqb (a b : jsstring) : bool :=
  if str_eq_dec a b then true else false.

(** [list.includes(s)] *)
Definition includes (l : list jsstring) (s : jsstring) : bool :=
  existsb (streqb s) l.

(** Relative index of [String.prototype.slice]: negative counts from the
    end, everything is clamped to [0, len]. *)
Definition clampIndex (len i : Z) : Z :=
  if i <? 0 then Z.max (len + i) 0 else Z.min i len.

(** [s.slice(b, e)] *)
Definition slice (s : jsstring) (b e : Z) : jsstring :=
  let len := strlen s in
  let from := clampIndex len b in
  let to := clampIndex len e in
  firstn (Z.to_nat (to - from)) (skipn (Z.to_nat from) s).

(** [s.slice(b)] *)
Definition sliceFrom (s : jsstring) (b : Z) : jsstring :=
  slice s b (strlen s).

(** White space and line terminators removed by [String.prototype.trim]. *)
Definition isWhiteSpace (c : N) : bool :=
  let z := Z.of_N c in
  ((9 <=? z) && (z <=? 13)) || (z =? 32) || (z =? 160) || (z =? 5760)
  || ((8192 <=? z) && (z <=? 8202)) || (z =? 8232) || (z =? 8233)
  || (z =? 8239) || (z =? 8287) || (z =? 12288) || (z =? 65279).

Fixpoint trimStart (s : jsstring) : jsstring :=
  match s with
  | [] => []
  | c :: s' => if isWhiteSpace c then trimStart s' else s
  end.

Definition trim (s : jsstring) : jsstring :=
  rev (trimStart (rev (trimStart s))).

(** [s.split(sep)] for a one-unit separator. *)
Fixpoint split (sep : N) (s : jsstring) : list jsstring :=
  match s with
  | [] => [[]]
  | c :: s' =>
      if N.eqb c sep then [] :: split sep s'
      else match split sep s' with
           | [] => [[c]]
           | p :: ps => (c :: p) :: ps
           end
  end.

(** [parts.join(sep)] *)
Fixpoint join (sep : jsstring) (parts : list jsstring) : jsstring :=
  match parts with
  | [] => []
  | [p] => p
  | p :: ps => p ++ sep ++ join sep ps
  end.

(** Case mapping of the ASCII letters.  On a string all of whose units
    are below 128 ([isAscii]) this is [toLowerCase] / [toUpperCase]
    exactly; the Unicode mappings of the other units (U+00E9 to U+00C9,
    U+017F to ['S'], U+212A to ['k'], ...) are not modelled, and
    statements that depend on them are made for ASCII strings. *)
Definition lowerUnit (c : N) : N :=
  if ((65 <=? c) && (c <=? 90))%N then (c + 32)%N else c.
Definition upperUnit (c : N) : N :=
  if ((97 <=? c) && (c <=? 122))%N then (c - 32)%N else c.
Definition toLowerCase (s : jsstring) : jsstring := map lowerUnit s.
Definition toUpperCase (s : jsstring) : jsstring := map upperUnit s.

(** Every unit is an ASCII character. *)
Definition isAscii (s : jsstring) : bool := forallb (fun c => (c <? 128)%N) s.

(** The scalar values a JSON document or an IPC payload may hold where the
    code inspects the type or the truthiness of a field. *)
Inductive jsval :=
| JUndefined
| JNull
| JBool (b : bool)
| JNum (n : Z)
| JStr (s : jsstring).

(** ToBoolean *)
Definition truthy (v : jsval) : bool :=
  match v with
  | JUndefined | JNull => false
  | JBool b => b
  | JNum n => negb (n =? 0)
  | JStr s => match s with [] => false | _ => true end
  end.

(** [!s] for a string: only the empty string is falsy. *)
Definition nonEmpty (s : jsstring) : bool :=
  match s with [] => false | _ => true end.

(** An optional string property: [None] is [undefined]. *)
Definition truthyStr (o : option jsstring) : bool :=
  match o with Some s => nonEmpty s | None => false end.

(** [a || b] where [a] is an optional string. *)
Definition orStr (o : option jsstring) (d : jsstring) : jsstring :=
  match o with
  | Some s => if nonEmpty s then s else d
  | None => d
  end.

(** ToInt32, the conversion behind [x | 0] and [x << n]. *)
Definition toInt32 (z : Z) : Z :=
  let m := z mod 4294967296 in
  if m <? 2147483648 then m else m - 4294967296.

(** Decimal text of an integer, as a template literal prints it. *)
Definition decimal (z : Z) : jsstring :=
  lit (NilZero.string_of_int (Z.to_int z)).

(** Digit of [Number.prototype.toString(36)]. *)
Definition digit36 (d : Z) : N :=
  Z.to_N (if d <? 10 then 48 + d else 87 + d).

Fixpoint digits36 (fuel : nat) (n : Z) (acc : jsstring) : jsstring :=
  match fuel with
  | O => acc
  | S fuel' =>
      let acc' := digit36 (n mod 36) :: acc in
      if n / 36 =? 0 then acc' else digits36 fuel' (n / 36) acc'
  end.

(** [h.toString(36)] for a 32-bit integer [h] (at most seven digits). *)
Definition toString36 (h : Z) : jsstring :=
  if h <? 0 then 45%N :: digits36 7 (- h) [] else digits36 7 h [].

End Js.
Import Js.

(* ====================================================================== *)
(** * Constants / defaults *)

Definition MAX_TEXT_LEN : Z := 25000.
Definition MAX_PRESETS : Z := 10.

Definition MODEL_CONTEXT_LIMITS : list (jsstring * Z) :=
  [ (lit "gpt-4o", 128000);
    (lit "gpt-4o-mini", 128000);
    (lit "gpt-4-turbo", 128000);
    (lit "gpt-4", 8192);
    (lit "gpt-3.5-turbo", 16385);
    (lit "llama-3.1-70b-versatile", 131072);
    (lit "llama-3.1-8b-instant", 131072);
    (lit "mixtral-8x7b-32768", 32768);
    (lit "gemma-7b-it", 8192);
    (lit "gemini-1.5-pro", 2000000);
    (lit "gemini-1.5-flash", 1000000);
    (lit "gemini-pro", 32768);
    (lit "claude-3-5-sonnet-20241022", 200000);
    (lit "claude-3-opus-20240229", 200000);
    (lit "claude-3-sonnet-20240229", 200000);
    (lit "claude-3-haiku-20240307", 200000) ].

(** [≤] is one code unit. *)
Definition DEFAULT_SUMMARY_PROMPT : jsstring :=
  lit "Summarize in " ++ [8804%N]
  ++ lit "3 concise sentences. Use Markdown formatting (headers, bold, italic, lists)".

Definition PROVIDER_DEFAULT_MODELS : list (jsstring * jsstring) :=
  [ (lit "openai", lit "gpt-5-mini");
    (lit "groq", lit "llama-3.1-70b-versatile");
    (lit "gemini", lit "gemini-2.5-flash-lite");
    (lit "anthropic", lit "claude-3");
    (lit "grok", lit "grok-4") ].

(** The own properties of a plain object as an association list:
    [lookup table key] is [table[key]] for an own property, and [None]
    when the object has no own property of that name. *)
Fixpoint lookup {A} (table : list (jsstring * A)) (key : jsstring) : option A :=
  match table with
  | [] => None
  | (k, v) :: rest => if streqb k key then Some v else lookup rest key
  end.

(** The property names a plain object inherits from [Object.prototype].
    For such a name, and an object without an own property of that name,
    [obj[name]] is not [undefined]: it is the inherited function (for
    ['__proto__'], the prototype object itself). *)
Definition objectPrototypeNames : list jsstring :=
  [ lit "constructor"; lit "__proto__"; lit "hasOwnProperty"; lit "isPrototypeOf";
    lit "propertyIsEnumerable"; lit "toLocaleString"; lit "toString"; lit "valueOf";
    lit "__defineGetter__"; lit "__defineSetter__"; lit "__lookupGetter__";
    lit "__lookupSetter__" ].

Definition inherited (name : jsstring) : bool := includes objectPrototypeNames name.

(** [String(obj[name])] for an inherited [name]: the text of a built-in
    function, [function name() { [native code] }], where ['constructor']
    is the function [Object] and ['__proto__'] the prototype object. *)
Definition inheritedText (name : jsstring) : jsstring :=
  if streqb name (lit "__proto__") then lit "[object Object]"
  else lit "function "
       ++ (if streqb name (lit "constructor") then lit "Object" else name)
       ++ lit "() { [native code] }".

(* ====================================================================== *)
(** * Utility helpers *)

(** [hashString]: [h = ((h << 5) - h + str.charCodeAt(i++)) | 0]. *)
Definition hashStep (h : Z) (c : N) : Z :=
  toInt32 (toInt32 (Z.shiftl h 5) - h + Z.of_N c).

Definition hashString (str : jsstring) : jsstring :=
  toString36 (fold_left hashStep str 0).

(* ====================================================================== *)
(** * Accelerator normalisation *)

Definition mouseButtons : list jsstring :=
  [ lit "leftclick"; lit "middleclick"; lit "rightclick";
    lit "mousebutton4"; lit "mousebutton5" ].

(** [acc.split('+').map(p => p.trim()).filter(Boolean)] *)
Definition acceleratorParts (acc : jsstring) : list jsstring :=
  filter nonEmpty (map trim (split 43%N acc)).

(** The key a non-modifier, non-mouse token [p] stands for:
    [p.length === 1 ? p.toUpperCase()
                    : (p.length ? p[0].toUpperCase() + p.slice(1) : '')]. *)
Definition capitalizeKey (p : jsstring) : jsstring :=
  if strlen p =? 1 then toUpperCase p
  else match p with
       | [] => []
       | c :: _ => toUpperCase [c] ++ sliceFrom p 1
       end.

(** One round of the [parts.forEach] of [normalizeAccelerator]; the state
    is the set [mods] and the variable [key]. *)
Definition acceleratorStep (st : set jsstring * jsstring) (p : jsstring)
  : set jsstring * jsstring :=
  let (mods, key) := st in
  let up := toLowerCase p in
  if includes [lit "cmd"; lit "command"; lit "commandorcontrol"] up
  then (set_add str_eq_dec (lit "CommandOrControl") mods, key)
  else if includes [lit "ctrl"; lit "control"] up
  then (set_add str_eq_dec (lit "Control") mods, key)
  else if includes [lit "alt"; lit "option"] up
  then (set_add str_eq_dec (lit "Alt") mods, key)
  else if includes [lit "shift"] up
  then (set_add str_eq_dec (lit "Shift") mods, key)
  else if includes mouseButtons up
  then (mods, p)
  else (mods, capitalizeKey p).

Definition normalizeAccelerator (acc : jsval) : jsstring :=
  match acc with
  | JStr s =>
      if negb (nonEmpty s) then []
      else
        let parts := acceleratorParts s in
        let (mods, key) := fold_left acceleratorStep parts (empty_set jsstring, []) in
        let order := [lit "CommandOrControl"; lit "Control"; lit "Alt"; lit "Shift"] in
        let ordered := filter (fun m => set_mem str_eq_dec m mods) order in
        if negb (nonEmpty key) then []
        else join (lit "+") (ordered ++ [key])
  | _ => []
  end.

(** A token that names a modifier, in any casing. *)
Definition isModifierToken (p : jsstring) : bool :=
  includes [lit "cmd"; lit "command"; lit "commandorcontrol";
            lit "ctrl"; lit "control"; lit "alt"; lit "option"; lit "shift"]
           (toLowerCase p).

(** [hay.includes(needle)] on strings. *)
Fixpoint isPrefix (needle hay : jsstring) : bool :=
  match needle, hay with
  | [], _ => true
  | _ :: _, [] => false
  | a :: n', b :: h' => N.eqb a b && isPrefix n' h'
  end.

Fixpoint strIncludes (hay needle : jsstring) : bool :=
  isPrefix needle hay
  || match hay with
     | [] => false
     | _ :: h' => strIncludes h' needle
     end.

(* ====================================================================== *)
(** * Configuration: the settings document and its migration *)

(** [cfg.providers[p]]: [{ key, model }]; [None] is an absent property. *)
Module ProviderCfg.
Record t := mk { key : option jsstring; model : option jsstring }.
Definition empty : t := mk None None.
End ProviderCfg.

(** An entry of [cfg.summaryPresets]. *)
Module Preset.
Record t := mk {
  id : option jsstring;
  name : option jsstring;
  prompt : option jsstring;
  hotkey : jsval;
  isDefault : jsval
}.
End Preset.

(** [cfg.activeDocumentSession]: [{ type, title, author, notes }]. *)
Module Session.
Record t := mk {
  type : jsstring;
  title : jsstring;
  author : option jsstring;
  notes : option jsstring
}.
End Session.

(** The settings document, with the fields the pipeline reads
    ([textAppearance] and [documentSessions], which it does not read, are
    left out).  A field of type [jsval] is one whose type or truthiness the code tests; a numeric
    field is [None] when absent; [providers] and [summaryPresets] are empty
    when absent (or, for the presets, not an array), which is what
    [loadConfig] turns them into before anything reads them. *)
Module Config.
Record t := mk {
  providers : list (jsstring * ProviderCfg.t);
  active : option jsstring;
  theme : option jsstring;
  autoCopySelection : jsval;
  autoHideMs : jsval;
  markdownMode : jsval;
  markdownEnabled : jsval;
  onboarded : jsval;
  hotkeys_summarize : option jsval;
  summaryPresets : list Preset.t;
  unlimitedInput : jsval;
  maxInputChars : option Z;
  maxOutputTokens : option Z;
  activeDocumentSession : option Session.t
}.

(** [{}] *)
Definition empty : t :=
  mk [] None None JUndefined JUndefined JUndefined JUndefined JUndefined
     None [] JUndefined None None None.

Definition with_summaryPresets (l : list Preset.t) (c : t) : t :=
  mk (providers c) (active c) (theme c) (autoCopySelection c) (autoHideMs c)
     (markdownMode c) (markdownEnabled c) (onboarded c) (hotkeys_summarize c)
     l (unlimitedInput c) (maxInputChars c) (maxOutputTokens c)
     (activeDocumentSession c).
End Config.

(** [obj[p] = v] on the provider map. *)
Fixpoint setProvider (p : jsstring) (v : ProviderCfg.t)
  (m : list (jsstring * ProviderCfg.t)) : list (jsstring * ProviderCfg.t) :=
  match m with
  | [] => [(p, v)]
  | (k, w) :: rest =>
      if streqb k p then (k, v) :: rest else (k, w) :: setProvider p v rest
  end.

(** One round of
    [cfg.providers[p] = cfg.providers[p] || {};
     if(!cfg.providers[p].model) cfg.providers[p].model = PROVIDER_DEFAULT_MODELS[p]]. *)
Definition ensureProvider (m : list (jsstring * ProviderCfg.t)) (p : jsstring)
  : list (jsstring * ProviderCfg.t) :=
  let cur := match lookup m p with Some c => c | None => ProviderCfg.empty end in
  let cur' :=
    if truthyStr (ProviderCfg.model cur) then cur
    else ProviderCfg.mk (ProviderCfg.key cur) (lookup PROVIDER_DEFAULT_MODELS p) in
  setProvider p cur' m.

Definition supportedProviders : list jsstring :=
  [lit "openai"; lit "anthropic"; lit "gemini"; lit "groq"; lit "grok"].

(** [Math.min(30000, Math.max(0, x|0))] *)
Definition clampAutoHide (x : Z) : Z :=
  Z.min 30000 (Z.max 0 (toInt32 x)).

(** [arr.slice(0, n)] on an array. *)
Definition arrSlice0 {A} (n : Z) (l : list A) : list A :=
  firstn (Z.to_nat (clampIndex (Z.of_nat (List.length l)) n)) l.

(** [p => p.isDefault], as a condition. *)
Definition flaggedDefault (p : Preset.t) : bool := truthy (Preset.isDefault p).

(** The preset [loadConfig] injects. *)
Definition implicitDefaultPreset (summarize : jsval) : Preset.t :=
  Preset.mk (Some (lit "default")) (Some (lit "Summary"))
            (Some DEFAULT_SUMMARY_PROMPT) summarize (JBool true).

(** [cfg.hotkeys.summarize] once [cfg.hotkeys] has its default. *)
Definition hotkeysSummarize (o : option jsval) : jsval :=
  match o with
  | Some v => v
  | None => JStr (lit "CommandOrControl+Shift+Space")
  end.

(** [loadConfig], from the parsed document to the returned configuration
    (the migration and defaults). *)
Definition migrate (cfg : Config.t) : Config.t :=
  let providers := fold_left ensureProvider supportedProviders (Config.providers cfg) in
  let active := orStr (Config.active cfg) (lit "gemini") in
  let theme := orStr (Config.theme cfg) (lit "light") in
  let autoCopySelection :=
    match Config.autoCopySelection cfg with JBool false => false | _ => true end in
  let autoHideMs :=
    match Config.autoHideMs cfg with JNum n => clampAutoHide n | _ => clampAutoHide 0 end in
  let markdownMode :=
    if negb (truthy (Config.markdownMode cfg)) then
      match Config.markdownEnabled cfg with
      | JBool b => JStr (if b then lit "full" else lit "off")
      | _ => JStr (lit "full")
      end
    else Config.markdownMode cfg in
  let markdownEnabled :=
    match markdownMode with
    | JStr s => negb (streqb s (lit "off"))
    | _ => true
    end in
  let onboarded :=
    match Config.onboarded cfg with JBool true => true | _ => false end in
  let summarize := hotkeysSummarize (Config.hotkeys_summarize cfg) in
  let presets := arrSlice0 MAX_PRESETS (Config.summaryPresets cfg) in
  let active' :=
    if includes [lit "mistral"; lit "cohere"] active then lit "openai" else active in
  let presets' :=
    if negb (existsb flaggedDefault presets)
    then implicitDefaultPreset summarize :: presets
    else presets in
  let unlimitedInput :=
    match Config.unlimitedInput cfg with JUndefined => JBool false | v => v end in
  let maxInputChars :=
    match Config.maxInputChars cfg with
    | Some n => if n =? 0 then MAX_TEXT_LEN else n
    | None => MAX_TEXT_LEN
    end in
  let maxOutputTokens :=
    match Config.maxOutputTokens cfg with
    | Some n => if n =? 0 then 800 else n
    | None => 800
    end in
  Config.mk providers (Some active') (Some theme) (JBool autoCopySelection)
            (JNum autoHideMs) markdownMode (JBool markdownEnabled)
            (JBool onboarded) (Some summarize) presets' unlimitedInput
            (Some maxInputChars) (Some maxOutputTokens)
            (Config.activeDocumentSession cfg).

(** The module state behind [loadConfig]: the cache and the file.  [disk]
    is what [JSON.parse] of the file yields; [None] stands for a missing,
    unreadable or corrupt file, which the code reads as [{}]. *)
Record Store := mkStore {
  configCache : option Config.t;
  disk : option Config.t
}.

Definition loadConfig (s : Store) : Config.t * Store :=
  match configCache s with
  | Some c => (c, s)
  | None =>
      let raw := match disk s with Some d => d | None => Config.empty end in
      let cfg := migrate raw in
      (cfg, mkStore (Some cfg) (disk s))
  end.

(** [saveConfig(mutator)]: mutate the loaded object, write it whole,
    invalidate the cache and reload.  (The theme broadcast is a window
    message and is left out.) *)
Definition saveConfig (mutator : Config.t -> Config.t) (s : Store)
  : Config.t * Store :=
  let (cfg, _) := loadConfig s in
  let cfg' := mutator cfg in
  loadConfig (mkStore None (Some cfg')).

(* ====================================================================== *)
(** * Shortcut registration and the preset handler *)

(** [registerShortcuts]: the accelerators handed to the global shortcut
    facility, each with the preset it runs. *)
Definition registerShortcuts (cfg : Config.t) : list (jsstring * Preset.t) :=
  flat_map
    (fun p =>
       let acc := normalizeAccelerator (Preset.hotkey p) in
       if negb (nonEmpty acc) then []
       else if strIncludes acc (lit "click") || strIncludes acc (lit "mousebutton")
       then []
       else [(acc, p)])
    (Config.summaryPresets cfg).

(** [v || d] on scalar values. *)
Definition orVal (v d : jsval) : jsval := if truthy v then v else d.

(** The object the handler builds from a submitted preset [p]; [fresh] is
    the generated identifier ['p_' + Date.now() + Math.random()...]. *)
Definition normalizePreset (fresh : jsstring) (p : Preset.t) : Preset.t :=
  Preset.mk
    (Some (orStr (Preset.id p) fresh))
    (Some (orStr (option_map (fun n => slice n 0 48) (Preset.name p)) (lit "Preset")))
    (Some (slice (orStr (Preset.prompt p) DEFAULT_SUMMARY_PROMPT) 0 1200))
    (JStr (normalizeAccelerator (orVal (Preset.hotkey p) (JStr []))))
    (JBool (match Preset.isDefault p with JBool true => true | _ => false end
            && match Preset.id p with
               | Some i => streqb i (lit "default")
               | None => false
               end)).

Fixpoint normalizePresets (genId : nat -> jsstring) (i : nat) (l : list Preset.t)
  : list Preset.t :=
  match l with
  | [] => []
  | p :: rest => normalizePreset (genId i) p :: normalizePresets genId (S i) rest
  end.

Definition jsval_eqb (a b : jsval) : bool :=
  match a, b with
  | JUndefined, JUndefined => true
  | JNull, JNull => true
  | JBool x, JBool y => Bool.eqb x y
  | JNum x, JNum y => x =? y
  | JStr x, JStr y => streqb x y
  | _, _ => false
  end.

(** An entry of the [conflicts] list: [{ hotkey, a, b }]. *)
Record Conflict := mkConflict {
  conflict_hotkey : jsval;
  conflict_a : option jsstring;
  conflict_b : option jsstring
}.

Fixpoint seenGet (seen : list (jsval * option jsstring)) (k : jsval)
  : option (option jsstring) :=
  match seen with
  | [] => None
  | (k', v) :: rest => if jsval_eqb k' k then Some v else seenGet rest k
  end.

(** One round of the duplicate scan over the normalized presets. *)
Definition conflictStep
  (acc : list (jsval * option jsstring) * list Conflict) (p : Preset.t)
  : list (jsval * option jsstring) * list Conflict :=
  let (seen, conflicts) := acc in
  if truthy (Preset.hotkey p) then
    match seenGet seen (Preset.hotkey p) with
    | Some a => (seen, conflicts ++ [mkConflict (Preset.hotkey p) a (Preset.id p)])
    | None => (seen ++ [(Preset.hotkey p, Preset.id p)], conflicts)
    end
  else acc.

(** The list the ['clipai:set-summary-presets'] handler stores: the
    submitted presets normalized, with the current default put in front
    when none of them is the default. *)
Definition normalizedPresets (genId : nat -> jsstring) (cfg : Config.t)
  (presets : list Preset.t) : list Preset.t :=
  let normalized := normalizePresets genId 0 (arrSlice0 MAX_PRESETS presets) in
  let def :=
    match find flaggedDefault (Config.summaryPresets cfg) with
    | Some d => d
    | None =>
        implicitDefaultPreset
          (match Config.hotkeys_summarize cfg with Some v => v | None => JUndefined end)
    end in
  if negb (existsb flaggedDefault normalized) then def :: normalized else normalized.

(** The ['clipai:set-summary-presets'] handler: the conflicts it returns,
    the configuration after [saveConfig], and the store.  (The handler then
    calls [registerShortcuts()], which registers [registerShortcuts newCfg].) *)
Definition setSummaryPresets (genId : nat -> jsstring) (presets : list Preset.t)
  (s : Store) : list Conflict * Config.t * Store :=
  let (cfg, s1) := loadConfig s in
  let normalized := normalizedPresets genId cfg presets in
  let conflicts := snd (fold_left conflictStep normalized ([], [])) in
  let (newCfg, s2) := saveConfig (Config.with_summaryPresets normalized) s1 in
  (conflicts, newCfg, s2).

(* ====================================================================== *)
(** * Exceptions *)

(** A thrown value: the [name] and the [message] of the error object. *)
Record exn := mkExn {
  exn_name : jsstring;
  exn_message : jsstring
}.

(** [new Error(message)] *)
Definition Error (message : jsstring) : exn := mkExn (lit "Error") message.

(** What [encodeURIComponent] throws on an unpaired surrogate. *)
Definition URIError_malformed : exn := mkExn (lit "URIError") (lit "URI malformed").

(** [e.message || String(e)]: with an empty message,
    [Error.prototype.toString] gives the name. *)
Definition errorText (e : exn) : jsstring :=
  if nonEmpty (exn_message e) then exn_message e else exn_name e.

(** The outcome of a computation that may throw. *)
Inductive result (A : Type) :=
| Ok (a : A)
| Throw (e : exn).
Arguments Ok {A} a.
Arguments Throw {A} e.

(** How an awaited promise ends: fulfilled, rejected, or never settled. *)
Inductive promise (A : Type) :=
| Fulfilled (a : A)
| Rejected (e : exn)
| Pending.
Arguments Fulfilled {A} a.
Arguments Rejected {A} e.
Arguments Pending {A}.

Definition bind {A B} (r : result A) (k : A -> result B) : result B :=
  match r with
  | Ok a => k a
  | Throw e => Throw e
  end.

(* ====================================================================== *)
(** * Selection capture *)

Inductive Platform := Darwin | Win32 | Linux | OtherPlatform.

(** [captureSelectionText], an [async] function: the promise it returns.
    [firstRead] is the [clipboard.readText()] of the first line, which is
    outside the [try]: when it throws, the promise is rejected.  [copied]
    is what the simulated copy comes to inside the [try]: [Fulfilled s]
    when the helper process has emitted ['exit'] and the clipboard read
    after the wait gives [s]; [Rejected e] when [spawn] or that read throws
    (caught by the [catch]); [Pending] when the helper never emits ['exit']
    (the promise awaited has no other way to resolve, also not on the
    helper's ['error'] event).  The write-back of [before] 30 ms later does
    not change the returned value and is left out. *)
Definition captureSelectionText (cfg : Config.t) (platform : Platform)
  (firstRead : result jsstring) (copied : promise jsstring) : promise jsstring :=
  match firstRead with
  | Throw e => Rejected e
  | Ok before =>
      let attempt :=
        match Config.autoCopySelection cfg with
        | JBool false => Fulfilled before
        | _ =>
            match platform with
            | Darwin => copied
            | Win32 | Linux => copied
            | OtherPlatform => Fulfilled before
            end
        end in
      let finish selection :=
        let selection :=
          if negb (nonEmpty selection) || streqb selection before then before
          else selection in
        Fulfilled (trim selection) in
      match attempt with
      | Fulfilled selection => finish selection
      | Rejected _ => finish before
      | Pending => Pending
      end
  end.

(* ====================================================================== *)
(** * Provider gateway *)

Inductive Endpoint :=
| OpenAIChatCompletions       (* https://api.openai.com/v1/chat/completions *)
| GroqChatCompletions         (* https://api.groq.com/openai/v1/chat/completions *)
| AnthropicMessages           (* https://api.anthropic.com/v1/messages *)
| GeminiGenerateContent (m key : jsstring)
    (* .../v1beta/models/${encodeURIComponent(m)}:generateContent?key=${key} *)
| OpenRouterChatCompletions   (* https://openrouter.ai/api/v1/chat/completions *).

(** The object given to [JSON.stringify] as the request body. *)
Inductive Body :=
| ChatBody (model : option jsstring) (system user : jsstring) (max_tokens : option Z)
    (* { model, messages: [system, user], temperature: 0.4, max_tokens } *)
| AnthropicBody (model : option jsstring) (system : jsstring)
    (max_tokens : option Z) (user : jsstring)
    (* { model, system, max_tokens, messages: [user] } *)
| GeminiBody (text : jsstring) (maxOutputTokens : option Z)
    (* { contents: [{ role: 'user', parts: [{ text }] }], generationConfig } *).

Record Request := mkRequest {
  url : Endpoint;
  headers : list (jsstring * jsstring);
  body : Body
}.

(** [model || PROVIDER_DEFAULT_MODELS[provider]] *)
Definition modelOrDefault (model : option jsstring) (provider : jsstring)
  : option jsstring :=
  if truthyStr model then model else lookup PROVIDER_DEFAULT_MODELS provider.

(** [m.replace(/:generateContent$/, '')] *)
Definition stripGenerateContent (m : jsstring) : jsstring :=
  let suffix := lit ":generateContent" in
  let n := (List.length m - List.length suffix)%nat in
  if (List.length suffix <=? List.length m)%nat && streqb (skipn n m) suffix
  then firstn n m else m.

(** A string [encodeURIComponent] accepts: every surrogate unit is half of
    a pair.  [expectLow] tells that the previous unit was a high
    surrogate. *)
Fixpoint wellFormedFrom (expectLow : bool) (s : jsstring) : bool :=
  match s with
  | [] => negb expectLow
  | c :: rest =>
      let high := ((55296 <=? c) && (c <=? 56319))%N in
      let low := ((56320 <=? c) && (c <=? 57343))%N in
      if expectLow then low && wellFormedFrom false rest
      else if high then wellFormedFrom true rest
      else negb low && wellFormedFrom false rest
  end.

Definition wellFormed (s : jsstring) : bool := wellFormedFrom false s.

Definition contentTypeJson : jsstring * jsstring :=
  (lit "Content-Type", lit "application/json").

Definition bearer (key : jsstring) : jsstring * jsstring :=
  (lit "Authorization", lit "Bearer " ++ key).

(** [summarizeWithProvider], up to the [fetch]: the request it sends, or the
    exception it throws before sending anything (a missing key, an
    unsupported provider, or the [URIError] of [encodeURIComponent] on a
    Gemini model name with an unpaired surrogate). *)
Definition buildRequest (cfg : Config.t) (provider : jsstring)
  (key model systemPrompt : option jsstring) (userText : jsstring)
  : result Request :=
  let trimmed := slice userText 0 MAX_TEXT_LEN in
  let finalSystem := orStr systemPrompt DEFAULT_SUMMARY_PROMPT in
  let max_tokens := Config.maxOutputTokens cfg in
  if streqb provider (lit "openai") || streqb provider (lit "groq") then
    match key with
    | Some k =>
        if negb (nonEmpty k) then Throw (Error (lit "Missing API key"))
        else
          Ok (mkRequest
                (if streqb provider (lit "openai") then OpenAIChatCompletions
                 else GroqChatCompletions)
                [contentTypeJson; bearer k]
                (ChatBody (modelOrDefault model provider) finalSystem trimmed max_tokens))
    | None => Throw (Error (lit "Missing API key"))
    end
  else if streqb provider (lit "anthropic") then
    match key with
    | Some k =>
        if negb (nonEmpty k) then Throw (Error (lit "Missing API key"))
        else
          Ok (mkRequest AnthropicMessages
                [contentTypeJson; (lit "x-api-key", k);
                 (lit "anthropic-version", lit "2023-06-01")]
                (AnthropicBody (modelOrDefault model provider) finalSystem
                               max_tokens trimmed))
    | None => Throw (Error (lit "Missing API key"))
    end
  else if streqb provider (lit "gemini") then
    match key with
    | Some k =>
        if negb (nonEmpty k) then Throw (Error (lit "Missing API key"))
        else
          match modelOrDefault model provider with
          | Some m0 =>
              let m := stripGenerateContent m0 in
              if negb (wellFormed m) then Throw URIError_malformed
              else
                Ok (mkRequest (GeminiGenerateContent m k)
                      [contentTypeJson]
                      (GeminiBody (finalSystem ++ [10%N; 10%N] ++ lit "INPUT:"
                                     ++ [10%N] ++ trimmed)
                                  max_tokens))
          | None =>
              Throw (mkExn (lit "TypeError")
                       (lit "Cannot read properties of undefined (reading 'replace')"))
          end
    | None => Throw (Error (lit "Missing API key"))
    end
  else if streqb provider (lit "grok") then
    match key with
    | Some k =>
        if negb (nonEmpty k) then Throw (Error (lit "Missing API key"))
        else
          Ok (mkRequest OpenRouterChatCompletions
                [contentTypeJson; bearer k]
                (ChatBody (modelOrDefault model provider) finalSystem trimmed max_tokens))
    | None => Throw (Error (lit "Missing API key"))
    end
  else Throw (Error (lit "Unsupported provider")).

(** What [fetch] resolves to.  [answer] is what [await res.json()] followed
    by the extraction of the text for the provider yields (an exception
    when the body does not parse). *)
Record Response := mkResponse {
  status : Z;
  text : jsstring;
  answer : result jsstring
}.

(** [res.ok]: the status is in the range 200-299. *)
Definition ok (res : Response) : bool :=
  (200 <=? status res) && (status res <=? 299).

(** [fetch] either resolves to a response or rejects (transport error). *)
Definition FetchOutcome := result Response.

(** [summarizeWithProvider], after the [fetch]. *)
Definition readResponse (fetched : FetchOutcome) : result jsstring :=
  bind fetched (fun res =>
    if negb (ok res) then
      Throw (Error (lit "HTTP " ++ decimal (status res) ++ lit ": "
                      ++ slice (text res) 0 160))
    else
      bind (answer res) (fun txt => Ok (trim txt))).

Definition summarizeWithProvider (cfg : Config.t) (provider : jsstring)
  (key model systemPrompt : option jsstring) (userText : jsstring)
  (fetch : Request -> FetchOutcome) : result jsstring :=
  bind (buildRequest cfg provider key model systemPrompt userText)
       (fun req => readResponse (fetch req)).

(* ====================================================================== *)
(** * Popup lifecycle *)

(** [popupWindow]: [null] (never created, or closed: the ['closed'] handler
    resets the variable) or a live window, visible or not. *)
Inductive Popup :=
| NoWindow
| Window (visible : bool).

(** The module-level variables the summarization flow reads and writes. *)
Record State := mkState {
  popupWindow : Popup;
  popupAutoHideTimer : bool;          (* a timer is armed *)
  popupFading : bool;
  lastSelectionText : jsstring;
  lastSummaryInputHash : jsstring;
  summaryInFlight : bool;
  lastPopupShowTs : Z
}.

Definition initialState : State :=
  mkState NoWindow false false [] [] false 0.

(** Why the selection was cut. *)
Inductive TruncationReason := ModelContextLimit | DocumentContext | SafetyLimit.

(** The payloads of ['clipai:summary']. *)
Inductive SummaryMessage :=
| NoApiKeyGuidance
    (* { summary: 'No API key. Go to Preferences ...', inputPreview: '' } *)
| Working (inputPreview : jsstring)
| WorkingTruncated (truncatedChars : Z) (reason : TruncationReason)
                   (inputPreview : jsstring)
| SummaryResult (summary fullText : jsstring)
| SummaryError (error : jsstring).

(** The arguments of one [summarizeWithProvider] call. *)
Record ProviderCall := mkCall {
  call_provider : jsstring;
  call_key : option jsstring;
  call_model : option jsstring;
  call_systemPrompt : jsstring;
  call_userText : jsstring
}.

(** What the main process does to the outside. *)
Inductive Event :=
| ShowPopupNearCursor           (* showPopupNearCursor() *)
| ShowInactiveAndFocus          (* popupWindow.showInactive(); popupWindow.focus() *)
| HidePopup                     (* popupWindow.hide() *)
| SendStartFadeOut              (* send('clipai:start-fade-out') *)
| SendSummary (m : SummaryMessage)
| CallProvider (c : ProviderCall).

Definition isVisible (w : Popup) : bool :=
  match w with
  | Window v => v
  | NoWindow => false
  end.

Definition finalizeHidePopup (st : State) : State * list Event :=
  match popupWindow st with
  | NoWindow => (st, [])
  | Window _ =>
      (mkState (Window false) false false (lastSelectionText st)
               (lastSummaryInputHash st) (summaryInFlight st) (lastPopupShowTs st),
       [HidePopup])
  end.

(** [scheduleHidePopup]; [sendOk] tells whether the guarded
    [webContents.send] goes through. *)
Definition scheduleHidePopup (sendOk : bool) (st : State) : State * list Event :=
  match popupWindow st with
  | NoWindow => (st, [])
  | Window _ =>
      if popupFading st then (st, [])
      else if sendOk then
        (mkState (popupWindow st) (popupAutoHideTimer st) true (lastSelectionText st)
                 (lastSummaryInputHash st) (summaryInFlight st) (lastPopupShowTs st),
         [SendStartFadeOut])
      else finalizeHidePopup st
  end.

(** The branch both halves of [runSummary] use to bring the popup up:
    [showPopupNearCursor(); lastPopupShowTs = Date.now()] when there is no
    visible window, otherwise [showInactive(); focus()]. *)
Definition ensurePopupShown (now : Z) (st : State) : State * list Event :=
  if negb (isVisible (popupWindow st)) then
    (mkState (Window true) (popupAutoHideTimer st) (popupFading st)
             (lastSelectionText st) (lastSummaryInputHash st)
             (summaryInFlight st) now,
     [ShowPopupNearCursor])
  else (st, [ShowInactiveAndFocus]).

(* ====================================================================== *)
(** * Summarization flow *)

(** [cfg.providers[active]] *)
Definition activeProviderCfg (cfg : Config.t) (active : jsstring)
  : option ProviderCfg.t :=
  lookup (Config.providers cfg) active.

(** [cfg.active] as the string the flow uses. *)
Definition activeOf (cfg : Config.t) : jsstring :=
  match Config.active cfg with Some a => a | None => lit "undefined" end.

Definition keyPresent (cfg : Config.t) : bool :=
  match activeProviderCfg cfg (activeOf cfg) with
  | Some p => truthyStr (ProviderCfg.key p)
  | None => false
  end.

(** [{ book: ..., paper: ..., ... }[session.type] || <page emoji>] as the
    template literal prints it: for a type inherited from
    [Object.prototype] the value is the inherited function or object, which
    is truthy and is printed as its text. *)
Definition typeEmoji (type : jsstring) : jsstring :=
  let table :=
    [ (lit "book", [55357; 56538]%N);
      (lit "paper", [55357; 56516]%N);
      (lit "thesis", [55356; 57235]%N);
      (lit "report", [55357; 56522]%N);
      (lit "article", [55357; 56560]%N) ] in
  match lookup table type with
  | Some e => e
  | None => if inherited type then inheritedText type else [55357; 56516]%N
  end.

(** The text appended to the prompt for an active document session. *)
Definition contextAddition (session : Session.t) : jsstring :=
  let contextInfo :=
    join (lit " | ")
      ([lit "Document: " ++ typeEmoji (Session.type session) ++ lit " "
          ++ [34%N] ++ Session.title session ++ [34%N]]
       ++ (if truthyStr (Session.author session)
           then [lit "Author: " ++ orStr (Session.author session) []] else [])
       ++ (if truthyStr (Session.notes session)
           then [lit "Context: " ++ slice (orStr (Session.notes session) []) 0 200]
           else [])) in
  [10%N; 10%N] ++ lit "DOCUMENT CONTEXT: " ++ contextInfo ++ [10%N; 10%N]
  ++ lit "Please consider this document context when summarizing and explain how this section relates to the broader work.".

(** [contextualPrompt]: the preset's prompt, with the document context. *)
Definition contextualPromptOf (cfg : Config.t) (preset : option Preset.t) : jsstring :=
  let base :=
    orStr (match preset with Some p => Preset.prompt p | None => None end)
          DEFAULT_SUMMARY_PROMPT in
  match Config.activeDocumentSession cfg with
  | Some session => base ++ contextAddition session
  | None => base
  end.

(** A value used as the end index of a [slice]: a number, [undefined] (an
    absent property) or [NaN] (arithmetic on [undefined] or on an object). *)
Inductive Limit :=
| LimNum (n : Z)
| LimUndefined
| LimNaN.

(** [s.slice(0, lim)] *)
Definition sliceTo (s : jsstring) (lim : Limit) : jsstring :=
  match lim with
  | LimNum n => slice s 0 n
  | LimUndefined => s
  | LimNaN => []
  end.

(** [s.length > lim] *)
Definition longerThan (s : jsstring) (lim : Limit) : bool :=
  match lim with
  | LimNum n => n <? strlen s
  | _ => false
  end.

(** [Math.ceil(a / b)] for integers with [b > 0]. *)
Definition ceilDiv (a b : Z) : Z := - ((- a) / b).

(** [Math.ceil(contextualPrompt.length / 4)] *)
Definition systemPromptTokensOf (contextualPrompt : jsstring) : Z :=
  ceilDiv (strlen contextualPrompt) 4.

(** [Math.ceil(contextLimit * 0.1)]: the ceiling of a tenth.  For each
    limit of [MODEL_CONTEXT_LIMITS] the double product [contextLimit * 0.1]
    has this same ceiling ([safetyMarginOf_double]). *)
Definition safetyMarginOf (contextLimit : Z) : Z := ceilDiv contextLimit 10.

Definition getMaxInputLength (cfg : Config.t) (contextualPrompt : jsstring)
  (provider : jsstring) (model : option jsstring) (unlimitedMode : jsval) : Limit :=
  if negb (truthy unlimitedMode) then
    match Config.maxInputChars cfg with
    | Some n => LimNum n
    | None => LimUndefined
    end
  else
    match modelOrDefault model provider with
    | None => LimNum MAX_TEXT_LEN
    | Some modelKey =>
        match lookup MODEL_CONTEXT_LIMITS modelKey with
        | None =>
            (* an inherited name gives a function or object, not [undefined]:
               the test [!contextLimit] fails and the arithmetic yields NaN *)
            if inherited modelKey then LimNaN else LimNum MAX_TEXT_LEN
        | Some contextLimit =>
            let systemPromptTokens := systemPromptTokensOf contextualPrompt in
            match Config.maxOutputTokens cfg with
            | None => LimNaN
            | Some responseTokens =>
                let safetyMargin := safetyMarginOf contextLimit in
                let availableTokens :=
                  contextLimit - systemPromptTokens - responseTokens - safetyMargin in
                LimNum (Z.max 5000 (availableTokens * 4))
            end
        end
    end.

(** How a synchronous stretch of [runSummary] ends. *)
Inductive Outcome :=
| Returned                          (* the function returned *)
| AwaitingCapture                   (* suspended in [await captureSelectionText()] *)
| AwaitingProvider (c : ProviderCall) (* suspended in [await summarizeWithProvider(...)] *).

(** [runSummary], from the trigger to the first [await]. *)
Definition runSummary_begin (cfg : Config.t) (now : Z) (st : State)
  : State * list Event * Outcome :=
  if negb (keyPresent cfg) then
    let (st1, ev1) := ensurePopupShown now st in
    (st1, ev1 ++ [SendSummary NoApiKeyGuidance], Returned)
  else (st, [], AwaitingCapture).

(** [preset?.id || 'default'] *)
Definition presetIdOf (preset : option Preset.t) : jsstring :=
  orStr (match preset with Some p => Preset.id p | None => None end) (lit "default").

(** The request fingerprint. *)
Definition fingerprint (selection : jsstring) (preset : option Preset.t) : jsstring :=
  hashString (selection ++ lit "|" ++ presetIdOf preset).

(** [runSummary] after the toggle test: record the request, bring the
    popup up, mark the request in flight, cut the selection to the
    effective ceiling and call the provider. *)
Definition runSummary_request (cfg : Config.t) (preset : option Preset.t)
  (selection newHash : jsstring) (now : Z) (st : State)
  : State * list Event * Outcome :=
  let active := activeOf cfg in
  let st1 :=
    mkState (popupWindow st) (popupAutoHideTimer st) (popupFading st)
            selection newHash (summaryInFlight st) (lastPopupShowTs st) in
  let (st2, ev2) := ensurePopupShown now st1 in
  let st3 :=
    mkState (popupWindow st2) (popupAutoHideTimer st2) (popupFading st2)
            (lastSelectionText st2) (lastSummaryInputHash st2) true
            (lastPopupShowTs st2) in
  let pCfg :=
    match activeProviderCfg cfg active with
    | Some p => p
    | None => ProviderCfg.empty
    end in
  let contextualPrompt := contextualPromptOf cfg preset in
  let effectiveMaxLength :=
    getMaxInputLength cfg contextualPrompt active (ProviderCfg.model pCfg)
                      (Config.unlimitedInput cfg) in
  let limitedSelection := sliceTo selection effectiveMaxLength in
  let warning :=
    match effectiveMaxLength with
    | LimNum n =>
        if longerThan selection effectiveMaxLength then
          [SendSummary
             (WorkingTruncated
                (strlen selection - n)
                (if truthy (Config.unlimitedInput cfg) then ModelContextLimit
                 else match Config.activeDocumentSession cfg with
                      | Some _ => DocumentContext
                      | None => SafetyLimit
                      end)
                (slice limitedSelection 0 160))]
        else []
    | _ => []
    end in
  let call :=
    mkCall active (ProviderCfg.key pCfg) (ProviderCfg.model pCfg)
           contextualPrompt limitedSelection in
  (st3,
   ev2 ++ [SendSummary (Working (slice selection 0 160))] ++ warning
       ++ [CallProvider call],
   AwaitingProvider call).

(** [selection] once the empty capture has its placeholder. *)
Definition selectionOf (captured : jsstring) : jsstring :=
  if nonEmpty captured then captured else lit "(No selection)".

(** [runSummary], from the moment [captureSelectionText()] has resolved to
    [captured] until the provider call is awaited (or the function returns).
    [now] is [Date.now()] in this stretch. *)
Definition runSummary_captured (cfg : Config.t) (preset : option Preset.t)
  (captured : jsstring) (now : Z) (sendOk : bool) (st : State)
  : State * list Event * Outcome :=
  let selection := selectionOf captured in
  let newHash := fingerprint selection preset in
  if isVisible (popupWindow st) && streqb newHash (lastSummaryInputHash st) then
    let elapsed := now - lastPopupShowTs st in
    if negb (summaryInFlight st) || (800 <? elapsed) then
      let (st1, ev1) := scheduleHidePopup sendOk st in
      (st1, ev1, Returned)
    else
      (* "Otherwise ignore the spurious repeat trigger": there is no return
         here, the function goes on *)
      runSummary_request cfg preset selection newHash now st
  else runSummary_request cfg preset selection newHash now st.

(** [runSummary], once the provider call has settled with [settled]; an
    exception is shown as [e.message || String(e)]. *)
Definition runSummary_settled (fullText : jsstring) (settled : result jsstring)
  (st : State) : State * list Event :=
  let send m :=
    match popupWindow st with
    | Window _ => [SendSummary m]
    | NoWindow => []
    end in
  (mkState (popupWindow st) (popupAutoHideTimer st) (popupFading st)
           (lastSelectionText st) (lastSummaryInputHash st) false
           (lastPopupShowTs st),
   match settled with
   | Ok summary => send (SummaryResult summary fullText)
   | Throw e => send (SummaryError (errorText e))
   end).

(* ====================================================================== *)
(** * Settings handlers *)

(** Assignments to one field of the configuration ([cfg.theme = v], ...). *)
Definition with_providers (v : list (jsstring * ProviderCfg.t)) (c : Config.t) : Config.t :=
  Config.mk v (Config.active c) (Config.theme c) (Config.autoCopySelection c)
     (Config.autoHideMs c) (Config.markdownMode c) (Config.markdownEnabled c)
     (Config.onboarded c) (Config.hotkeys_summarize c) (Config.summaryPresets c)
     (Config.unlimitedInput c) (Config.maxInputChars c) (Config.maxOutputTokens c)
     (Config.activeDocumentSession c).

Definition with_active (v : option jsstring) (c : Config.t) : Config.t :=
  Config.mk (Config.providers c) v (Config.theme c) (Config.autoCopySelection c)
     (Config.autoHideMs c) (Config.markdownMode c) (Config.markdownEnabled c)
     (Config.onboarded c) (Config.hotkeys_summarize c) (Config.summaryPresets c)
     (Config.unlimitedInput c) (Config.maxInputChars c) (Config.maxOutputTokens c)
     (Config.activeDocumentSession c).

Definition with_theme (v : option jsstring) (c : Config.t) : Config.t :=
  Config.mk (Config.providers c) (Config.active c) v (Config.autoCopySelection c)
     (Config.autoHideMs c) (Config.markdownMode c) (Config.markdownEnabled c)
     (Config.onboarded c) (Config.hotkeys_summarize c) (Config.summaryPresets c)
     (Config.unlimitedInput c) (Config.maxInputChars c) (Config.maxOutputTokens c)
     (Config.activeDocumentSession c).

Definition with_autoCopySelection (v : jsval) (c : Config.t) : Config.t :=
  Config.mk (Config.providers c) (Config.active c) (Config.theme c) v
     (Config.autoHideMs c) (Config.markdownMode c) (Config.markdownEnabled c)
     (Config.onboarded c) (Config.hotkeys_summarize c) (Config.summaryPresets c)
     (Config.unlimitedInput c) (Config.maxInputChars c) (Config.maxOutputTokens c)
     (Config.activeDocumentSession c).

Definition with_autoHideMs (v : jsval) (c : Config.t) : Config.t :=
  Config.mk (Config.providers c) (Config.active c) (Config.theme c)
     (Config.autoCopySelection c) v (Config.markdownMode c) (Config.markdownEnabled c)
     (Config.onboarded c) (Config.hotkeys_summarize c) (Config.summaryPresets c)
     (Config.unlimitedInput c) (Config.maxInputChars c) (Config.maxOutputTokens c)
     (Config.activeDocumentSession c).

Definition with_markdownMode (v : jsval) (c : Config.t) : Config.t :=
  Config.mk (Config.providers c) (Config.active c) (Config.theme c)
     (Config.autoCopySelection c) (Config.autoHideMs c) v (Config.markdownEnabled c)
     (Config.onboarded c) (Config.hotkeys_summarize c) (Config.summaryPresets c)
     (Config.unlimitedInput c) (Config.maxInputChars c) (Config.maxOutputTokens c)
     (Config.activeDocumentSession c).

Definition with_unlimitedInput (v : jsval) (c : Config.t) : Config.t :=
  Config.mk (Config.providers c) (Config.active c) (Config.theme c)
     (Config.autoCopySelection c) (Config.autoHideMs c) (Config.markdownMode c)
     (Config.markdownEnabled c) (Config.onboarded c) (Config.hotkeys_summarize c)
     (Config.summaryPresets c) v (Config.maxInputChars c) (Config.maxOutputTokens c)
     (Config.activeDocumentSession c).

Definition with_maxInputChars (v : option Z) (c : Config.t) : Config.t :=
  Config.mk (Config.providers c) (Config.active c) (Config.theme c)
     (Config.autoCopySelection c) (Config.autoHideMs c) (Config.markdownMode c)
     (Config.markdownEnabled c) (Config.onboarded c) (Config.hotkeys_summarize c)
     (Config.summaryPresets c) (Config.unlimitedInput c) v (Config.maxOutputTokens c)
     (Config.activeDocumentSession c).

Definition with_maxOutputTokens (v : option Z) (c : Config.t) : Config.t :=
  Config.mk (Config.providers c) (Config.active c) (Config.theme c)
     (Config.autoCopySelection c) (Config.autoHideMs c) (Config.markdownMode c)
     (Config.markdownEnabled c) (Config.onboarded c) (Config.hotkeys_summarize c)
     (Config.summaryPresets c) (Config.unlimitedInput c) (Config.maxInputChars c) v
     (Config.activeDocumentSession c).

(** [a !== b] on optional strings. *)
Definition optStrEqb (a b : option jsstring) : bool :=
  match a, b with
  | Some x, Some y => streqb x y
  | None, None => true
  | _, _ => false
  end.

(** The themes [saveConfig(mutator)] broadcasts to the open windows:
    [if(beforeTheme !== newCfg.theme) broadcastTheme(newCfg.theme)]. *)
Definition saveConfig_broadcasts (mutator : Config.t -> Config.t) (s : Store)
  : list (option jsstring) :=
  let beforeTheme := Config.theme (fst (loadConfig s)) in
  let newTheme := Config.theme (fst (saveConfig mutator s)) in
  if optStrEqb beforeTheme newTheme then [] else [newTheme].

(** ['clipai:set-theme'] *)
Definition setTheme (theme : option jsstring) (s : Store) : Config.t * Store :=
  saveConfig (with_theme theme) s.

(** ['clipai:set-active-provider'] *)
Definition setActiveProvider (provider : option jsstring) (s : Store)
  : Config.t * Store :=
  saveConfig (with_active provider) s.

(** The mutator of ['clipai:save-provider-key']:
    [cfg.providers[provider] = cfg.providers[provider] || {};
     cfg.providers[provider].key = key;
     if(model) cfg.providers[provider].model = model],
    for a provider name that is not inherited from [Object.prototype]
    ([inherited provider = false]).  For an inherited name without an own
    entry the code writes [key] to the shared inherited object instead (for
    ['__proto__'], to [Object.prototype] itself), which the configuration
    does not hold; statements about this handler exclude those names. *)
Definition storeProviderKey (provider : jsstring) (key model : option jsstring)
  (cfg : Config.t) : Config.t :=
  let cur :=
    match lookup (Config.providers cfg) provider with
    | Some c => c
    | None => ProviderCfg.empty
    end in
  let cur' :=
    ProviderCfg.mk key (if truthyStr model then model else ProviderCfg.model cur) in
  with_providers (setProvider provider cur' (Config.providers cfg)) cfg.

(** ['clipai:save-provider-key'] *)
Definition saveProviderKey (provider : jsstring) (key model : option jsstring)
  (s : Store) : Config.t * Store :=
  saveConfig (storeProviderKey provider key model) s.

(** ['clipai:set-markdown-mode']:
    [if(!allowed.includes(mode)) mode = 'full']. *)
Definition setMarkdownMode (mode : jsval) (s : Store) : Config.t * Store :=
  let allowed := [lit "off"; lit "light"; lit "full"] in
  let mode' :=
    match mode with
    | JStr m => if includes allowed m then mode else JStr (lit "full")
    | _ => JStr (lit "full")
    end in
  saveConfig (with_markdownMode mode') s.

(** [n || d] on the result of [parseInt]; [None] is [NaN]. *)
Definition orNum (parsed : option Z) (d : Z) : Z :=
  match parsed with
  | Some n => if n =? 0 then d else n
  | None => d
  end.

(** ['clipai:set-max-input-chars'].  [parsed] is [parseInt(chars)];
    the handler returns [validChars]. *)
Definition setMaxInputChars (parsed : option Z) (s : Store) : Z * (Config.t * Store) :=
  let validChars := Z.max 1000 (Z.min 100000 (orNum parsed 25000)) in
  (validChars, saveConfig (with_maxInputChars (Some validChars)) s).

(** ['clipai:set-max-output-tokens'].  [parsed] is [parseInt(tokens)]. *)
Definition setMaxOutputTokens (parsed : option Z) (s : Store) : Z * (Config.t * Store) :=
  let validTokens := Z.max 100 (Z.min 25000 (orNum parsed 800)) in
  (validTokens, saveConfig (with_maxOutputTokens (Some validTokens)) s).

(** ['clipai:set-auto-hide-ms'] for a numeric [ms]:
    [cfg.autoHideMs = Math.min(30000, Math.max(0, (ms|0)))]. *)
Definition setAutoHideMs (ms : Z) (s : Store) : Config.t * Store :=
  saveConfig (with_autoHideMs (JNum (clampAutoHide ms))) s.

(** The mutator of ['clipai:reset-preferences'], given the configuration
    read before the save: presets, providers and the active provider are
    written back, the preferences get their defaults. *)
Definition resetPreferencesMutator (cfg cfgToUpdate : Config.t) : Config.t :=
  Config.mk (Config.providers cfg)
            (Some (orStr (Config.active cfg) (lit "openai")))
            (Some (lit "light"))
            (JBool true)
            (JNum 0)
            (JStr (lit "full"))
            (Config.markdownEnabled cfgToUpdate)
            (Config.onboarded cfgToUpdate)
            (Config.hotkeys_summarize cfgToUpdate)
            (Config.summaryPresets cfg)
            (JBool false)
            (Some MAX_TEXT_LEN)
            (Some 800)
            (Config.activeDocumentSession cfgToUpdate).

(** ['clipai:reset-preferences'] *)
Definition resetPreferences (s : Store) : Config.t * Store :=
  let (cfg, s1) := loadConfig s in
  saveConfig (resetPreferencesMutator cfg) s1.


(* ====================================================================== *)
(** * Model listing *)

(** An entry of [_modelCache]: [{ ts, list }]. *)
Record ModelCacheEntry := mkEntry {
  entry_ts : Z;
  entry_list : list jsstring
}.

Definition ModelCache := list (jsstring * ModelCacheEntry).

(** [_modelCache[cacheKey] = entry] *)
Fixpoint cachePut (cacheKey : jsstring) (e : ModelCacheEntry) (cache : ModelCache)
  : ModelCache :=
  match cache with
  | [] => [(cacheKey, e)]
  | (k, w) :: rest =>
      if streqb k cacheKey then (k, e) :: rest else (k, w) :: cachePut cacheKey e rest
  end.

(** Ten minutes. *)
Definition TTL : Z := 10 * 60 * 1000.

(** [[PROVIDER_DEFAULT_MODELS[prov]].filter(Boolean)] *)
Definition defaultModelList (prov : jsstring) : list jsstring :=
  match lookup PROVIDER_DEFAULT_MODELS prov with
  | Some m => if nonEmpty m then [m] else []
  | None => []
  end.

(** [n.replace(/^models\//, '')] *)
Definition stripModelsPrefix (n : jsstring) : jsstring :=
  if isPrefix (lit "models/") n then skipn 7 n else n.

(** [re.test(m)] for a case-insensitive alternation of ASCII words. *)
Definition testAny (words : list jsstring) (m : jsstring) : bool :=
  existsb (strIncludes (toLowerCase m)) words.

Definition allowWords : list jsstring :=
  [lit "gpt-5"; lit "gpt-4"; lit "grok"; lit "llama"; lit "gemini"; lit "claude"].

Definition denyWords : list jsstring :=
  [lit "embed"; lit "embedding"; lit "moderation"; lit "audio"; lit "image";
   lit "vision"; lit "whisper"].

(** The loop
    [for(const id of filtered){ if(!seen.has(id)){ seen.add(id); out.push(id);
       if(out.length>=150) break; } }]. *)
Fixpoint dedupeCap (ids seen out : list jsstring) : list jsstring :=
  match ids with
  | [] => out
  | id :: rest =>
      if includes seen id then dedupeCap rest seen out
      else
        let out' := out ++ [id] in
        if (150 <=? List.length out')%nat then out'
        else dedupeCap rest (id :: seen) out'
  end.

(** The list built from the identifiers a provider returned. *)
Definition selectModels (prov : jsstring) (ids : list jsstring) : list jsstring :=
  let raw := if streqb prov (lit "gemini") then map stripModelsPrefix ids else ids in
  let filtered := filter (fun m => testAny allowWords m && negb (testAny denyWords m)) raw in
  let filtered := match filtered with [] => raw | _ => filtered end in
  let out := dedupeCap filtered [] [] in
  match out with
  | [] => defaultModelList prov
  | _ => out
  end.

(** [listModels(provider)] at time [now].  [fetched] is what the listing
    request yields: the identifiers of the response, or an exception (no
    connection, a non-ok status, a body that does not parse). *)
Definition listModels (cfg : Config.t) (provider : option jsstring) (now : Z)
  (fetched : result (list jsstring)) (cache : ModelCache)
  : list jsstring * ModelCache :=
  let prov := orStr provider (activeOf cfg) in
  let keyObj :=
    match lookup (Config.providers cfg) prov with
    | Some c => c
    | None => ProviderCfg.empty
    end in
  let apiKey := ProviderCfg.key keyObj in
  let cacheKey :=
    prov ++ lit "|" ++ (if truthyStr apiKey then slice (orStr apiKey []) 0 8 else []) in
  let store list := (list, cachePut cacheKey (mkEntry now list) cache) in
  let fresh :=
    if streqb prov (lit "anthropic") then
      store [lit "claude-3"; lit "claude-instant"; lit "claude-classic"]
    else if streqb prov (lit "grok") then
      if negb (truthyStr apiKey) then store [lit "grok-4"]
      else
        match fetched with
        | Ok ids =>
            let raw := filter (fun id => testAny [lit "grok"] id) ids in
            store (match raw with [] => [lit "grok-4"] | _ => raw end)
        | Throw _ => store [lit "grok-4"]
        end
    else if negb (truthyStr apiKey) then store (defaultModelList prov)
    else if streqb prov (lit "openai") || streqb prov (lit "groq")
            || streqb prov (lit "gemini") then
      match fetched with
      | Ok ids => store (selectModels prov ids)
      | Throw _ => store (defaultModelList prov)
      end
    else (defaultModelList prov, cache) in
  match lookup cache cacheKey with
  | Some e => if now - entry_ts e <? TTL then (entry_list e, cache) else fresh
  | None => fresh
  end.

(* ====================================================================== *)
(** * Popup placement *)

(** The display nearest to the cursor: [bounds.x], [bounds.y],
    [workArea.width], [workArea.height]. *)
Record Display := mkDisplay {
  bounds_x : Z;
  bounds_y : Z;
  workArea_width : Z;
  workArea_height : Z
}.

(** The [x] and [y] [showPopupNearCursor] gives the 480 x 180 popup for a
    cursor at [(px, py)]. *)
Definition popupPosition (px py : Z) (display : Display) : Z * Z :=
  let padding := 24 in
  let targetW := 480 in
  let targetH := 180 in
  (Z.min (Z.max (px - 240) (bounds_x display + padding))
         (bounds_x display + workArea_width display - targetW - padding),
   Z.min (Z.max (py + 24) (bounds_y display + padding))
         (bounds_y display + workArea_height display - targetH - padding)).

(* ====================================================================== *)
(** * Notions used in the statements *)

(** The input ceiling in the words of the specification:
    [max(5000, floor(4 * (L - systemPromptTokens - maxOutputTokens - 0.1*L)))]. *)
Definition specCeiling (L systemPromptTokens maxOutputTokens : Z) : Z :=
  Z.max 5000
    (Qfloor (4 * (inject_Z L - inject_Z systemPromptTokens
                  - inject_Z maxOutputTokens - (1 # 10) * inject_Z L))%Q).

(** The same formula with the safety margin rounded up to a whole token:
    [max(5000, floor(4 * (L - systemPromptTokens - maxOutputTokens - ceil(0.1*L))))]. *)
Definition ceilingWithRoundedMargin (L systemPromptTokens maxOutputTokens : Z) : Z :=
  Z.max 5000
    (Qfloor (4 * (inject_Z L - inject_Z systemPromptTokens
                  - inject_Z maxOutputTokens
                  - inject_Z (Qceiling ((1 # 10) * inject_Z L))))%Q).

(** The user text a request body carries: the [user] message, or for Gemini
    the part of the single text after ["\n\nINPUT:\n"]. *)
Definition carriesUserText (b : Body) (finalSystem u : jsstring) : Prop :=
  match b with
  | ChatBody _ _ user _ => user = u
  | AnthropicBody _ _ _ user => user = u
  | GeminiBody text _ =>
      text = finalSystem ++ [10%N; 10%N] ++ lit "INPUT:" ++ [10%N] ++ u
  end.

(** Presets flagged as default ([p.isDefault] truthy), and those whose flag
    is the boolean [true]. *)
Definition countFlagged (l : list Preset.t) : nat :=
  List.length (filter flaggedDefault l).

Definition isDefaultTrue (p : Preset.t) : bool :=
  match Preset.isDefault p with JBool true => true | _ => false end.

Definition countDefaultTrue (l : list Preset.t) : nat :=
  List.length (filter isDefaultTrue l).

(** A submitted preset the handler keeps as the default: [isDefault === true]
    and the id ['default']. *)
Definition submittedAsDefault (p : Preset.t) : bool :=
  isDefaultTrue p
  && match Preset.id p with Some i => streqb i (lit "default") | None => false end.

(** The cache only ever holds what [loadConfig] computed. *)
Definition cacheInv (s : Store) : Prop :=
  configCache s = None \/ exists raw, configCache s = Some (migrate raw).

(** How many provider calls a trace starts. *)
Definition isCallProvider (e : Event) : bool :=
  match e with CallProvider _ => true | _ => false end.

Definition providerCalls (evs : list Event) : nat :=
  List.length (filter isCallProvider evs).

(** The model whose context limit the flow looks up: the active provider's
    configured model, or the provider's default model. *)
Definition activeModel (cfg : Config.t) : option jsstring :=
  modelOrDefault
    (ProviderCfg.model
       (match activeProviderCfg cfg (activeOf cfg) with
        | Some p => p
        | None => ProviderCfg.empty
        end))
    (activeOf cfg).

(** The ceiling a run of the flow computes. *)
Definition effectiveMaxLengthOf (cfg : Config.t) (preset : option Preset.t) : Limit :=
  getMaxInputLength cfg (contextualPromptOf cfg preset) (activeOf cfg)
    (ProviderCfg.model
       (match activeProviderCfg cfg (activeOf cfg) with
        | Some p => p
        | None => ProviderCfg.empty
        end))
    (Config.unlimitedInput cfg).

(** The provider call a run makes for [selection]. *)
Definition providerCallOf (cfg : Config.t) (preset : option Preset.t)
  (selection : jsstring) : ProviderCall :=
  let pCfg :=
    match activeProviderCfg cfg (activeOf cfg) with
    | Some p => p
    | None => ProviderCfg.empty
    end in
  mkCall (activeOf cfg) (ProviderCfg.key pCfg) (ProviderCfg.model pCfg)
         (contextualPromptOf cfg preset)
         (sliceTo selection (effectiveMaxLengthOf cfg preset)).

(** The product [contextLimit * 0.1] as the engine computes it, in binary64
    ([0.1] is the double [0x1.999999999999ap-4]), and the test that its
    [Math.ceil] is the integer [c]: [c - 1 < x <= c]. *)
Definition doubleOfZ (z : Z) : float := PrimFloat.of_uint63 (Uint63.of_Z z).

Definition tenthAsDouble (contextLimit : Z) : float :=
  PrimFloat.mul (doubleOfZ contextLimit) 0x1.999999999999ap-4%float.

Definition ceilIs (x : float) (c : Z) : bool :=
  PrimFloat.ltb (doubleOfZ (c - 1)) x && PrimFloat.leb x (doubleOfZ c).

(** The parts of what a synchronous stretch yields. *)
Definition stateOf (r : State * list Event * Outcome) : State := fst (fst r).
Definition eventsOf (r : State * list Event * Outcome) : list Event := snd (fst r).
Definition outcomeOf (r : State * list Event * Outcome) : Outcome := snd r.

(** The key stored for a provider, if any. *)
Definition keyOf (m : list (jsstring * ProviderCfg.t)) (p : jsstring) : option jsstring :=
  match lookup m p with
  | Some c => ProviderCfg.key c
  | None => None
  end.

(** The model stored for a provider, if any. *)
Definition modelOf (m : list (jsstring * ProviderCfg.t)) (p : jsstring) : option jsstring :=
  match lookup m p with
  | Some c => ProviderCfg.model c
  | None => None
  end.

(** The hotkeys of the presets that have one ([p.hotkey] truthy), in order. *)
Definition boundHotkeys (l : list Preset.t) : list jsval :=
  filter truthy (map Preset.hotkey l).

(** The conflicts the preset handler reports for a list. *)
Definition conflictsOf (l : list Preset.t) : list Conflict :=
  snd (fold_left conflictStep l ([], [])).

(** A preset as the handler stores a submitted one: an id, a name of 1 to
    48 units, a prompt of 1 to 1,200 units, a normalized accelerator and a
    boolean default flag. *)
Definition wellFormedPreset (p : Preset.t) : Prop :=
  (exists i, Preset.id p = Some i)
  /\ (exists n, Preset.name p = Some n /\ 1 <= strlen n <= 48)
  /\ (exists q, Preset.prompt p = Some q /\ 1 <= strlen q <= 1200)
  /\ (exists h, Preset.hotkey p = JStr h)
  /\ (exists b, Preset.isDefault p = JBool b).

(** The modifier a token of an accelerator stands for, if it is one. *)
Definition modifierOf (p : jsstring) : option jsstring :=
  let up := toLowerCase p in
  if includes [lit "cmd"; lit "command"; lit "commandorcontrol"] up
  then Some (lit "CommandOrControl")
  else if includes [lit "ctrl"; lit "control"] up then Some (lit "Control")
  else if includes [lit "alt"; lit "option"] up then Some (lit "Alt")
  else if includes [lit "shift"] up then Some (lit "Shift")
  else None.

(** The key a token that is not a modifier stands for. *)
Definition keyOfToken (p : jsstring) : jsstring :=
  if includes mouseButtons (toLowerCase p) then p else capitalizeKey p.

(** The canonical order of the modifiers. *)
Definition modifierOrder : list jsstring :=
  [lit "CommandOrControl"; lit "Control"; lit "Alt"; lit "Shift"].

(** Whether some token of [parts] stands for the modifier [m]. *)
Definition mentions (parts : list jsstring) (m : jsstring) : bool :=
  existsb (fun p => match modifierOf p with
                    | Some m' => streqb m' m
                    | None => false
                    end) parts.

(** The key of the last token that is not a modifier, [key0] if none. *)
Definition lastKey (parts : list jsstring) (key0 : jsstring) : jsstring :=
  fold_left (fun key p => match modifierOf p with
                          | Some _ => key
                          | None => keyOfToken p
                          end) parts key0.

(** Whether [captureSelectionText] simulates the copy keystroke: auto-copy
    is not switched off and the platform is macOS, Windows or Linux. *)
Definition copyAttempted (cfg : Config.t) (platform : Platform) : bool :=
  match Config.autoCopySelection cfg with
  | JBool false => false
  | _ => match platform with OtherPlatform => false | _ => true end
  end.

(** The model name the Gemini branch of the gateway puts into the URL:
    [(model || PROVIDER_DEFAULT_MODELS.gemini).replace(/:generateContent$/, '')]. *)
Definition geminiModelName (model : option jsstring) : jsstring :=
  stripGenerateContent (orStr model (lit "gemini-2.5-flash-lite")).

(** A value that, if it is a string, is an ASCII string. *)
Definition asciiVal (v : jsval) : bool :=
  match v with
  | JStr s => isAscii s
  | _ => true
  end.

(** A string that does not start with white space. *)
Definition noLeadingSpace (s : jsstring) : bool :=
  match s with
  | [] => true
  | c :: _ => negb (isWhiteSpace c)
  end.

(** A string as the tokens of an accelerator are: not empty, no white space
    at either end, no ['+'] inside. *)
Definition isToken (s : jsstring) : bool :=
  nonEmpty s && noLeadingSpace s && noLeadingSpace (rev s)
  && negb (existsb (N.eqb 43) s).

(** The key under which [listModels] caches a listing:
    [prov + '|' + (apiKey ? apiKey.slice(0,8) : '')]. *)
Definition modelCacheKey (cfg : Config.t) (provider : option jsstring) : jsstring :=
  let prov := orStr provider (activeOf cfg) in
  let apiKey := keyOf (Config.providers cfg) prov in
  prov ++ lit "|" ++ (if truthyStr apiKey then slice (orStr apiKey []) 0 8 else []).

(** No listing younger than ten minutes is cached under the key. *)
Definition noFreshEntry (cache : ModelCache) (cacheKey : jsstring) (now : Z) : Prop :=
  match lookup cache cacheKey with
  | Some e => TTL <= now - entry_ts e
  | None => True
  end.

(** A model identifier the listing keeps when any identifier passes. *)
Definition wantedModel (m : jsstring) : bool :=
  testAny allowWords m && negb (testAny denyWords m).

(** The identifiers of a listing response as [listModels] reads them:
    Gemini names lose a leading ["models/"]. *)
Definition rawModels (prov : jsstring) (ids : list jsstring) : list jsstring :=
  if streqb prov (lit "gemini") then map stripModelsPrefix ids else ids.

(* ====================================================================== *)
(** * Sample documents and inputs *)

(** A document with nothing but the legacy flag [markdownEnabled]. *)
Definition legacyMarkdownDoc (b : bool) : Config.t :=
  Config.mk [] None None JUndefined JUndefined JUndefined (JBool b) JUndefined
            None [] JUndefined None None None.

(** A preset with the id ['default'] flagged [isDefault: true]. *)
Definition flaggedPreset (name : string) : Preset.t :=
  Preset.mk (Some (lit "default")) (Some (lit name)) (Some (lit "Explain"))
            (JStr (lit "Alt+E")) (JBool true).

(** A preset that is not the default. *)
Definition plainPreset : Preset.t :=
  Preset.mk (Some (lit "p_1")) (Some (lit "Explain")) (Some (lit "Explain"))
            (JStr (lit "Alt+E")) (JBool false).

(** A document whose preset list holds two default-flagged presets. *)
Definition twoDefaultsDoc : Config.t :=
  Config.with_summaryPresets [flaggedPreset "A"; flaggedPreset "B"] Config.empty.

(** A document with one preset, not flagged. *)
Definition noDefaultDoc : Config.t :=
  Config.with_summaryPresets [plainPreset] Config.empty.

Definition coldStore (doc : Config.t) : Store := mkStore None (Some doc).

(** Generated identifiers [p_0], [p_1], ... *)
Definition sampleGenId (i : nat) : jsstring := lit "p_" ++ decimal (Z.of_nat i).

(** Auto-copy switched off, everything else absent. *)
Definition autoCopyOffCfg : Config.t :=
  Config.mk [] None None (JBool false) JUndefined JUndefined JUndefined JUndefined
            None [] JUndefined None None None.

(** The response of a provider that rejects the key. *)
Definition unauthorized : Response :=
  mkResponse 401 (lit "{ error: invalid api key }") (Throw (Error (lit "unused"))).

(** A transport that answers every request with [unauthorized]. *)
Definition rejectingFetch (_ : Request) : FetchOutcome := Ok unauthorized.

(** A document with a key for the given provider and model. *)
Definition docWith (provider model : string) (unlimited : jsval)
  (maxInputChars : option Z) : Config.t :=
  Config.mk [(lit provider, ProviderCfg.mk (Some (lit "sk-test")) (Some (lit model)))]
            (Some (lit provider)) None JUndefined JUndefined JUndefined JUndefined
            JUndefined None [] unlimited maxInputChars None None.

(** The configuration loaded from a document that sets OpenAI's [gpt-4]
    with unlimited input. *)
Definition gpt4UnlimitedCfg : Config.t :=
  fst (loadConfig (coldStore (docWith "openai" "gpt-4" (JBool true) None))).

(** The configuration loaded from a document with a Gemini key and the
    fixed cap at 1,000 characters. *)
Definition geminiCfg : Config.t :=
  fst (loadConfig (coldStore (docWith "gemini" "gemini-1.5-flash" JUndefined (Some 1000)))).

(** The configuration loaded from a document whose [maxInputChars] is
    negative. *)
Definition negativeCapCfg : Config.t :=
  fst (loadConfig (coldStore (docWith "gemini" "gemini-1.5-flash" (JBool false) (Some (-5))))).

(** [cfg.summaryPresets[0]], the preset the main hotkey runs. *)
Definition firstPreset (cfg : Config.t) : option Preset.t :=
  hd_error (Config.summaryPresets cfg).

(** A selection of 1,200 units. *)
Definition longSelection : jsstring := repeat 97%N 1200.

Definition shortText : jsstring := lit "hello".

(** The popup as the first trigger on [shortText] at time 1000 leaves it:
    shown, the request in flight. *)
Definition afterFirstTrigger : State * list Event * Outcome :=
  runSummary_captured geminiCfg (firstPreset geminiCfg) shortText 1000 true initialState.

(** The same trigger repeated 200 ms later, the first call still pending. *)
Definition afterRepeatTrigger : State * list Event * Outcome :=
  runSummary_captured geminiCfg (firstPreset geminiCfg) shortText 1200 true
                      (stateOf afterFirstTrigger).

(** The popup once the first call has settled. *)
Definition afterFirstSettled : State :=
  fst (runSummary_settled shortText (Ok (lit "A greeting.")) (stateOf afterFirstTrigger)).

(** A document with ten stored presets, none flagged default. *)
Definition tenPlainDoc : Config.t :=
  Config.with_summaryPresets (repeat plainPreset 10) Config.empty.

(** Ten submitted presets with the ids [u0] ... [u9], none the default. *)
Definition userPreset (i : nat) : Preset.t :=
  Preset.mk (Some (lit "u" ++ decimal (Z.of_nat i))) (Some (lit "Mine"))
            (Some (lit "Explain")) JUndefined (JBool false).

Definition tenUserPresets : list Preset.t := map userPreset (seq 0 10).

(** A configuration with three presets: a keyboard binding, a pointer
    binding and a modifier-only binding. *)
Definition bindingsCfg : Config.t :=
  Config.with_summaryPresets
    [ Preset.mk (Some (lit "a")) None None (JStr (lit "ctrl+shift+e")) (JBool true);
      Preset.mk (Some (lit "b")) None None (JStr (lit "alt+middleclick")) (JBool false);
      Preset.mk (Some (lit "c")) None None (JStr (lit "ctrl+alt")) (JBool false) ]
    Config.empty.

(** A successful response whose answer has surrounding white space. *)
Definition answered : Response :=
  mkResponse 200 (lit "{}") (Ok (lit "  A greeting. ")).

(** A Gemini listing with an embedding model and a repeated name. *)
Definition geminiListing : list jsstring :=
  [lit "models/gemini-2.5-flash"; lit "models/embedding-001";
   lit "models/gemini-2.5-flash"; lit "models/gemini-2.5-pro"].

(* ====================================================================== *)
(** * Facts about strings *)

Section StringFacts.

Lemma streqb_eq a b : streqb a b = true <-> a = b.
Proof. unfold streqb; destruct (str_eq_dec a b); split; congruence. Qed.

Lemma streqb_refl a : streqb a a = true.
Proof. apply streqb_eq; reflexivity. Qed.

Lemma includes_app l1 l2 s : includes (l1 ++ l2) s = includes l1 s || includes l2 s.
Proof. unfold includes; apply existsb_app. Qed.

Lemma strlen_nonneg s : 0 <= strlen s.
Proof. unfold strlen; lia. Qed.

(** [s.slice(0, n)] keeps the first [min n len] units when [n >= 0]. *)
Lemma slice_0_firstn s n :
  0 <= n -> slice s 0 n = firstn (Z.to_nat (Z.min n (strlen s))) s.
Proof.
  intros Hn. unfold slice, clampIndex.
  pose proof (strlen_nonneg s) as Hl.
  destruct (0 <? 0) eqn:E0; [apply Z.ltb_lt in E0; lia|].
  destruct (n <? 0) eqn:En; [apply Z.ltb_lt in En; lia|].
  rewrite (Z.min_l 0 (strlen s)) by lia. simpl skipn.
  f_equal. lia.
Qed.

Lemma strlen_slice_0 s n : 0 <= n -> strlen (slice s 0 n) = Z.min n (strlen s).
Proof.
  intros Hn. rewrite slice_0_firstn by assumption.
  unfold strlen. rewrite length_firstn.
  pose proof (strlen_nonneg s) as Hl. unfold strlen in *. lia.
Qed.

Lemma strlen_slice_0_le s n : 0 <= n -> strlen (slice s 0 n) <= n.
Proof. intros Hn. rewrite strlen_slice_0 by assumption. lia. Qed.

(** Cutting at [c] and then at [n <= c] is cutting at [n]. *)
Lemma slice_0_slice_0 s n c :
  0 <= n <= c -> slice (slice s 0 c) 0 n = slice s 0 n.
Proof.
  intros H.
  rewrite (slice_0_firstn (slice s 0 c)) by lia.
  rewrite strlen_slice_0 by lia.
  rewrite !slice_0_firstn by lia.
  rewrite firstn_firstn. f_equal.
  pose proof (strlen_nonneg s). lia.
Qed.

End StringFacts.

(* ====================================================================== *)
(** * Accelerators *)

Section Accelerators.

Lemma acceleratorStep_modifier mods key p :
  isModifierToken p = true ->
  snd (acceleratorStep (mods, key) p) = key.
Proof.
  unfold isModifierToken, acceleratorStep.
  change [lit "cmd"; lit "command"; lit "commandorcontrol";
          lit "ctrl"; lit "control"; lit "alt"; lit "option"; lit "shift"]
    with ([lit "cmd"; lit "command"; lit "commandorcontrol"]
          ++ [lit "ctrl"; lit "control"] ++ [lit "alt"; lit "option"]
          ++ [lit "shift"]).
  rewrite !includes_app.
  destruct (includes [lit "cmd"; lit "command"; lit "commandorcontrol"] _); [reflexivity|].
  destruct (includes [lit "ctrl"; lit "control"] _); [reflexivity|].
  destruct (includes [lit "alt"; lit "option"] _); [reflexivity|].
  destruct (includes [lit "shift"] _); [reflexivity|].
  simpl. discriminate.
Qed.

Lemma accelerator_fold_modifiers parts :
  Forall (fun p => isModifierToken p = true) parts ->
  forall mods key, snd (fold_left acceleratorStep parts (mods, key)) = key.
Proof.
  induction 1 as [|p parts Hp _ IH]; intros mods key; [reflexivity|].
  change (fold_left acceleratorStep (p :: parts) (mods, key))
    with (fold_left acceleratorStep parts (acceleratorStep (mods, key) p)).
  destruct (acceleratorStep (mods, key) p) as [mods' key'] eqn:E.
  rewrite IH. change key' with (snd (mods', key')). rewrite <- E.
  apply acceleratorStep_modifier; assumption.
Qed.

(** C9.  An accelerator string all of whose tokens are modifier names (in
    any casing; in particular the empty and the blank string, which have no
    token at all) normalizes to the empty string, and a preset bound to it
    is not registered as a global shortcut. *)
Theorem normalizeAccelerator_modifiers_only (acc : jsstring) :
  Forall (fun p => isModifierToken p = true) (acceleratorParts acc) ->
  normalizeAccelerator (JStr acc) = []
  /\ forall cfg a p,
       Preset.hotkey p = JStr acc -> ~ In (a, p) (registerShortcuts cfg).
Proof.
  intros Hall.
  assert (Hnorm : normalizeAccelerator (JStr acc) = []).
  { unfold normalizeAccelerator.
    destruct (nonEmpty acc); [|reflexivity]. cbn [negb].
    match goal with
    | |- context [fold_left acceleratorStep ?l ?a] =>
        pose proof (accelerator_fold_modifiers l Hall (fst a) (snd a)) as Hk;
        change (fst a, snd a) with a in Hk;
        destruct (fold_left acceleratorStep l a) as [mods key]
    end.
    cbn [snd] in Hk. subst key. reflexivity. }
  split; [exact Hnorm|].
  intros cfg a p Hp Hin.
  unfold registerShortcuts in Hin. apply in_flat_map in Hin.
  destruct Hin as [q [_ Hq]].
  destruct (nonEmpty (normalizeAccelerator (Preset.hotkey q))) eqn:Eq; simpl in Hq;
    [|contradiction].
  destruct (strIncludes _ (lit "click") || strIncludes _ (lit "mousebutton"));
    [contradiction|].
  destruct Hq as [Hq|[]]. inversion Hq; subst.
  rewrite Hp, Hnorm in Eq. discriminate.
Qed.

Lemma normalizeAccelerator_modifiers_only_witness :
  Forall (fun p => isModifierToken p = true) (acceleratorParts (lit " Ctrl + SHIFT+cmd"))
  /\ normalizeAccelerator (JStr (lit " Ctrl + SHIFT+cmd")) = [].
Proof.
  assert (H : Forall (fun p => isModifierToken p = true)
                     (acceleratorParts (lit " Ctrl + SHIFT+cmd"))).
  { repeat constructor. }
  split; [exact H|].
  exact (proj1 (normalizeAccelerator_modifiers_only (lit " Ctrl + SHIFT+cmd") H)).
Defined.

Example normalizeAccelerator_same_canonical :
  normalizeAccelerator (JStr (lit "ctrl+shift+space"))
  = normalizeAccelerator (JStr (lit "Control+Shift+Space")).
Proof. reflexivity. Qed.

End Accelerators.

(* ====================================================================== *)
(** * Configuration loading *)

Section ConfigFacts.

(** A load with a cold cache runs the migration on the document. *)
Lemma loadConfig_cold doc :
  fst (loadConfig (mkStore None (Some doc))) = migrate doc.
Proof. reflexivity. Qed.

(** [loadConfig] keeps the cache invariant and returns a migrated
    configuration. *)
Lemma loadConfig_migrated s :
  cacheInv s ->
  (exists raw, fst (loadConfig s) = migrate raw) /\ cacheInv (snd (loadConfig s)).
Proof.
  intros [Hc | [raw Hc]]; unfold loadConfig; rewrite Hc; simpl.
  - split; [eexists; reflexivity | right; eexists; reflexivity].
  - split; [exists raw; reflexivity | right; exists raw; exact Hc].
Qed.

Lemma saveConfig_migrated mutator s :
  (exists raw, fst (saveConfig mutator s) = migrate raw)
  /\ cacheInv (snd (saveConfig mutator s)).
Proof.
  unfold saveConfig. destruct (loadConfig s) as [cfg s1].
  apply loadConfig_migrated. left; reflexivity.
Qed.

(** C8.  Loading a document without [markdownMode] whose legacy flag
    [markdownEnabled] is the boolean [b] gives [markdownMode = "full"] when
    [b] is true and ["off"] when it is false. *)
Theorem loadConfig_markdown_migration (doc : Config.t) (b : bool) :
  Config.markdownMode doc = JUndefined ->
  Config.markdownEnabled doc = JBool b ->
  Config.markdownMode (fst (loadConfig (mkStore None (Some doc))))
  = JStr (if b then lit "full" else lit "off").
Proof.
  intros Hm He. rewrite loadConfig_cold.
  unfold migrate. cbn [Config.markdownMode].
  rewrite Hm, He. reflexivity.
Qed.

Lemma loadConfig_markdown_migration_witness :
  Config.markdownMode (fst (loadConfig (mkStore None (Some (legacyMarkdownDoc true)))))
  = JStr (lit "full")
  /\ Config.markdownMode (fst (loadConfig (mkStore None (Some (legacyMarkdownDoc false)))))
     = JStr (lit "off").
Proof.
  split.
  - apply (loadConfig_markdown_migration (legacyMarkdownDoc true) true); reflexivity.
  - apply (loadConfig_markdown_migration (legacyMarkdownDoc false) false); reflexivity.
Defined.

(** What [loadConfig] always fills in. *)
Lemma migrate_numeric_fields raw :
  (exists m, Config.maxInputChars (migrate raw) = Some m /\ m <> 0)
  /\ (exists t, Config.maxOutputTokens (migrate raw) = Some t /\ t <> 0).
Proof.
  unfold migrate; cbn [Config.maxInputChars Config.maxOutputTokens]. split.
  - destruct (Config.maxInputChars raw) as [n|].
    + destruct (n =? 0) eqn:E.
      * eexists; split; [reflexivity | unfold MAX_TEXT_LEN; lia].
      * exists n; split; [reflexivity | apply Z.eqb_neq; exact E].
    + eexists; split; [reflexivity | unfold MAX_TEXT_LEN; lia].
  - destruct (Config.maxOutputTokens raw) as [n|].
    + destruct (n =? 0) eqn:E.
      * eexists; split; [reflexivity | lia].
      * exists n; split; [reflexivity | apply Z.eqb_neq; exact E].
    + eexists; split; [reflexivity | lia].
Qed.

(** ** Default presets *)

Lemma arrSlice0_firstn {A} n (l : list A) :
  0 <= n -> arrSlice0 n l = firstn (Z.to_nat n) l.
Proof.
  intros Hn. unfold arrSlice0, clampIndex.
  destruct (n <? 0) eqn:E; [apply Z.ltb_lt in E; lia|].
  destruct (Z.min_spec n (Z.of_nat (List.length l))) as [[H1 H2]|[H1 H2]]; rewrite H2.
  - reflexivity.
  - rewrite Nat2Z.id. rewrite firstn_all.
    symmetry; apply firstn_all2. lia.
Qed.

Lemma existsb_firstn_false {A} (f : A -> bool) n l :
  existsb f l = false -> existsb f (firstn n l) = false.
Proof.
  revert n; induction l as [|a l IH]; intros [|n] H; simpl in *; try reflexivity.
  apply orb_false_iff in H. destruct H as [Ha Hl].
  rewrite Ha, (IH n Hl). reflexivity.
Qed.

Lemma countFlagged_none l : existsb flaggedDefault l = false -> countFlagged l = 0%nat.
Proof.
  unfold countFlagged. induction l as [|a l IH]; simpl; [reflexivity|].
  intros H. apply orb_false_iff in H. destruct H as [Ha Hl].
  rewrite Ha. apply IH; exact Hl.
Qed.

Lemma countFlagged_some l : existsb flaggedDefault l = true -> (1 <= countFlagged l)%nat.
Proof.
  unfold countFlagged. induction l as [|a l IH]; simpl; [discriminate|].
  destruct (flaggedDefault a); simpl; intros H; [lia | apply IH; exact H].
Qed.

Lemma countDefaultTrue_none l :
  existsb flaggedDefault l = false -> countDefaultTrue l = 0%nat.
Proof.
  unfold countDefaultTrue. induction l as [|a l IH]; simpl; [reflexivity|].
  intros H. apply orb_false_iff in H. destruct H as [Ha Hl].
  assert (Hd : isDefaultTrue a = false).
  { unfold flaggedDefault in Ha. unfold isDefaultTrue.
    destruct (Preset.isDefault a) as [| |[|]| |]; simpl in Ha; congruence. }
  rewrite Hd. apply IH; exact Hl.
Qed.

(** The preset list after the migration. *)
Lemma migrate_presets raw :
  let kept := arrSlice0 MAX_PRESETS (Config.summaryPresets raw) in
  Config.summaryPresets (migrate raw)
  = if negb (existsb flaggedDefault kept)
    then implicitDefaultPreset (hotkeysSummarize (Config.hotkeys_summarize raw)) :: kept
    else kept.
Proof. reflexivity. Qed.

Lemma migrate_has_default raw :
  existsb flaggedDefault (Config.summaryPresets (migrate raw)) = true.
Proof.
  rewrite migrate_presets. cbv zeta.
  destruct (existsb flaggedDefault (arrSlice0 MAX_PRESETS (Config.summaryPresets raw)))
    eqn:E; simpl; [exact E | reflexivity].
Qed.

Lemma normalizePresets_length genId i l :
  List.length (normalizePresets genId i l) = List.length l.
Proof. revert i; induction l; intros i; simpl; [|rewrite IHl]; reflexivity. Qed.

Lemma normalizePreset_flag fresh p :
  flaggedDefault (normalizePreset fresh p)
  = isDefaultTrue p
    && match Preset.id p with Some i => streqb i (lit "default") | None => false end.
Proof. reflexivity. Qed.

(** A normalized list has a flagged entry exactly when a submitted preset
    is kept as the default. *)
Lemma normalizePresets_flagged genId i l :
  existsb flaggedDefault (normalizePresets genId i l) = existsb submittedAsDefault l.
Proof.
  revert i; induction l as [|p l IH]; intros i; simpl; [reflexivity|].
  rewrite IH. reflexivity.
Qed.

Lemma loadConfig_again s :
  loadConfig (snd (loadConfig s)) = (fst (loadConfig s), snd (loadConfig s)).
Proof.
  unfold loadConfig. destruct (configCache s) as [c|] eqn:E; simpl.
  - rewrite E. reflexivity.
  - reflexivity.
Qed.

(** The configuration the preset handler leaves behind. *)
Lemma setSummaryPresets_config genId presets s :
  snd (fst (setSummaryPresets genId presets s))
  = migrate (Config.with_summaryPresets
               (normalizedPresets genId (fst (loadConfig s)) presets)
               (fst (loadConfig s))).
Proof.
  unfold setSummaryPresets.
  pose proof (loadConfig_again s) as Hagain.
  destruct (loadConfig s) as [cfg s1]. cbn [fst snd] in *.
  unfold saveConfig. rewrite Hagain. reflexivity.
Qed.

Lemma setSummaryPresets_cacheInv genId presets s :
  cacheInv (snd (setSummaryPresets genId presets s)).
Proof.
  unfold setSummaryPresets. destruct (loadConfig s) as [cfg s1].
  match goal with
  | |- context [saveConfig ?m ?st] =>
      pose proof (saveConfig_migrated m st) as [_ Hinv];
      destruct (saveConfig m st) as [newCfg s2]
  end.
  exact Hinv.
Qed.

Lemma normalizedPresets_kept_flagged genId cfg presets :
  existsb flaggedDefault (Config.summaryPresets cfg) = true ->
  existsb flaggedDefault (arrSlice0 MAX_PRESETS (normalizedPresets genId cfg presets))
  = true.
Proof.
  intros Hcfg. unfold normalizedPresets.
  set (normalized := normalizePresets genId 0 (arrSlice0 MAX_PRESETS presets)).
  destruct (existsb flaggedDefault normalized) eqn:E; cbn [negb].
  - assert (Hlen : (List.length normalized <= 10)%nat).
    { unfold normalized. rewrite normalizePresets_length.
      rewrite arrSlice0_firstn by (unfold MAX_PRESETS; lia).
      rewrite length_firstn. unfold MAX_PRESETS. lia. }
    rewrite arrSlice0_firstn by (unfold MAX_PRESETS; lia).
    rewrite firstn_all2 by (unfold MAX_PRESETS; lia). exact E.
  - rewrite arrSlice0_firstn by (unfold MAX_PRESETS; lia).
    change (Z.to_nat MAX_PRESETS) with 10%nat. rewrite firstn_cons.
    cbn [existsb].
    destruct (find flaggedDefault (Config.summaryPresets cfg)) as [d|] eqn:F.
    + apply find_some in F. rewrite (proj2 F). reflexivity.
    + reflexivity.
Qed.

(** C7, as the code has it.  After every load and after every
    set-summary-presets mutation at least one preset is flagged default.
    A document with no flagged preset among its first ten presets gets
    exactly one, in front, with [isDefault = true] and the accelerator of
    [hotkeys.summarize]; in general a loaded list has as many flagged
    presets as the first ten presets of the document, and one when these
    have none.  A submission with no default preset ([isDefault === true]
    and id ['default']) among its first ten leaves exactly one flagged
    preset, the previous default, in front. *)
Theorem default_preset_present :
  (forall s, cacheInv s ->
     (1 <= countFlagged (Config.summaryPresets (fst (loadConfig s))))%nat)
  /\ (forall doc,
        existsb flaggedDefault (arrSlice0 MAX_PRESETS (Config.summaryPresets doc)) = false ->
        let cfg := fst (loadConfig (coldStore doc)) in
        exists d rest,
          Config.summaryPresets cfg = d :: rest
          /\ Preset.isDefault d = JBool true
          /\ Config.hotkeys_summarize cfg = Some (Preset.hotkey d)
          /\ countFlagged (Config.summaryPresets cfg) = 1%nat
          /\ countDefaultTrue (Config.summaryPresets cfg) = 1%nat)
  /\ (forall doc,
        countFlagged (Config.summaryPresets (fst (loadConfig (coldStore doc))))
        = Nat.max 1 (countFlagged (arrSlice0 MAX_PRESETS (Config.summaryPresets doc))))
  /\ (forall genId presets s, cacheInv s ->
        let newCfg := snd (fst (setSummaryPresets genId presets s)) in
        (1 <= countFlagged (Config.summaryPresets newCfg))%nat
        /\ (existsb submittedAsDefault (arrSlice0 MAX_PRESETS presets) = false ->
            countFlagged (Config.summaryPresets newCfg) = 1%nat
            /\ exists d rest,
                 Config.summaryPresets newCfg = d :: rest
                 /\ find flaggedDefault (Config.summaryPresets (fst (loadConfig s)))
                    = Some d)).
Proof.
  split; [|split; [|split]].
  - intros s Hs. destruct (loadConfig_migrated s Hs) as [[raw Hraw] _].
    rewrite Hraw. apply countFlagged_some, migrate_has_default.
  - intros doc Hnone cfg. subst cfg. unfold coldStore. rewrite loadConfig_cold.
    rewrite migrate_presets. cbv zeta. rewrite Hnone. cbn [negb].
    eexists; eexists. split; [reflexivity|].
    split; [reflexivity|]. split; [reflexivity|].
    unfold countFlagged, countDefaultTrue. cbn [filter].
    change (flaggedDefault (implicitDefaultPreset _)) with true.
    change (isDefaultTrue (implicitDefaultPreset _)) with true.
    cbn [List.length]. split; f_equal.
    + apply countFlagged_none; exact Hnone.
    + apply countDefaultTrue_none; exact Hnone.
  - intros doc. unfold coldStore. rewrite loadConfig_cold, migrate_presets. cbv zeta.
    destruct (existsb flaggedDefault (arrSlice0 MAX_PRESETS (Config.summaryPresets doc)))
      eqn:E; cbn [negb].
    + pose proof (countFlagged_some _ E). lia.
    + unfold countFlagged at 1. cbn [filter].
      change (flaggedDefault (implicitDefaultPreset _)) with true.
      cbn [List.length]. fold (countFlagged (arrSlice0 MAX_PRESETS (Config.summaryPresets doc))).
      rewrite (countFlagged_none _ E). reflexivity.
  - intros genId presets s Hs newCfg. subst newCfg.
    rewrite setSummaryPresets_config.
    destruct (loadConfig_migrated s Hs) as [[raw Hraw] _].
    set (cfg := fst (loadConfig s)) in *.
    assert (Hcfg : existsb flaggedDefault (Config.summaryPresets cfg) = true).
    { rewrite Hraw. apply migrate_has_default. }
    pose proof (normalizedPresets_kept_flagged genId cfg presets Hcfg) as Hkept.
    rewrite migrate_presets. cbv zeta.
    change (Config.summaryPresets (Config.with_summaryPresets ?l cfg)) with l.
    rewrite Hkept. cbn [negb]. split.
    + apply countFlagged_some; exact Hkept.
    + intros Hsub. unfold normalizedPresets.
      rewrite normalizePresets_flagged, Hsub. cbn [negb].
      destruct (find flaggedDefault (Config.summaryPresets cfg)) as [d|] eqn:F.
      2:{ exfalso.
          destruct (existsb_exists flaggedDefault (Config.summaryPresets cfg)) as [Hex _].
          destruct (Hex Hcfg) as [x [Hin Hx]].
          pose proof (find_none _ _ F x Hin). congruence. }
      rewrite arrSlice0_firstn by (unfold MAX_PRESETS; lia).
      change (Z.to_nat MAX_PRESETS) with 10%nat. rewrite firstn_cons.
      split.
      * unfold countFlagged. cbn [filter].
        rewrite (proj2 (find_some _ _ F)). cbn [List.length]. f_equal.
        apply countFlagged_none, existsb_firstn_false.
        rewrite normalizePresets_flagged. exact Hsub.
      * eexists; eexists; split; reflexivity.
Qed.

Lemma default_preset_present_witness :
  (1 <= countFlagged (Config.summaryPresets (fst (loadConfig (coldStore noDefaultDoc)))))%nat
  /\ countDefaultTrue (Config.summaryPresets (fst (loadConfig (coldStore noDefaultDoc))))
     = 1%nat
  /\ countFlagged
       (Config.summaryPresets
          (snd (fst (setSummaryPresets sampleGenId [plainPreset] (coldStore noDefaultDoc)))))
     = 1%nat.
Proof.
  destruct default_preset_present as [Hload [Hzero [_ Hset]]].
  split; [|split].
  - apply Hload. left; reflexivity.
  - destruct (Hzero noDefaultDoc eq_refl) as [d [rest [_ [_ [_ [_ H]]]]]]. exact H.
  - destruct (Hset sampleGenId [plainPreset] (coldStore noDefaultDoc)
                   (or_introl eq_refl)) as [_ H].
    exact (proj1 (H eq_refl)).
Defined.

(** C7 as stated fails on a document that already holds two default-flagged
    presets: the load keeps both, and so does the preset handler when the
    same two presets are submitted. *)
Lemma default_preset_not_unique :
  countDefaultTrue (Config.summaryPresets (fst (loadConfig (coldStore twoDefaultsDoc))))
  = 2%nat
  /\ countDefaultTrue
       (Config.summaryPresets
          (snd (fst (setSummaryPresets sampleGenId
                       [flaggedPreset "A"; flaggedPreset "B"]
                       (coldStore Config.empty)))))
     = 2%nat.
Proof. split; vm_compute; reflexivity. Qed.

End ConfigFacts.

(* ====================================================================== *)
(** * Selection capture *)

Section CaptureFacts.

Lemma captureSelectionText_unchanged_clipboard cfg platform before :
  captureSelectionText cfg platform (Ok before) (Fulfilled before)
  = Fulfilled (trim before).
Proof.
  unfold captureSelectionText.
  destruct (Config.autoCopySelection cfg) as [| |[|]| |], platform;
    rewrite streqb_refl, orb_true_r; reflexivity.
Qed.

Lemma captureSelectionText_failed_copy cfg platform before e :
  captureSelectionText cfg platform (Ok before) (Rejected e) = Fulfilled (trim before).
Proof.
  unfold captureSelectionText.
  destruct (Config.autoCopySelection cfg) as [| |[|]| |], platform;
    rewrite streqb_refl, orb_true_r; reflexivity.
Qed.

Lemma captureSelectionText_off cfg platform before copied :
  copyAttempted cfg platform = false ->
  captureSelectionText cfg platform (Ok before) copied = Fulfilled (trim before).
Proof.
  unfold captureSelectionText, copyAttempted.
  destruct (Config.autoCopySelection cfg) as [| |[|]| |], platform;
    try discriminate; intros _; rewrite streqb_refl, orb_true_r; reflexivity.
Qed.

(** How a capture whose first clipboard read succeeded can end. *)
Lemma captureSelectionText_cases cfg platform before copied :
  (exists text, captureSelectionText cfg platform (Ok before) copied = Fulfilled (trim text))
  \/ (captureSelectionText cfg platform (Ok before) copied = Pending
      /\ copyAttempted cfg platform = true /\ copied = Pending).
Proof.
  destruct (copyAttempted cfg platform) eqn:Hatt.
  - destruct copied as [selection|e|].
    + left. unfold captureSelectionText, copyAttempted in *.
      destruct (Config.autoCopySelection cfg) as [| |[|]| |], platform;
        try discriminate; eexists; reflexivity.
    + left. exists before. apply captureSelectionText_failed_copy.
    + right. split; [|split; reflexivity].
      unfold captureSelectionText, copyAttempted in *.
      destruct (Config.autoCopySelection cfg) as [| |[|]| |], platform;
        try discriminate; reflexivity.
  - left. exists before. apply captureSelectionText_off; exact Hatt.
Qed.

(** C6, as the code has it.  When the clipboard after the simulated copy
    equals the clipboard before it, when the copy step throws, and when
    auto-copy is disabled, capture returns the pre-existing clipboard text
    with the surrounding white space trimmed.  Capture throws exactly when
    its first clipboard read throws, with that exception; and it stays
    pending exactly when the copy is attempted and the helper process never
    exits. *)
Theorem captureSelectionText_fallback :
  (forall cfg platform before,
     captureSelectionText cfg platform (Ok before) (Fulfilled before)
     = Fulfilled (trim before))
  /\ (forall cfg platform before e,
        captureSelectionText cfg platform (Ok before) (Rejected e)
        = Fulfilled (trim before))
  /\ (forall cfg platform before copied,
        Config.autoCopySelection cfg = JBool false ->
        captureSelectionText cfg platform (Ok before) copied = Fulfilled (trim before))
  /\ (forall cfg platform firstRead copied e,
        captureSelectionText cfg platform firstRead copied = Rejected e
        <-> firstRead = Throw e)
  /\ (forall cfg platform firstRead copied,
        captureSelectionText cfg platform firstRead copied = Pending
        <-> (exists before, firstRead = Ok before)
            /\ copyAttempted cfg platform = true /\ copied = Pending).
Proof.
  split; [|split; [|split; [|split]]].
  - apply captureSelectionText_unchanged_clipboard.
  - apply captureSelectionText_failed_copy.
  - intros cfg platform before copied Hoff.
    apply captureSelectionText_off. unfold copyAttempted. rewrite Hoff. reflexivity.
  - intros cfg platform firstRead copied e. destruct firstRead as [before|e0].
    + split; [|discriminate]. intros H.
      destruct (captureSelectionText_cases cfg platform before copied)
        as [[text Ht]|[Hp _]]; congruence.
    + cbn [captureSelectionText]. split; intros H; inversion H; reflexivity.
  - intros cfg platform firstRead copied. destruct firstRead as [before|e0].
    + split.
      * intros H.
        destruct (captureSelectionText_cases cfg platform before copied)
          as [[text Ht]|[_ [Hatt Hc]]]; [congruence|].
        split; [exists before; reflexivity | split; assumption].
      * intros [_ [Hatt Hc]].
        destruct (captureSelectionText_cases cfg platform before copied)
          as [[text Ht]|[Hp _]]; [|exact Hp].
        exfalso. subst copied. unfold captureSelectionText, copyAttempted in *.
        destruct (Config.autoCopySelection cfg) as [| |[|]| |], platform;
          discriminate.
    + cbn [captureSelectionText]. split; [discriminate|].
      intros [[before Hb] _]. discriminate.
Qed.

Lemma captureSelectionText_fallback_witness :
  captureSelectionText autoCopyOffCfg Linux (Ok (lit "kept "))
                       (Fulfilled (lit "new selection"))
  = Fulfilled (lit "kept").
Proof.
  destruct captureSelectionText_fallback as [_ [_ [Hoff _]]].
  exact (Hoff autoCopyOffCfg Linux (lit "kept ") (Fulfilled (lit "new selection")) eq_refl).
Defined.

(** C6 as stated fails on a clipboard that starts or ends with white space:
    with an unchanged clipboard [" a"], and with auto-copy disabled, capture
    returns ["a"], not the clipboard text itself.  And capture does throw:
    when the first clipboard read throws, so does capture. *)
Lemma captureSelectionText_trims_or_throws :
  captureSelectionText Config.empty Linux (Ok (lit " a")) (Fulfilled (lit " a"))
  <> Fulfilled (lit " a")
  /\ captureSelectionText autoCopyOffCfg Linux (Ok (lit " a")) (Fulfilled (lit " a"))
     <> Fulfilled (lit " a")
  /\ captureSelectionText Config.empty Linux (Throw (Error (lit "clipboard unavailable")))
                          (Fulfilled (lit " a"))
     = Rejected (Error (lit "clipboard unavailable")).
Proof.
  split; [|split]; [vm_compute; discriminate | vm_compute; discriminate | reflexivity].
Qed.

End CaptureFacts.

(* ====================================================================== *)
(** * Provider gateway *)

Section GatewayFacts.

Lemma buildRequest_carries cfg provider key model systemPrompt userText req :
  buildRequest cfg provider key model systemPrompt userText = Ok req ->
  carriesUserText (body req) (orStr systemPrompt DEFAULT_SUMMARY_PROMPT)
                  (slice userText 0 MAX_TEXT_LEN).
Proof.
  unfold buildRequest.
  destruct (streqb provider (lit "openai") || streqb provider (lit "groq")).
  { destruct key as [k|]; [destruct (nonEmpty k)|]; cbn [negb];
      intros H; inversion H; subst; reflexivity. }
  destruct (streqb provider (lit "anthropic")).
  { destruct key as [k|]; [destruct (nonEmpty k)|]; cbn [negb];
      intros H; inversion H; subst; reflexivity. }
  destruct (streqb provider (lit "gemini")).
  { destruct key as [k|]; [destruct (nonEmpty k)|]; cbn [negb];
      [destruct (modelOrDefault model provider) as [m0|];
       [cbv zeta; destruct (wellFormed (stripGenerateContent m0))|]| |];
      cbn [negb]; intros H; inversion H; subst; reflexivity. }
  destruct (streqb provider (lit "grok")).
  { destruct key as [k|]; [destruct (nonEmpty k)|]; cbn [negb];
      intros H; inversion H; subst; reflexivity. }
  discriminate.
Qed.

(** The gateway reads its [userText] only through [slice(0, MAX_TEXT_LEN)]. *)
Lemma buildRequest_slice cfg provider key model systemPrompt userText c :
  MAX_TEXT_LEN <= c ->
  buildRequest cfg provider key model systemPrompt (slice userText 0 c)
  = buildRequest cfg provider key model systemPrompt userText.
Proof.
  intros Hc. unfold buildRequest.
  rewrite slice_0_slice_0 by (unfold MAX_TEXT_LEN in *; lia). reflexivity.
Qed.

(** C5.  Whatever the provider, the user text in the body of a request the
    gateway sends is [userText.slice(0, 25000)], at most 25,000 units long;
    and a text already cut by the orchestrator at any ceiling of 25,000 or
    more yields the very same request as the uncut text. *)
Theorem gateway_user_text_bounded
  cfg provider key model systemPrompt (userText : jsstring) req :
  buildRequest cfg provider key model systemPrompt userText = Ok req ->
  carriesUserText (body req) (orStr systemPrompt DEFAULT_SUMMARY_PROMPT)
                  (slice userText 0 MAX_TEXT_LEN)
  /\ strlen (slice userText 0 MAX_TEXT_LEN) <= 25000
  /\ forall selection c,
       25000 <= c -> userText = slice selection 0 c ->
       buildRequest cfg provider key model systemPrompt selection = Ok req.
Proof.
  intros Hreq. split; [|split].
  - eapply buildRequest_carries; exact Hreq.
  - apply strlen_slice_0_le. unfold MAX_TEXT_LEN; lia.
  - intros selection c Hc Hu. subst userText.
    rewrite buildRequest_slice in Hreq by (unfold MAX_TEXT_LEN; lia). exact Hreq.
Qed.

(** C10.  When a request was sent and the response has a status outside
    200-299, the provider call throws ["HTTP <status>: <body prefix>"], the
    prefix being the first 160 units of the response body at most, and the
    flow shows that message in the popup instead of a summary. *)
Theorem http_error_surfaces
  cfg provider key model systemPrompt userText fetch req (res : Response) :
  buildRequest cfg provider key model systemPrompt userText = Ok req ->
  fetch req = Ok res ->
  status res < 200 \/ 299 < status res ->
  let message :=
    lit "HTTP " ++ decimal (status res) ++ lit ": " ++ slice (text res) 0 160 in
  summarizeWithProvider cfg provider key model systemPrompt userText fetch
  = Throw (Error message)
  /\ strlen (slice (text res) 0 160) <= 160
  /\ forall fullText st visible,
       popupWindow st = Window visible ->
       snd (runSummary_settled fullText
              (summarizeWithProvider cfg provider key model systemPrompt userText fetch)
              st)
       = [SendSummary (SummaryError message)].
Proof.
  intros Hreq Hfetch Hstatus message.
  assert (Hthrow : summarizeWithProvider cfg provider key model systemPrompt userText fetch
                   = Throw (Error message)).
  { unfold summarizeWithProvider. rewrite Hreq. cbn [bind].
    unfold readResponse. rewrite Hfetch. cbn [bind].
    assert (Hok : ok res = false).
    { unfold ok. apply andb_false_iff.
      destruct Hstatus; [left; apply Z.leb_gt | right; apply Z.leb_gt]; lia. }
    rewrite Hok. reflexivity. }
  split; [exact Hthrow|]. split.
  - apply strlen_slice_0_le. lia.
  - intros fullText st visible Hwin. rewrite Hthrow.
    unfold runSummary_settled. rewrite Hwin. reflexivity.
Qed.

Lemma gateway_user_text_bounded_witness :
  strlen (slice longSelection 0 MAX_TEXT_LEN) <= 25000
  /\ carriesUserText
       (GeminiBody (DEFAULT_SUMMARY_PROMPT ++ [10%N; 10%N] ++ lit "INPUT:" ++ [10%N]
                      ++ slice longSelection 0 MAX_TEXT_LEN)
                   (Some 800))
       DEFAULT_SUMMARY_PROMPT (slice longSelection 0 MAX_TEXT_LEN).
Proof.
  destruct (gateway_user_text_bounded geminiCfg (lit "gemini") (Some (lit "sk-test"))
              None None longSelection
              (mkRequest
                 (GeminiGenerateContent (lit "gemini-2.5-flash-lite") (lit "sk-test"))
                 [contentTypeJson]
                 (GeminiBody (DEFAULT_SUMMARY_PROMPT ++ [10%N; 10%N] ++ lit "INPUT:"
                                ++ [10%N] ++ slice longSelection 0 MAX_TEXT_LEN)
                             (Some 800)))
              eq_refl) as [Hcarries [Hlen _]].
  split; [exact Hlen | exact Hcarries].
Defined.

Lemma http_error_surfaces_witness :
  summarizeWithProvider geminiCfg (lit "anthropic") (Some (lit "sk-test")) None None
                        shortText rejectingFetch
  = Throw (Error (lit "HTTP 401: { error: invalid api key }")).
Proof.
  assert (Hstatus : status unauthorized < 200 \/ 299 < status unauthorized).
  { right. reflexivity. }
  exact (proj1 (http_error_surfaces geminiCfg (lit "anthropic") (Some (lit "sk-test"))
                  None None shortText rejectingFetch _ unauthorized
                  eq_refl eq_refl Hstatus)).
Defined.

End GatewayFacts.

(* ====================================================================== *)
(** * Input-length ceiling *)

Section CeilingFacts.

Lemma Qceiling_tenth L : Qceiling ((1 # 10) * inject_Z L) = ceilDiv L 10.
Proof.
  unfold Qceiling, Qfloor, Qopp, Qmult, inject_Z, ceilDiv. cbn [Qnum Qden].
  change (10 * 1)%positive with 10%positive.
  rewrite Z.mul_1_l. reflexivity.
Qed.

Lemma Qfloor_four_times L s m c :
  Qfloor (4 * (inject_Z L - inject_Z s - inject_Z m - inject_Z c))%Q
  = (L - s - m - c) * 4.
Proof.
  rewrite <- (Qfloor_Z ((L - s - m - c) * 4)).
  apply Qfloor_comp.
  unfold Z.sub. rewrite inject_Z_mult, !inject_Z_plus, !inject_Z_opp.
  change (inject_Z 4) with 4%Q. ring.
Qed.

(** For every limit of the table, [Math.ceil] of the double product
    [contextLimit * 0.1] is [safetyMarginOf contextLimit]. *)
Lemma safetyMarginOf_double :
  forallb (fun entry => ceilIs (tenthAsDouble (snd entry)) (safetyMarginOf (snd entry)))
          MODEL_CONTEXT_LIMITS = true.
Proof. vm_compute. reflexivity. Qed.

(** The arithmetic of [getMaxInputLength] is the specification's formula
    with the safety margin rounded up. *)
Lemma ceilingWithRoundedMargin_code L s m :
  ceilingWithRoundedMargin L s m = Z.max 5000 ((L - s - m - safetyMarginOf L) * 4).
Proof.
  unfold ceilingWithRoundedMargin, safetyMarginOf.
  rewrite Qceiling_tenth, Qfloor_four_times. reflexivity.
Qed.

Lemma getMaxInputLength_fixed cfg prompt provider model m :
  Config.maxInputChars cfg = Some m ->
  getMaxInputLength cfg prompt provider model (JBool false) = LimNum m.
Proof. intros H. unfold getMaxInputLength. cbn [truthy negb]. rewrite H. reflexivity. Qed.

Lemma getMaxInputLength_unlimited cfg prompt provider model modelKey L mot :
  modelOrDefault model provider = Some modelKey ->
  lookup MODEL_CONTEXT_LIMITS modelKey = Some L ->
  Config.maxOutputTokens cfg = Some mot ->
  getMaxInputLength cfg prompt provider model (JBool true)
  = LimNum (ceilingWithRoundedMargin L (systemPromptTokensOf prompt) mot).
Proof.
  intros Hm HL Ht. unfold getMaxInputLength. cbn [truthy negb].
  rewrite Hm, HL, Ht. rewrite ceilingWithRoundedMargin_code. reflexivity.
Qed.

End CeilingFacts.

(* ====================================================================== *)
(** * Summarization flow *)

Section FlowFacts.

Lemma providerCalls_app a b : providerCalls (a ++ b) = (providerCalls a + providerCalls b)%nat.
Proof. unfold providerCalls. rewrite filter_app, length_app. reflexivity. Qed.

Lemma providerCalls_none evs c :
  providerCalls evs = 0%nat -> ~ In (CallProvider c) evs.
Proof.
  unfold providerCalls. induction evs as [|e evs IH]; simpl; [tauto|].
  destruct e; simpl; intros H [Hc|Hc]; try congruence; apply IH; assumption.
Qed.

(** The request half of [runSummary]: the state it leaves, and its trace,
    which ends with the one provider call it makes. *)
Lemma runSummary_request_result cfg preset selection newHash now st :
  exists evs,
    runSummary_request cfg preset selection newHash now st
    = (mkState (Window true) (popupAutoHideTimer st) (popupFading st)
               selection newHash true
               (if isVisible (popupWindow st) then lastPopupShowTs st else now),
       evs ++ [CallProvider (providerCallOf cfg preset selection)],
       AwaitingProvider (providerCallOf cfg preset selection))
    /\ providerCalls evs = 0%nat.
Proof.
  unfold runSummary_request, providerCallOf, effectiveMaxLengthOf, ensurePopupShown.
  cbn [popupWindow popupAutoHideTimer popupFading lastSelectionText
       lastSummaryInputHash summaryInFlight lastPopupShowTs].
  set (lim := getMaxInputLength _ _ _ _ _).
  set (warning := match lim with LimNum _ => _ | _ => _ end).
  assert (Hw : providerCalls warning = 0%nat).
  { unfold warning. destruct lim; try reflexivity.
    destruct (longerThan selection (LimNum n)); reflexivity. }
  destruct (popupWindow st) as [|[|]]; cbn [isVisible negb];
    eexists; (split; [rewrite !app_assoc; reflexivity|]);
    rewrite !providerCalls_app, Hw; reflexivity.
Qed.

(** The toggle half never calls the provider. *)
Lemma scheduleHidePopup_no_call sendOk st :
  providerCalls (snd (scheduleHidePopup sendOk st)) = 0%nat.
Proof.
  unfold scheduleHidePopup, finalizeHidePopup.
  destruct (popupWindow st); [reflexivity|].
  destruct (popupFading st); [reflexivity|].
  destruct sendOk; reflexivity.
Qed.

(** Every provider call of a run is the call for the captured selection. *)
Lemma runSummary_captured_calls cfg preset captured now sendOk st c :
  In (CallProvider c) (eventsOf (runSummary_captured cfg preset captured now sendOk st)) ->
  c = providerCallOf cfg preset (selectionOf captured).
Proof.
  unfold runSummary_captured.
  destruct (runSummary_request_result cfg preset (selectionOf captured)
              (fingerprint (selectionOf captured) preset) now st) as [evs [Hreq Hnone]].
  assert (Hcall :
    In (CallProvider c)
       (eventsOf (runSummary_request cfg preset (selectionOf captured)
                    (fingerprint (selectionOf captured) preset) now st)) ->
    c = providerCallOf cfg preset (selectionOf captured)).
  { rewrite Hreq. unfold eventsOf; cbn [fst snd]. intros Hin.
    apply in_app_or in Hin. destruct Hin as [Hin|[Hin|[]]].
    - exfalso. eapply providerCalls_none; eassumption.
    - inversion Hin; reflexivity. }
  destruct (isVisible (popupWindow st)
            && streqb (fingerprint (selectionOf captured) preset) (lastSummaryInputHash st));
    [|exact Hcall].
  destruct (negb (summaryInFlight st) || (800 <? now - lastPopupShowTs st));
    [|exact Hcall].
  pose proof (scheduleHidePopup_no_call sendOk st) as Hno.
  destruct (scheduleHidePopup sendOk st) as [st1 ev1].
  unfold eventsOf; cbn [fst snd] in *. intros Hin.
  exfalso. eapply providerCalls_none; eassumption.
Qed.

(** C1, as the code has it.  With [unlimitedInput = false] the effective
    ceiling of a run is [cfg.maxInputChars], the text of every provider call
    the run makes is [selection.slice(0, maxInputChars)], and when
    [maxInputChars] is not negative its length does not exceed
    [maxInputChars]. *)
Theorem fixed_cap_truncation cfg preset captured now sendOk st (m : Z) :
  Config.unlimitedInput cfg = JBool false ->
  Config.maxInputChars cfg = Some m ->
  effectiveMaxLengthOf cfg preset = LimNum m
  /\ forall c,
       In (CallProvider c)
          (eventsOf (runSummary_captured cfg preset captured now sendOk st)) ->
       call_userText c = slice (selectionOf captured) 0 m
       /\ (0 <= m -> strlen (call_userText c) <= m).
Proof.
  intros Hu Hm.
  assert (Hlim : effectiveMaxLengthOf cfg preset = LimNum m).
  { unfold effectiveMaxLengthOf. rewrite Hu. apply getMaxInputLength_fixed; exact Hm. }
  split; [exact Hlim|].
  intros c Hin. apply runSummary_captured_calls in Hin. subst c.
  unfold providerCallOf; cbn [call_userText]. rewrite Hlim. cbn [sliceTo].
  split; [reflexivity | apply strlen_slice_0_le].
Qed.

Lemma fixed_cap_truncation_witness :
  effectiveMaxLengthOf geminiCfg (firstPreset geminiCfg) = LimNum 1000
  /\ strlen (call_userText (providerCallOf geminiCfg (firstPreset geminiCfg) longSelection))
     <= 1000.
Proof.
  destruct (fixed_cap_truncation geminiCfg (firstPreset geminiCfg) longSelection
              5000 true initialState 1000 eq_refl eq_refl) as [Hlim Hcalls].
  split; [exact Hlim|].
  apply (Hcalls (providerCallOf geminiCfg (firstPreset geminiCfg) longSelection)).
  - vm_compute. right; right; right; left; reflexivity.
  - lia.
Defined.

(** C1 as stated fails for a negative [maxInputChars], which [loadConfig]
    keeps as it is: with a cap of -5, [slice(0, -5)] counts from the end
    and hands 1,195 of the 1,200 units of the selection to the provider. *)
Lemma fixed_cap_negative_exceeds :
  Config.unlimitedInput negativeCapCfg = JBool false
  /\ Config.maxInputChars negativeCapCfg = Some (-5)
  /\ In (CallProvider (providerCallOf negativeCapCfg None longSelection))
        (eventsOf (runSummary_captured negativeCapCfg None longSelection 5000 true
                     initialState))
  /\ strlen (call_userText (providerCallOf negativeCapCfg None longSelection)) = 1195
  /\ ~ strlen (call_userText (providerCallOf negativeCapCfg None longSelection)) <= -5.
Proof.
  split; [reflexivity|]. split; [reflexivity|]. split.
  - destruct (runSummary_request_result negativeCapCfg None longSelection
                (fingerprint longSelection None) 5000 initialState) as [evs [Hreq _]].
    change (runSummary_captured negativeCapCfg None longSelection 5000 true initialState)
      with (runSummary_request negativeCapCfg None longSelection
              (fingerprint longSelection None) 5000 initialState).
    rewrite Hreq. unfold eventsOf. cbn [fst snd].
    apply in_or_app. right. left. reflexivity.
  - assert (H : strlen (call_userText (providerCallOf negativeCapCfg None longSelection))
                = 1195) by (vm_compute; reflexivity).
    rewrite H. split; [reflexivity | lia].
Qed.

(** C2, as the code has it.  With [unlimitedInput = true] and an active
    model whose context limit [L] is in the table, the effective ceiling is
    [max(5000, floor(4 * (L - systemPromptTokens - maxOutputTokens
    - ceil(0.1 * L))))], the system-prompt tokens being a quarter of the
    length of the (context-augmented) prompt, rounded up; every provider call
    of the run carries that prompt and the selection cut to that ceiling. *)
Theorem unlimited_input_ceiling
  cfg preset captured now sendOk st (modelKey : jsstring) (L maxOutputTokens : Z) :
  Config.unlimitedInput cfg = JBool true ->
  activeModel cfg = Some modelKey ->
  lookup MODEL_CONTEXT_LIMITS modelKey = Some L ->
  Config.maxOutputTokens cfg = Some maxOutputTokens ->
  let systemPromptTokens := systemPromptTokensOf (contextualPromptOf cfg preset) in
  let ceiling := ceilingWithRoundedMargin L systemPromptTokens maxOutputTokens in
  effectiveMaxLengthOf cfg preset = LimNum ceiling
  /\ 5000 <= ceiling
  /\ forall c,
       In (CallProvider c)
          (eventsOf (runSummary_captured cfg preset captured now sendOk st)) ->
       call_systemPrompt c = contextualPromptOf cfg preset
       /\ call_userText c = slice (selectionOf captured) 0 ceiling.
Proof.
  intros Hu Hk HL Ht spt ceiling.
  assert (Hlim : effectiveMaxLengthOf cfg preset = LimNum ceiling).
  { unfold effectiveMaxLengthOf. rewrite Hu.
    eapply getMaxInputLength_unlimited; eassumption. }
  split; [exact Hlim|]. split.
  { unfold ceiling. rewrite ceilingWithRoundedMargin_code. lia. }
  intros c Hin. apply runSummary_captured_calls in Hin. subst c.
  unfold providerCallOf; cbn [call_userText call_systemPrompt].
  rewrite Hlim. split; reflexivity.
Qed.

Lemma unlimited_input_ceiling_witness :
  effectiveMaxLengthOf gpt4UnlimitedCfg (firstPreset gpt4UnlimitedCfg) = LimNum 26196.
Proof.
  exact (proj1 (unlimited_input_ceiling gpt4UnlimitedCfg (firstPreset gpt4UnlimitedCfg)
                  shortText 1000 true initialState (lit "gpt-4") 8192 800
                  eq_refl eq_refl eq_refl eq_refl)).
Defined.

(** C2 as stated fails for [gpt-4] (L = 8192, a tenth of which is not a
    whole number): with the default prompt (23 tokens) and 800 output
    tokens the flow computes 26196, the specification's formula 26199. *)
Lemma unlimited_ceiling_not_spec_formula :
  Config.unlimitedInput gpt4UnlimitedCfg = JBool true
  /\ activeModel gpt4UnlimitedCfg = Some (lit "gpt-4")
  /\ lookup MODEL_CONTEXT_LIMITS (lit "gpt-4") = Some 8192
  /\ Config.maxOutputTokens gpt4UnlimitedCfg = Some 800
  /\ systemPromptTokensOf
       (contextualPromptOf gpt4UnlimitedCfg (firstPreset gpt4UnlimitedCfg)) = 23
  /\ effectiveMaxLengthOf gpt4UnlimitedCfg (firstPreset gpt4UnlimitedCfg) = LimNum 26196
  /\ specCeiling 8192 23 800 = 26199.
Proof. repeat split; vm_compute; reflexivity. Qed.

(** ** The toggle *)



(** A repeat trigger that the toggle test lets through (same fingerprint,
    request in flight, inside the 800 ms window) runs the request half
    again: the popup stays as it is, and the provider is called anew. *)
Lemma repeat_trigger_in_flight cfg preset captured now sendOk st :
  popupWindow st = Window true ->
  fingerprint (selectionOf captured) preset = lastSummaryInputHash st ->
  summaryInFlight st = true ->
  now - lastPopupShowTs st <= 800 ->
  let r := runSummary_captured cfg preset captured now sendOk st in
  outcomeOf r = AwaitingProvider (providerCallOf cfg preset (selectionOf captured))
  /\ providerCalls (eventsOf r) = 1%nat
  /\ popupWindow (stateOf r) = Window true
  /\ popupFading (stateOf r) = popupFading st.
Proof.
  intros Hvis Hhash Hflight Helapsed r.
  assert (Hr : r = runSummary_request cfg preset (selectionOf captured)
                     (fingerprint (selectionOf captured) preset) now st).
  { unfold r, runSummary_captured.
    rewrite Hvis, Hhash, streqb_refl, Hflight. cbn [isVisible andb negb orb].
    destruct (800 <? now - lastPopupShowTs st) eqn:E; [|reflexivity].
    apply Z.ltb_lt in E. lia. }
  destruct (runSummary_request_result cfg preset (selectionOf captured)
              (fingerprint (selectionOf captured) preset) now st) as [evs [Hreq Hnone]].
  rewrite Hr, Hreq. unfold outcomeOf, eventsOf, stateOf; cbn [fst snd].
  rewrite providerCalls_app, Hnone.
  repeat split; reflexivity.
Qed.

(** C4, on the code.  The first trigger shows the popup and calls the
    provider; the same trigger 200 ms later, while that call is pending,
    does not hide the popup but calls the provider a second time with the
    same arguments. *)
Theorem repeat_trigger_calls_provider_again :
  popupWindow (stateOf afterFirstTrigger) = Window true
  /\ summaryInFlight (stateOf afterFirstTrigger) = true
  /\ lastSummaryInputHash (stateOf afterFirstTrigger)
     = fingerprint shortText (firstPreset geminiCfg)
  /\ 1200 - lastPopupShowTs (stateOf afterFirstTrigger) = 200
  /\ outcomeOf afterFirstTrigger
     = AwaitingProvider (providerCallOf geminiCfg (firstPreset geminiCfg) shortText)
  /\ outcomeOf afterRepeatTrigger
     = AwaitingProvider (providerCallOf geminiCfg (firstPreset geminiCfg) shortText)
  /\ eventsOf afterFirstTrigger
     = [ShowPopupNearCursor;
        SendSummary (Working shortText);
        CallProvider (providerCallOf geminiCfg (firstPreset geminiCfg) shortText)]
  /\ eventsOf afterRepeatTrigger
     = [ShowInactiveAndFocus;
        SendSummary (Working shortText);
        CallProvider (providerCallOf geminiCfg (firstPreset geminiCfg) shortText)]
  /\ providerCalls (eventsOf afterFirstTrigger ++ eventsOf afterRepeatTrigger) = 2%nat
  /\ popupWindow (stateOf afterRepeatTrigger) = Window true
  /\ popupFading (stateOf afterRepeatTrigger) = false.
Proof.
  assert (Hfirst : stateOf afterFirstTrigger
                   = mkState (Window true) false false shortText
                             (fingerprint shortText (firstPreset geminiCfg)) true 1000).
  { vm_compute. reflexivity. }
  rewrite Hfirst. cbn [popupWindow summaryInFlight lastSummaryInputHash lastPopupShowTs].
  repeat split; vm_compute; reflexivity.
Qed.

End FlowFacts.

(* ====================================================================== *)
(** * Providers and keys across a load *)

Section ProviderFacts.

Lemma lookup_setProvider_same p v m : lookup (setProvider p v m) p = Some v.
Proof.
  induction m as [|[k w] m IH]; simpl.
  - rewrite streqb_refl. reflexivity.
  - destruct (streqb k p) eqn:E; simpl; rewrite E; [reflexivity | exact IH].
Qed.

Lemma lookup_setProvider_other p q v m :
  p <> q -> lookup (setProvider p v m) q = lookup m q.
Proof.
  intros Hpq. induction m as [|[k w] m IH]; simpl.
  - destruct (streqb p q) eqn:E; [apply streqb_eq in E; contradiction | reflexivity].
  - destruct (streqb k p) eqn:E; simpl.
    + apply streqb_eq in E. subst k.
      destruct (streqb p q) eqn:E'; [apply streqb_eq in E'; contradiction | reflexivity].
    + destruct (streqb k q); [reflexivity | exact IH].
Qed.

Lemma setProvider_unchanged p v m : lookup m p = Some v -> setProvider p v m = m.
Proof.
  induction m as [|[k w] m IH]; simpl; [discriminate|].
  destruct (streqb k p) eqn:E; intros H.
  - inversion H; reflexivity.
  - rewrite (IH H). reflexivity.
Qed.

Lemma default_model_truthy p :
  In p supportedProviders -> truthyStr (lookup PROVIDER_DEFAULT_MODELS p) = true.
Proof.
  intros H. repeat (destruct H as [H|H]; [subst p; reflexivity|]). destruct H.
Qed.

(** What one round of the provider loop does to the key and the model of
    any provider [q]. *)
Lemma ensureProvider_keyOf m p q : keyOf (ensureProvider m p) q = keyOf m q.
Proof.
  unfold keyOf, ensureProvider.
  destruct (str_eq_dec p q) as [->|Hpq].
  - rewrite lookup_setProvider_same.
    destruct (lookup m q) as [c|]; simpl.
    + destruct (truthyStr (ProviderCfg.model c)); reflexivity.
    + reflexivity.
  - rewrite lookup_setProvider_other by assumption. reflexivity.
Qed.

Lemma ensureProvider_modelOf_other m p q :
  p <> q -> modelOf (ensureProvider m p) q = modelOf m q.
Proof.
  intros Hpq. unfold modelOf, ensureProvider.
  rewrite lookup_setProvider_other by assumption. reflexivity.
Qed.

Lemma ensureProvider_modelOf_same m p :
  modelOf (ensureProvider m p) p
  = if truthyStr (modelOf m p) then modelOf m p else lookup PROVIDER_DEFAULT_MODELS p.
Proof.
  unfold modelOf, ensureProvider. rewrite lookup_setProvider_same.
  destruct (lookup m p) as [c|]; simpl.
  - destruct (truthyStr (ProviderCfg.model c)); reflexivity.
  - reflexivity.
Qed.

Lemma ensureProvider_present m p q :
  lookup m q <> None -> lookup (ensureProvider m p) q <> None.
Proof.
  unfold ensureProvider. destruct (str_eq_dec p q) as [->|Hpq].
  - rewrite lookup_setProvider_same. discriminate.
  - rewrite lookup_setProvider_other by assumption. auto.
Qed.

Lemma ensureProvider_model_kept m p q :
  truthyStr (modelOf m q) = true -> modelOf (ensureProvider m p) q = modelOf m q.
Proof.
  intros H. destruct (str_eq_dec p q) as [->|Hpq].
  - rewrite ensureProvider_modelOf_same, H. reflexivity.
  - apply ensureProvider_modelOf_other; assumption.
Qed.

Lemma fold_ensureProvider_keyOf ps m q :
  keyOf (fold_left ensureProvider ps m) q = keyOf m q.
Proof.
  revert m; induction ps as [|p ps IH]; intros m; simpl; [reflexivity|].
  rewrite IH. apply ensureProvider_keyOf.
Qed.

Lemma fold_ensureProvider_model_kept ps m q :
  truthyStr (modelOf m q) = true ->
  modelOf (fold_left ensureProvider ps m) q = modelOf m q.
Proof.
  revert m; induction ps as [|p ps IH]; intros m H; simpl; [reflexivity|].
  rewrite IH; rewrite ensureProvider_model_kept by assumption; auto.
Qed.

Lemma fold_ensureProvider_present ps m q :
  lookup m q <> None -> lookup (fold_left ensureProvider ps m) q <> None.
Proof.
  revert m; induction ps as [|p ps IH]; intros m H; simpl; [exact H|].
  apply IH, ensureProvider_present, H.
Qed.

Lemma fold_ensureProvider_model ps m q :
  In q ps -> (forall p, In p ps -> truthyStr (lookup PROVIDER_DEFAULT_MODELS p) = true) ->
  lookup (fold_left ensureProvider ps m) q <> None
  /\ truthyStr (modelOf (fold_left ensureProvider ps m) q) = true
  /\ modelOf (fold_left ensureProvider ps m) q
     = if truthyStr (modelOf m q) then modelOf m q else lookup PROVIDER_DEFAULT_MODELS q.
Proof.
  revert m; induction ps as [|p ps IH]; intros m Hin Hdef; [destruct Hin|].
  simpl fold_left.
  destruct (str_eq_dec p q) as [->|Hpq].
  - assert (Ht : truthyStr (modelOf (ensureProvider m q) q) = true).
    { rewrite ensureProvider_modelOf_same.
      destruct (truthyStr (modelOf m q)) eqn:E; [exact E | apply Hdef; left; reflexivity]. }
    split; [|split].
    + apply fold_ensureProvider_present. unfold ensureProvider.
      rewrite lookup_setProvider_same. discriminate.
    + rewrite fold_ensureProvider_model_kept by exact Ht. exact Ht.
    + rewrite fold_ensureProvider_model_kept by exact Ht.
      apply ensureProvider_modelOf_same.
  - destruct Hin as [Hin|Hin]; [contradiction|].
    destruct (IH (ensureProvider m p) Hin (fun r Hr => Hdef r (or_intror Hr)))
      as [H1 [H2 H3]].
    split; [exact H1|]. split; [exact H2|].
    rewrite H3. rewrite ensureProvider_modelOf_other by assumption. reflexivity.
Qed.

(** X1.  A load never alters or drops a stored API key, whatever the
    provider; and after it each of the five supported providers has an
    entry with a non-empty model: the stored one when there is one, the
    provider's default model otherwise. *)
Theorem loadConfig_providers (doc : Config.t) :
  (forall q, keyOf (Config.providers (fst (loadConfig (coldStore doc)))) q
             = keyOf (Config.providers doc) q)
  /\ (forall p, In p supportedProviders ->
        let providers := Config.providers (fst (loadConfig (coldStore doc))) in
        lookup providers p <> None
        /\ truthyStr (modelOf providers p) = true
        /\ modelOf providers p
           = if truthyStr (modelOf (Config.providers doc) p)
             then modelOf (Config.providers doc) p
             else lookup PROVIDER_DEFAULT_MODELS p).
Proof.
  unfold coldStore. rewrite loadConfig_cold. split.
  - intros q. apply fold_ensureProvider_keyOf.
  - intros p Hp. apply fold_ensureProvider_model; [exact Hp|].
    intros r Hr. apply default_model_truthy; exact Hr.
Qed.

Lemma loadConfig_providers_witness :
  modelOf (Config.providers (fst (loadConfig (coldStore Config.empty)))) (lit "groq")
  = Some (lit "llama-3.1-70b-versatile").
Proof.
  destruct (loadConfig_providers Config.empty) as [_ H].
  destruct (H (lit "groq")) as [_ [_ Hm]].
  - right; right; right; left; reflexivity.
  - exact Hm.
Defined.

(** The providers of a migrated configuration are a fixed point of the
    provider loop. *)
Lemma fold_ensureProvider_fixed ps m :
  (forall p, In p ps -> lookup m p <> None /\ truthyStr (modelOf m p) = true) ->
  fold_left ensureProvider ps m = m.
Proof.
  induction ps as [|p ps IH]; intros H; simpl; [reflexivity|].
  assert (Hp : ensureProvider m p = m).
  { destruct (H p (or_introl eq_refl)) as [Hl Ht].
    unfold ensureProvider. unfold modelOf in Ht.
    destruct (lookup m p) as [c|] eqn:E; [|congruence].
    rewrite Ht. apply setProvider_unchanged; exact E. }
  rewrite Hp. apply IH. intros r Hr. apply H. right; exact Hr.
Qed.

End ProviderFacts.

(* ====================================================================== *)
(** * Stability of the migration *)

Section MigrationFacts.

Lemma toInt32_range z : -2147483648 <= toInt32 z < 2147483648.
Proof.
  unfold toInt32.
  pose proof (Z.mod_pos_bound z 4294967296 ltac:(lia)) as H.
  destruct (z mod 4294967296 <? 2147483648) eqn:E;
    [apply Z.ltb_lt in E | apply Z.ltb_ge in E]; lia.
Qed.

Lemma toInt32_small z : -2147483648 <= z < 2147483648 -> toInt32 z = z.
Proof.
  intros H. unfold toInt32.
  destruct (Z.neg_nonneg_cases z) as [Hz|Hz].
  - assert (Hm : z mod 4294967296 = z + 4294967296).
    { symmetry. apply (Z.mod_unique_pos z 4294967296 (-1) (z + 4294967296)); lia. }
    rewrite Hm.
    destruct (z + 4294967296 <? 2147483648) eqn:E;
      [apply Z.ltb_lt in E | apply Z.ltb_ge in E]; lia.
  - rewrite Z.mod_small by lia.
    destruct (z <? 2147483648) eqn:E; [reflexivity | apply Z.ltb_ge in E; lia].
Qed.

Lemma clampAutoHide_range x : 0 <= clampAutoHide x <= 30000.
Proof. unfold clampAutoHide. lia. Qed.

Lemma clampAutoHide_fixed x : 0 <= x <= 30000 -> clampAutoHide x = x.
Proof. intros H. unfold clampAutoHide. rewrite toInt32_small by lia. lia. Qed.

(** Two configurations with the same fields are the same. *)
Lemma Config_ext (a b : Config.t) :
  Config.providers a = Config.providers b ->
  Config.active a = Config.active b ->
  Config.theme a = Config.theme b ->
  Config.autoCopySelection a = Config.autoCopySelection b ->
  Config.autoHideMs a = Config.autoHideMs b ->
  Config.markdownMode a = Config.markdownMode b ->
  Config.markdownEnabled a = Config.markdownEnabled b ->
  Config.onboarded a = Config.onboarded b ->
  Config.hotkeys_summarize a = Config.hotkeys_summarize b ->
  Config.summaryPresets a = Config.summaryPresets b ->
  Config.unlimitedInput a = Config.unlimitedInput b ->
  Config.maxInputChars a = Config.maxInputChars b ->
  Config.maxOutputTokens a = Config.maxOutputTokens b ->
  Config.activeDocumentSession a = Config.activeDocumentSession b ->
  a = b.
Proof. destruct a, b; simpl; intros; subst; reflexivity. Qed.

(** The fields of a migrated configuration. *)
Lemma migrate_providers_eq d :
  Config.providers (migrate d)
  = fold_left ensureProvider supportedProviders (Config.providers d).
Proof. reflexivity. Qed.

Lemma migrate_active_eq d :
  Config.active (migrate d)
  = Some (if includes [lit "mistral"; lit "cohere"] (orStr (Config.active d) (lit "gemini"))
          then lit "openai" else orStr (Config.active d) (lit "gemini")).
Proof. reflexivity. Qed.

Lemma migrate_theme_eq d :
  Config.theme (migrate d) = Some (orStr (Config.theme d) (lit "light")).
Proof. reflexivity. Qed.

Lemma migrate_autoHideMs_eq d :
  Config.autoHideMs (migrate d)
  = JNum (match Config.autoHideMs d with
          | JNum n => clampAutoHide n
          | _ => clampAutoHide 0
          end).
Proof. reflexivity. Qed.

Lemma migrate_markdownMode_eq d :
  Config.markdownMode (migrate d)
  = if negb (truthy (Config.markdownMode d)) then
      match Config.markdownEnabled d with
      | JBool b => JStr (if b then lit "full" else lit "off")
      | _ => JStr (lit "full")
      end
    else Config.markdownMode d.
Proof. reflexivity. Qed.

Lemma migrate_markdownEnabled_eq d :
  Config.markdownEnabled (migrate d)
  = JBool (match Config.markdownMode (migrate d) with
           | JStr s => negb (streqb s (lit "off"))
           | _ => true
           end).
Proof. reflexivity. Qed.

Lemma orStr_nonEmpty o d : nonEmpty d = true -> nonEmpty (orStr o d) = true.
Proof.
  intros H. unfold orStr. destruct o as [s|]; [|exact H].
  destruct (nonEmpty s) eqn:E; [exact E | exact H].
Qed.

Lemma orStr_Some_nonEmpty s d : nonEmpty s = true -> orStr (Some s) d = s.
Proof. intros H. unfold orStr. rewrite H. reflexivity. Qed.

(** The active provider after the migration. *)
Lemma loadConfig_active_aux d :
  exists a,
    Config.active (migrate d) = Some a
    /\ nonEmpty a = true /\ a <> lit "mistral" /\ a <> lit "cohere".
Proof.
  rewrite migrate_active_eq. eexists. split; [reflexivity|].
  set (a0 := orStr (Config.active d) (lit "gemini")).
  assert (Hne : nonEmpty a0 = true) by (apply orStr_nonEmpty; reflexivity).
  destruct (includes [lit "mistral"; lit "cohere"] a0) eqn:E.
  - split; [reflexivity|]. split; discriminate.
  - unfold includes in E. simpl in E. rewrite orb_false_r in E.
    apply orb_false_iff in E. destruct E as [E1 E2].
    split; [exact Hne|].
    split; intros ->; [vm_compute in E1 | vm_compute in E2]; discriminate.
Qed.

(** X2.  After a load the active provider is a non-empty name and is never
    one of the deprecated ['mistral'] and ['cohere']: those become
    ['openai'], a missing one becomes ['gemini'], any other name is kept. *)
Theorem loadConfig_active (doc : Config.t) :
  exists a,
    Config.active (fst (loadConfig (coldStore doc))) = Some a
    /\ nonEmpty a = true
    /\ a <> lit "mistral" /\ a <> lit "cohere"
    /\ (truthyStr (Config.active doc) = false -> a = lit "gemini")
    /\ (forall x, Config.active doc = Some x -> nonEmpty x = true ->
        x <> lit "mistral" -> x <> lit "cohere" -> a = x)
    /\ (Config.active doc = Some (lit "mistral") \/ Config.active doc = Some (lit "cohere") ->
        a = lit "openai").
Proof.
  unfold coldStore. rewrite loadConfig_cold, migrate_active_eq.
  eexists. split; [reflexivity|].
  set (a0 := orStr (Config.active doc) (lit "gemini")).
  assert (Hne : nonEmpty a0 = true) by (apply orStr_nonEmpty; reflexivity).
  destruct (includes [lit "mistral"; lit "cohere"] a0) eqn:E.
  - split; [reflexivity|]. split; [discriminate|]. split; [discriminate|].
    split; [|split].
    + intros Hf. exfalso. unfold a0, orStr in E.
      destruct (Config.active doc) as [x|]; simpl in Hf.
      * rewrite Hf in E. discriminate.
      * discriminate.
    + intros x Hx Hxne Hm Hc. exfalso.
      unfold a0 in E. rewrite Hx, orStr_Some_nonEmpty in E by exact Hxne.
      unfold includes in E. simpl in E.
      apply orb_true_iff in E. destruct E as [E|E].
      * apply streqb_eq in E. contradiction.
      * rewrite orb_false_r in E. apply streqb_eq in E. contradiction.
    + reflexivity.
  - unfold includes in E. simpl in E. rewrite orb_false_r in E.
    apply orb_false_iff in E. destruct E as [E1 E2].
    split; [exact Hne|].
    split; [intros ->; vm_compute in E1; discriminate|].
    split; [intros ->; vm_compute in E2; discriminate|].
    split; [|split].
    + intros Hf. unfold a0, orStr. destruct (Config.active doc) as [x|]; simpl in Hf.
      * rewrite Hf. reflexivity.
      * reflexivity.
    + intros x Hx Hxne _ _. unfold a0. rewrite Hx. apply orStr_Some_nonEmpty; exact Hxne.
    + intros [H|H]; exfalso; unfold a0 in *; rewrite H in *;
        [vm_compute in E1 | vm_compute in E2]; discriminate.
Qed.

Lemma migrate_active_fixed d :
  (if includes [lit "mistral"; lit "cohere"]
        (orStr (Config.active (migrate d)) (lit "gemini"))
   then lit "openai" else orStr (Config.active (migrate d)) (lit "gemini"))
  = match Config.active (migrate d) with Some a => a | None => [] end.
Proof.
  destruct (loadConfig_active_aux d) as [a [Ha [Hne [Hm Hc]]]].
  rewrite Ha. rewrite orStr_Some_nonEmpty by exact Hne.
  destruct (includes [lit "mistral"; lit "cohere"] a) eqn:E; [|reflexivity].
  exfalso. unfold includes in E. simpl in E. rewrite orb_false_r in E.
  apply orb_true_iff in E. destruct E as [E|E]; apply streqb_eq in E; auto.
Qed.

End MigrationFacts.

Section ReloadFacts.

Lemma loadConfig_active_witness :
  Config.active (fst (loadConfig (coldStore (docWith "mistral" "m" JUndefined None))))
  = Some (lit "openai").
Proof.
  destruct (loadConfig_active (docWith "mistral" "m" JUndefined None))
    as [a [Ha [_ [_ [_ [_ [_ Hdep]]]]]]].
  rewrite Ha. f_equal. apply Hdep. left; reflexivity.
Defined.

Lemma migrate_providers_fixed d :
  fold_left ensureProvider supportedProviders (Config.providers (migrate d))
  = Config.providers (migrate d).
Proof.
  apply fold_ensureProvider_fixed. intros p Hp.
  rewrite migrate_providers_eq.
  destruct (fold_ensureProvider_model supportedProviders (Config.providers d) p Hp
              (fun r Hr => default_model_truthy r Hr)) as [H1 [H2 _]].
  split; assumption.
Qed.

Lemma migrate_markdownMode_truthy d : truthy (Config.markdownMode (migrate d)) = true.
Proof.
  rewrite migrate_markdownMode_eq.
  destruct (truthy (Config.markdownMode d)) eqn:E; cbn [negb]; [exact E|].
  destruct (Config.markdownEnabled d) as [| |[|]| |]; reflexivity.
Qed.

Lemma migrate_presets_length d :
  (List.length (Config.summaryPresets (migrate d)) <= 11)%nat
  /\ (existsb flaggedDefault (arrSlice0 MAX_PRESETS (Config.summaryPresets d)) = true ->
      (List.length (Config.summaryPresets (migrate d)) <= 10)%nat).
Proof.
  rewrite migrate_presets. cbv zeta.
  assert (Hk : (List.length (arrSlice0 MAX_PRESETS (Config.summaryPresets d)) <= 10)%nat).
  { rewrite arrSlice0_firstn by (unfold MAX_PRESETS; lia).
    rewrite length_firstn. unfold MAX_PRESETS. lia. }
  destruct (existsb flaggedDefault (arrSlice0 MAX_PRESETS (Config.summaryPresets d)));
    cbn [negb List.length]; split; intros; try lia; discriminate.
Qed.

(** Migrating a migrated configuration changes nothing but the preset list,
    which is cut to its first ten entries. *)
Lemma migrate_migrate d :
  migrate (migrate d)
  = Config.with_summaryPresets
      (arrSlice0 MAX_PRESETS (Config.summaryPresets (migrate d))) (migrate d).
Proof.
  apply Config_ext.
  - rewrite migrate_providers_eq. apply migrate_providers_fixed.
  - rewrite migrate_active_eq, migrate_active_fixed.
    destruct (loadConfig_active_aux d) as [a [Ha _]].
    change (Config.active (Config.with_summaryPresets ?l ?c)) with (Config.active c).
    rewrite Ha. reflexivity.
  - rewrite migrate_theme_eq.
    change (Config.theme (Config.with_summaryPresets ?l ?c)) with (Config.theme c).
    rewrite migrate_theme_eq.
    rewrite orStr_Some_nonEmpty by (apply orStr_nonEmpty; reflexivity). reflexivity.
  - change (Config.autoCopySelection (migrate (migrate d)))
      with (JBool (match Config.autoCopySelection (migrate d) with
                   | JBool false => false | _ => true end)).
    change (Config.autoCopySelection (Config.with_summaryPresets ?l ?c))
      with (Config.autoCopySelection c).
    change (Config.autoCopySelection (migrate d))
      with (JBool (match Config.autoCopySelection d with
                   | JBool false => false | _ => true end)).
    destruct (Config.autoCopySelection d) as [| |[|]| |]; reflexivity.
  - rewrite migrate_autoHideMs_eq.
    change (Config.autoHideMs (Config.with_summaryPresets ?l ?c)) with (Config.autoHideMs c).
    rewrite migrate_autoHideMs_eq. f_equal.
    apply clampAutoHide_fixed.
    destruct (Config.autoHideMs d); apply clampAutoHide_range.
  - rewrite migrate_markdownMode_eq, migrate_markdownMode_truthy. reflexivity.
  - rewrite migrate_markdownEnabled_eq.
    rewrite migrate_markdownMode_eq, migrate_markdownMode_truthy. cbn [negb].
    change (Config.markdownEnabled (Config.with_summaryPresets ?l ?c))
      with (Config.markdownEnabled c).
    rewrite (migrate_markdownEnabled_eq d). reflexivity.
  - change (Config.onboarded (migrate (migrate d)))
      with (JBool (match Config.onboarded (migrate d) with
                   | JBool true => true | _ => false end)).
    change (Config.onboarded (Config.with_summaryPresets ?l ?c)) with (Config.onboarded c).
    change (Config.onboarded (migrate d))
      with (JBool (match Config.onboarded d with JBool true => true | _ => false end)).
    destruct (Config.onboarded d) as [| |[|]| |]; reflexivity.
  - reflexivity.
  - rewrite (migrate_presets (migrate d)). cbv zeta.
    change (Config.summaryPresets (Config.with_summaryPresets ?l ?c)) with l.
    assert (H : existsb flaggedDefault
                  (arrSlice0 MAX_PRESETS (Config.summaryPresets (migrate d))) = true).
    { rewrite migrate_presets. cbv zeta.
      destruct (existsb flaggedDefault (arrSlice0 MAX_PRESETS (Config.summaryPresets d)))
        eqn:E; cbn [negb].
      - rewrite arrSlice0_firstn by (unfold MAX_PRESETS; lia).
        rewrite firstn_all2; [exact E|].
        change (Z.to_nat MAX_PRESETS) with 10%nat.
        rewrite arrSlice0_firstn by (unfold MAX_PRESETS; lia).
        rewrite length_firstn. unfold MAX_PRESETS. lia.
      - rewrite arrSlice0_firstn by (unfold MAX_PRESETS; lia).
        change (Z.to_nat MAX_PRESETS) with 10%nat. rewrite firstn_cons. reflexivity. }
    rewrite H. reflexivity.
  - change (Config.unlimitedInput (migrate (migrate d)))
      with (match Config.unlimitedInput (migrate d) with
            | JUndefined => JBool false | v => v end).
    change (Config.unlimitedInput (Config.with_summaryPresets ?l ?c))
      with (Config.unlimitedInput c).
    change (Config.unlimitedInput (migrate d))
      with (match Config.unlimitedInput d with JUndefined => JBool false | v => v end).
    destruct (Config.unlimitedInput d); reflexivity.
  - destruct (migrate_numeric_fields d) as [[m [Hm Hm0]] _].
    change (Config.maxInputChars (migrate (migrate d)))
      with (Some (match Config.maxInputChars (migrate d) with
                  | Some n => if n =? 0 then MAX_TEXT_LEN else n
                  | None => MAX_TEXT_LEN end)).
    change (Config.maxInputChars (Config.with_summaryPresets ?l ?c))
      with (Config.maxInputChars c).
    rewrite Hm. apply Z.eqb_neq in Hm0. rewrite Hm0. reflexivity.
  - destruct (migrate_numeric_fields d) as [_ [t [Ht Ht0]]].
    change (Config.maxOutputTokens (migrate (migrate d)))
      with (Some (match Config.maxOutputTokens (migrate d) with
                  | Some n => if n =? 0 then 800 else n
                  | None => 800 end)).
    change (Config.maxOutputTokens (Config.with_summaryPresets ?l ?c))
      with (Config.maxOutputTokens c).
    rewrite Ht. apply Z.eqb_neq in Ht0. rewrite Ht0. reflexivity.
  - reflexivity.
Qed.

(** X3.  Saving without a change and loading again gives back the loaded
    configuration, except that its preset list is cut to the first ten
    entries; so the configuration is given back unchanged whenever it has at
    most ten presets, and a list of eleven (ten stored presets, none
    flagged, behind the injected default) loses its last preset. *)
Theorem saveConfig_reload (s : Store) :
  cacheInv s ->
  let cfg := fst (loadConfig s) in
  let reloaded := fst (saveConfig (fun c => c) s) in
  reloaded
  = Config.with_summaryPresets
      (firstn 10 (Config.summaryPresets cfg)) cfg
  /\ ((List.length (Config.summaryPresets cfg) <= 10)%nat -> reloaded = cfg)
  /\ (forall p, nth_error (Config.summaryPresets cfg) 10 = Some p ->
        (List.length (Config.summaryPresets cfg) = 11)%nat
        /\ (List.length (Config.summaryPresets reloaded) = 10)%nat).
Proof.
  intros Hs cfg reloaded.
  destruct (loadConfig_migrated s Hs) as [[raw Hraw] _].
  assert (Hre : reloaded
                = Config.with_summaryPresets (firstn 10 (Config.summaryPresets cfg)) cfg).
  { unfold reloaded, saveConfig.
    destruct (loadConfig s) as [c s1] eqn:E. cbn [fst] in *.
    change (fst (loadConfig (mkStore None (Some c)))) with (migrate c).
    subst cfg. rewrite Hraw, migrate_migrate.
    rewrite arrSlice0_firstn by (unfold MAX_PRESETS; lia). reflexivity. }
  change (cfg = migrate raw) in Hraw. clearbody cfg reloaded.
  split; [exact Hre|]. split.
  - intros Hlen. rewrite Hre. rewrite firstn_all2 by exact Hlen.
    destruct cfg; reflexivity.
  - intros p Hp.
    assert (Hlt : (10 < List.length (Config.summaryPresets cfg))%nat).
    { apply nth_error_Some. congruence. }
    pose proof (proj1 (migrate_presets_length raw)) as Hle.
    rewrite <- Hraw in Hle. split; [lia|].
    rewrite Hre.
    change (Config.summaryPresets (Config.with_summaryPresets ?l ?c)) with l.
    rewrite length_firstn. lia.
Qed.

End ReloadFacts.

(* ====================================================================== *)
(** * Settings handlers *)

Section HandlerFacts.

Lemma saveConfig_reload_witness :
  List.length (Config.summaryPresets (fst (loadConfig (coldStore tenPlainDoc)))) = 11%nat
  /\ List.length
       (Config.summaryPresets (fst (saveConfig (fun c => c) (coldStore tenPlainDoc))))
     = 10%nat.
Proof.
  destruct (saveConfig_reload (coldStore tenPlainDoc) (or_introl eq_refl))
    as [_ [_ Hcut]].
  exact (Hcut plainPreset eq_refl).
Defined.

Lemma saveConfig_eq mutator s :
  saveConfig mutator s
  = (migrate (mutator (fst (loadConfig s))),
     mkStore (Some (migrate (mutator (fst (loadConfig s)))))
             (Some (mutator (fst (loadConfig s))))).
Proof. unfold saveConfig. destruct (loadConfig s) as [cfg s1]. reflexivity. Qed.

(** After a save the next load is served from the cache. *)
Lemma saveConfig_then_load mutator s :
  fst (loadConfig (snd (saveConfig mutator s))) = fst (saveConfig mutator s).
Proof. rewrite saveConfig_eq. reflexivity. Qed.

(** X4.  The input cap the settings handler stores is always between 1,000
    and 100,000: a parsed value in that range is stored as it is, a smaller
    or larger one is clamped, and zero or an unparsable value gives 25,000.
    The stored cap is what the next load returns, and with unlimited input
    off no provider call of a run under that configuration carries more
    characters than the cap. *)
Theorem setMaxInputChars_bounds (parsed : option Z) (s : Store) :
  let validChars := fst (setMaxInputChars parsed s) in
  let cfg := fst (snd (setMaxInputChars parsed s)) in
  1000 <= validChars <= 100000
  /\ (forall n, parsed = Some n -> 1000 <= n <= 100000 -> validChars = n)
  /\ (parsed = None \/ parsed = Some 0 -> validChars = 25000)
  /\ Config.maxInputChars cfg = Some validChars
  /\ Config.maxInputChars (fst (loadConfig (snd (snd (setMaxInputChars parsed s)))))
     = Some validChars
  /\ (Config.unlimitedInput cfg = JBool false ->
      forall preset captured now sendOk st c,
        In (CallProvider c)
           (eventsOf (runSummary_captured cfg preset captured now sendOk st)) ->
        strlen (call_userText c) <= validChars).
Proof.
  intros validChars cfg.
  assert (Hv : validChars = Z.max 1000 (Z.min 100000 (orNum parsed 25000))) by reflexivity.
  assert (Hcfg : Config.maxInputChars cfg = Some validChars).
  { unfold cfg, setMaxInputChars. cbn [fst snd]. rewrite saveConfig_eq. cbn [fst].
    unfold migrate, with_maxInputChars. cbn [Config.maxInputChars].
    change validChars with (Z.max 1000 (Z.min 100000 (orNum parsed 25000))).
    destruct (Z.max 1000 (Z.min 100000 (orNum parsed 25000)) =? 0) eqn:E; [|reflexivity].
    apply Z.eqb_eq in E. lia. }
  split; [lia|]. split.
  { intros n Hn Hr. rewrite Hv, Hn. unfold orNum.
    destruct (n =? 0) eqn:E; [apply Z.eqb_eq in E; lia | lia]. }
  split.
  { intros [H|H]; rewrite Hv, H; reflexivity. }
  split; [exact Hcfg|]. split.
  { unfold setMaxInputChars. cbn [fst snd]. rewrite saveConfig_then_load. exact Hcfg. }
  intros Hu preset captured now sendOk st c Hin.
  apply runSummary_captured_calls in Hin. subst c.
  unfold providerCallOf. cbn [call_userText].
  unfold effectiveMaxLengthOf. rewrite Hu.
  rewrite (getMaxInputLength_fixed _ _ _ _ validChars Hcfg). cbn [sliceTo].
  apply strlen_slice_0_le. lia.
Qed.

Lemma setMaxInputChars_bounds_witness :
  fst (setMaxInputChars (Some 5) (coldStore Config.empty)) = 1000
  /\ fst (setMaxInputChars (Some 40000) (coldStore Config.empty)) = 40000
  /\ fst (setMaxInputChars None (coldStore Config.empty)) = 25000.
Proof.
  split; [reflexivity|]. split.
  - destruct (setMaxInputChars_bounds (Some 40000) (coldStore Config.empty))
      as [_ [Hkeep _]].
    apply (Hkeep 40000 eq_refl). lia.
  - destruct (setMaxInputChars_bounds None (coldStore Config.empty))
      as [_ [_ [Hdef _]]].
    apply Hdef. left; reflexivity.
Defined.

(** X5.  The output reservation the settings handler stores is always
    between 100 and 25,000 (800 for zero or an unparsable value); it is what
    the next load returns and what every request the gateway builds under
    that configuration asks for as [max_tokens]. *)
Theorem setMaxOutputTokens_bounds (parsed : option Z) (s : Store) :
  let validTokens := fst (setMaxOutputTokens parsed s) in
  let cfg := fst (snd (setMaxOutputTokens parsed s)) in
  100 <= validTokens <= 25000
  /\ (forall n, parsed = Some n -> 100 <= n <= 25000 -> validTokens = n)
  /\ (parsed = None \/ parsed = Some 0 -> validTokens = 800)
  /\ Config.maxOutputTokens cfg = Some validTokens
  /\ (forall provider key model systemPrompt userText req,
        buildRequest cfg provider key model systemPrompt userText = Ok req ->
        match body req with
        | ChatBody _ _ _ max_tokens => max_tokens = Some validTokens
        | AnthropicBody _ _ max_tokens _ => max_tokens = Some validTokens
        | GeminiBody _ maxOutputTokens => maxOutputTokens = Some validTokens
        end).
Proof.
  intros validTokens cfg.
  assert (Hv : validTokens = Z.max 100 (Z.min 25000 (orNum parsed 800))) by reflexivity.
  assert (Hcfg : Config.maxOutputTokens cfg = Some validTokens).
  { unfold cfg, setMaxOutputTokens. cbn [fst snd]. rewrite saveConfig_eq. cbn [fst].
    unfold migrate, with_maxOutputTokens. cbn [Config.maxOutputTokens].
    change validTokens with (Z.max 100 (Z.min 25000 (orNum parsed 800))).
    destruct (Z.max 100 (Z.min 25000 (orNum parsed 800)) =? 0) eqn:E; [|reflexivity].
    apply Z.eqb_eq in E. lia. }
  split; [lia|]. split.
  { intros n Hn Hr. rewrite Hv, Hn. unfold orNum.
    destruct (n =? 0) eqn:E; [apply Z.eqb_eq in E; lia | lia]. }
  split.
  { intros [H|H]; rewrite Hv, H; reflexivity. }
  split; [exact Hcfg|].
  intros provider key model systemPrompt userText req.
  unfold buildRequest. rewrite Hcfg.
  destruct (streqb provider (lit "openai") || streqb provider (lit "groq")).
  { destruct key as [k|]; [destruct (nonEmpty k)|]; cbn [negb];
      intros H; inversion H; subst; reflexivity. }
  destruct (streqb provider (lit "anthropic")).
  { destruct key as [k|]; [destruct (nonEmpty k)|]; cbn [negb];
      intros H; inversion H; subst; reflexivity. }
  destruct (streqb provider (lit "gemini")).
  { destruct key as [k|]; [destruct (nonEmpty k)|]; cbn [negb];
      [destruct (modelOrDefault model provider) as [m0|];
       [cbv zeta; destruct (wellFormed (stripGenerateContent m0))|]| |];
      cbn [negb]; intros H; inversion H; subst; reflexivity. }
  destruct (streqb provider (lit "grok")).
  { destruct key as [k|]; [destruct (nonEmpty k)|]; cbn [negb];
      intros H; inversion H; subst; reflexivity. }
  discriminate.
Qed.

Lemma setMaxOutputTokens_bounds_witness :
  fst (setMaxOutputTokens (Some 1200) (coldStore Config.empty)) = 1200
  /\ fst (setMaxOutputTokens (Some 0) (coldStore Config.empty)) = 800.
Proof.
  split.
  - destruct (setMaxOutputTokens_bounds (Some 1200) (coldStore Config.empty))
      as [_ [Hkeep _]].
    apply (Hkeep 1200 eq_refl). lia.
  - destruct (setMaxOutputTokens_bounds (Some 0) (coldStore Config.empty))
      as [_ [_ [Hdef _]]].
    apply Hdef. right; reflexivity.
Defined.

(** X6.  The auto-hide delay is a number between 0 and 30,000 after every
    load, whatever the document holds, and after the settings handler; the
    handler stores a delay in that range as it is, a negative one as 0 and a
    larger 32-bit one as 30,000. *)
Theorem autoHideMs_bounds :
  (forall doc, exists n,
      Config.autoHideMs (fst (loadConfig (coldStore doc))) = JNum n /\ 0 <= n <= 30000)
  /\ (forall ms s, exists n,
        Config.autoHideMs (fst (setAutoHideMs ms s)) = JNum n
        /\ 0 <= n <= 30000
        /\ (0 <= ms <= 30000 -> n = ms)
        /\ (-2147483648 <= ms < 0 -> n = 0)
        /\ (30000 < ms < 2147483648 -> n = 30000)).
Proof.
  split.
  - intros doc. unfold coldStore. rewrite loadConfig_cold, migrate_autoHideMs_eq.
    eexists. split; [reflexivity|].
    destruct (Config.autoHideMs doc); apply clampAutoHide_range.
  - intros ms s. unfold setAutoHideMs. rewrite saveConfig_eq. cbn [fst].
    rewrite migrate_autoHideMs_eq. unfold with_autoHideMs. cbn [Config.autoHideMs].
    exists (clampAutoHide (clampAutoHide ms)). split; [reflexivity|].
    rewrite (clampAutoHide_fixed (clampAutoHide ms)) by apply clampAutoHide_range.
    split; [apply clampAutoHide_range|].
    split; [intros H; apply clampAutoHide_fixed; exact H|].
    split; intros H; unfold clampAutoHide; rewrite toInt32_small by lia; lia.
Qed.

Lemma autoHideMs_bounds_witness :
  exists n, Config.autoHideMs (fst (setAutoHideMs 45000 (coldStore Config.empty))) = JNum n
            /\ n = 30000.
Proof.
  destruct autoHideMs_bounds as [_ H].
  destruct (H 45000 (coldStore Config.empty)) as [n [Hn [_ [_ [_ Hbig]]]]].
  exists n. split; [exact Hn | apply Hbig; lia].
Defined.

Lemma migrate_markdownEnabled_eq_save mutator s :
  Config.markdownEnabled (fst (saveConfig mutator s))
  = JBool (match Config.markdownMode (fst (saveConfig mutator s)) with
           | JStr m => negb (streqb m (lit "off"))
           | _ => true
           end).
Proof. rewrite saveConfig_eq. reflexivity. Qed.

(** X7.  After the markdown-mode handler the stored mode is one of ['off'],
    ['light'] and ['full']: the submitted mode when it is one of these,
    ['full'] for anything else; and the legacy flag [markdownEnabled] of the
    returned configuration is true exactly when the mode is not ['off']. *)
Theorem setMarkdownMode_allowed (mode : jsval) (s : Store) :
  let cfg := fst (setMarkdownMode mode s) in
  (Config.markdownMode cfg = JStr (lit "off")
   \/ Config.markdownMode cfg = JStr (lit "light")
   \/ Config.markdownMode cfg = JStr (lit "full"))
  /\ (mode = JStr (lit "off") \/ mode = JStr (lit "light") \/ mode = JStr (lit "full") ->
      Config.markdownMode cfg = mode)
  /\ (mode <> JStr (lit "off") -> mode <> JStr (lit "light") ->
      Config.markdownMode cfg = JStr (lit "full"))
  /\ Config.markdownEnabled cfg
     = JBool (negb (jsval_eqb (Config.markdownMode cfg) (JStr (lit "off")))).
Proof.
  intros cfg.
  assert (Hmode : forall m,
            includes [lit "off"; lit "light"; lit "full"] m = true ->
            m = lit "off" \/ m = lit "light" \/ m = lit "full").
  { intros m H. unfold includes in H. simpl in H. rewrite orb_false_r in H.
    apply orb_true_iff in H. destruct H as [H|H]; [left; apply streqb_eq; exact H|].
    apply orb_true_iff in H.
    destruct H as [H|H]; [right; left | right; right]; apply streqb_eq; exact H. }
  assert (Hcfg : Config.markdownMode cfg
                 = match mode with
                   | JStr m => if includes [lit "off"; lit "light"; lit "full"] m
                               then mode else JStr (lit "full")
                   | _ => JStr (lit "full")
                   end).
  { unfold cfg, setMarkdownMode. rewrite saveConfig_eq. cbn [fst].
    rewrite migrate_markdownMode_eq. unfold with_markdownMode.
    cbn [Config.markdownMode Config.markdownEnabled].
    destruct mode as [| | b | n | m]; try reflexivity.
    destruct (includes [lit "off"; lit "light"; lit "full"] m) eqn:E; [|reflexivity].
    destruct (Hmode m E) as [->|[->| ->]]; reflexivity. }
  assert (Hen : Config.markdownEnabled cfg
                = JBool (negb (jsval_eqb (Config.markdownMode cfg) (JStr (lit "off"))))).
  { unfold cfg, setMarkdownMode. rewrite migrate_markdownEnabled_eq_save.
    match goal with
    | |- context [Config.markdownMode ?c] => destruct (Config.markdownMode c)
    end; reflexivity. }
  split.
  { rewrite Hcfg. destruct mode as [| | b | n | m]; auto.
    destruct (includes [lit "off"; lit "light"; lit "full"] m) eqn:E; auto.
    destruct (Hmode m E) as [->|[->| ->]]; auto. }
  split.
  { intros [->|[->| ->]]; rewrite Hcfg; reflexivity. }
  split; [|exact Hen].
  intros Hoff Hlight. rewrite Hcfg. destruct mode as [| | b | n | m]; try reflexivity.
  destruct (includes [lit "off"; lit "light"; lit "full"] m) eqn:E; [|reflexivity].
  destruct (Hmode m E) as [->|[->| ->]]; congruence.
Qed.

Lemma setMarkdownMode_allowed_witness :
  Config.markdownMode (fst (setMarkdownMode (JStr (lit "light")) (coldStore Config.empty)))
  = JStr (lit "light")
  /\ Config.markdownMode (fst (setMarkdownMode (JStr (lit "fancy")) (coldStore Config.empty)))
     = JStr (lit "full").
Proof.
  split.
  - destruct (setMarkdownMode_allowed (JStr (lit "light")) (coldStore Config.empty))
      as [_ [H _]].
    apply H. right; left; reflexivity.
  - destruct (setMarkdownMode_allowed (JStr (lit "fancy")) (coldStore Config.empty))
      as [_ [_ [H _]]].
    apply H; discriminate.
Defined.

End HandlerFacts.

Section KeyAndThemeFacts.

(** A mutator that leaves the provider map alone keeps every key. *)
Lemma saveConfig_keeps_keys mutator s q :
  (forall c, Config.providers (mutator c) = Config.providers c) ->
  keyOf (Config.providers (fst (saveConfig mutator s))) q
  = keyOf (Config.providers (fst (loadConfig s))) q.
Proof.
  intros H. rewrite saveConfig_eq. cbn [fst].
  rewrite migrate_providers_eq, fold_ensureProvider_keyOf, H. reflexivity.
Qed.

Lemma optStrEqb_eq a b : optStrEqb a b = true <-> a = b.
Proof.
  destruct a as [x|], b as [y|]; simpl; split; intros H;
    try discriminate; try reflexivity.
  - apply streqb_eq in H. congruence.
  - inversion H. apply streqb_refl.
Qed.

(** X8.  Setting a non-empty theme and loading again returns that theme;
    the change is broadcast once when the theme differs from the one loaded
    before and not at all when it is the same; no API key is touched.  An
    empty or missing theme is stored as ['light']. *)
Theorem setTheme_round_trip (theme : jsstring) (s : Store) :
  nonEmpty theme = true ->
  let before := Config.theme (fst (loadConfig s)) in
  let after := setTheme (Some theme) s in
  Config.theme (fst after) = Some theme
  /\ Config.theme (fst (loadConfig (snd after))) = Some theme
  /\ (before <> Some theme ->
      saveConfig_broadcasts (with_theme (Some theme)) s = [Some theme])
  /\ (before = Some theme -> saveConfig_broadcasts (with_theme (Some theme)) s = [])
  /\ (forall q, keyOf (Config.providers (fst after)) q
                = keyOf (Config.providers (fst (loadConfig s))) q)
  /\ Config.theme (fst (setTheme None s)) = Some (lit "light")
  /\ Config.theme (fst (setTheme (Some []) s)) = Some (lit "light").
Proof.
  intros Hne before after.
  assert (Hth : Config.theme (fst after) = Some theme).
  { unfold after, setTheme. rewrite saveConfig_eq. cbn [fst].
    rewrite migrate_theme_eq. unfold with_theme. cbn [Config.theme].
    rewrite orStr_Some_nonEmpty by exact Hne. reflexivity. }
  split; [exact Hth|]. split.
  { unfold after, setTheme. rewrite saveConfig_then_load. exact Hth. }
  split.
  { intros Hdiff. unfold saveConfig_broadcasts. fold (setTheme (Some theme) s).
    fold after. rewrite Hth. fold before.
    destruct (optStrEqb before (Some theme)) eqn:E; [|reflexivity].
    apply optStrEqb_eq in E. contradiction. }
  split.
  { intros Hsame. unfold saveConfig_broadcasts. fold (setTheme (Some theme) s).
    fold after. rewrite Hth. fold before. rewrite Hsame.
    rewrite (proj2 (optStrEqb_eq (Some theme) (Some theme)) eq_refl). reflexivity. }
  split.
  { intros q. unfold after, setTheme. apply saveConfig_keeps_keys. reflexivity. }
  split; unfold setTheme; rewrite saveConfig_eq; reflexivity.
Qed.

Lemma setTheme_round_trip_witness :
  Config.theme (fst (setTheme (Some (lit "dark")) (coldStore Config.empty)))
  = Some (lit "dark")
  /\ saveConfig_broadcasts (with_theme (Some (lit "dark"))) (coldStore Config.empty)
     = [Some (lit "dark")].
Proof.
  destruct (setTheme_round_trip (lit "dark") (coldStore Config.empty) eq_refl)
    as [Hth [_ [Hb _]]].
  split; [exact Hth|]. apply Hb. discriminate.
Defined.

Lemma keyOf_Some m p k :
  keyOf m p = Some k -> exists c, lookup m p = Some c /\ ProviderCfg.key c = Some k.
Proof.
  unfold keyOf. destruct (lookup m p) as [c|]; [|discriminate].
  intros H. exists c. split; [reflexivity | exact H].
Qed.

(** X9.  For a provider name that is not one inherited from
    [Object.prototype] (['__proto__'], ['constructor'], ['toString'], ...):
    saving a key for the provider stores exactly that key for it and leaves
    the keys of all other providers as they were.  When the provider is
    then made active (its name not empty and not one of the deprecated
    ['mistral'] and ['cohere']) and the key is not empty, the next trigger
    finds the key, goes on to capture the selection, and any provider call
    it makes is addressed to that provider with that key. *)
Theorem saveProviderKey_then_activate
  (provider key : jsstring) (model : option jsstring) (s : Store) :
  inherited provider = false ->
  let saved := saveProviderKey provider (Some key) model s in
  let activated := setActiveProvider (Some provider) (snd saved) in
  keyOf (Config.providers (fst saved)) provider = Some key
  /\ (forall q, q <> provider ->
        keyOf (Config.providers (fst saved)) q
        = keyOf (Config.providers (fst (loadConfig s))) q)
  /\ (nonEmpty provider = true -> provider <> lit "mistral" -> provider <> lit "cohere" ->
      nonEmpty key = true ->
      Config.active (fst activated) = Some provider
      /\ keyPresent (fst activated) = true
      /\ (forall now st,
            runSummary_begin (fst activated) now st = (st, [], AwaitingCapture))
      /\ (forall preset selection,
            call_provider (providerCallOf (fst activated) preset selection) = provider
            /\ call_key (providerCallOf (fst activated) preset selection) = Some key)).
Proof.
  intros Hown saved activated.
  assert (Hkey : keyOf (Config.providers (fst saved)) provider = Some key).
  { unfold saved, saveProviderKey. rewrite saveConfig_eq. cbn [fst].
    rewrite migrate_providers_eq, fold_ensureProvider_keyOf.
    unfold storeProviderKey, with_providers. cbn [Config.providers].
    unfold keyOf. rewrite lookup_setProvider_same. reflexivity. }
  split; [exact Hkey|]. split.
  { intros q Hq. unfold saved, saveProviderKey. rewrite saveConfig_eq. cbn [fst].
    rewrite migrate_providers_eq, fold_ensureProvider_keyOf.
    unfold storeProviderKey, with_providers. cbn [Config.providers].
    unfold keyOf. rewrite lookup_setProvider_other by congruence. reflexivity. }
  intros Hp Hm Hc Hk.
  assert (Hact : Config.active (fst activated) = Some provider).
  { unfold activated, setActiveProvider. rewrite saveConfig_eq. cbn [fst].
    rewrite migrate_active_eq. unfold with_active. cbn [Config.active].
    rewrite orStr_Some_nonEmpty by exact Hp.
    destruct (includes [lit "mistral"; lit "cohere"] provider) eqn:E; [|reflexivity].
    exfalso. unfold includes in E. simpl in E. rewrite orb_false_r in E.
    apply orb_true_iff in E. destruct E as [E|E]; apply streqb_eq in E; auto. }
  assert (Hkey2 : keyOf (Config.providers (fst activated)) provider = Some key).
  { unfold activated, setActiveProvider.
    rewrite saveConfig_keeps_keys by reflexivity.
    unfold saved, saveProviderKey. rewrite saveConfig_then_load. exact Hkey. }
  destruct (keyOf_Some _ _ _ Hkey2) as [c [Hc1 Hc2]].
  assert (Hpresent : keyPresent (fst activated) = true).
  { unfold keyPresent, activeProviderCfg, activeOf. rewrite Hact, Hc1, Hc2. exact Hk. }
  split; [exact Hact|]. split; [exact Hpresent|]. split.
  - intros now st. unfold runSummary_begin. rewrite Hpresent. reflexivity.
  - intros preset selection. unfold providerCallOf, activeProviderCfg, activeOf.
    rewrite Hact, Hc1. cbn [call_provider call_key]. split; [reflexivity | exact Hc2].
Qed.

Lemma saveProviderKey_then_activate_witness :
  keyPresent
    (fst (setActiveProvider (Some (lit "groq"))
            (snd (saveProviderKey (lit "groq") (Some (lit "gsk-1")) None
                    (coldStore Config.empty)))))
  = true.
Proof.
  destruct (saveProviderKey_then_activate (lit "groq") (lit "gsk-1") None
              (coldStore Config.empty) eq_refl) as [_ [_ H]].
  assert (Hm : lit "groq" <> lit "mistral") by discriminate.
  assert (Hc : lit "groq" <> lit "cohere") by discriminate.
  exact (proj1 (proj2 (H eq_refl Hm Hc eq_refl))).
Defined.

Lemma migrate_kept_flagged d :
  existsb flaggedDefault (arrSlice0 MAX_PRESETS (Config.summaryPresets (migrate d))) = true.
Proof.
  rewrite migrate_presets. cbv zeta.
  destruct (existsb flaggedDefault (arrSlice0 MAX_PRESETS (Config.summaryPresets d)))
    eqn:E; cbn [negb].
  - rewrite arrSlice0_firstn by (unfold MAX_PRESETS; lia).
    rewrite firstn_all2; [exact E|].
    change (Z.to_nat MAX_PRESETS) with 10%nat.
    rewrite arrSlice0_firstn by (unfold MAX_PRESETS; lia).
    rewrite length_firstn. unfold MAX_PRESETS. lia.
  - rewrite arrSlice0_firstn by (unfold MAX_PRESETS; lia).
    change (Z.to_nat MAX_PRESETS) with 10%nat. rewrite firstn_cons. reflexivity.
Qed.

(** X10.  Resetting the preferences keeps the whole provider map (every
    key and model), the active provider and the first ten presets, and puts
    the preferences back to their defaults: light theme, no auto-hide, full
    markdown, auto-copy on, unlimited input off, a cap of 25,000 characters
    and 800 output tokens. *)
Theorem resetPreferences_keeps_data (s : Store) :
  cacheInv s ->
  let cfg := fst (loadConfig s) in
  let reset := fst (resetPreferences s) in
  Config.providers reset = Config.providers cfg
  /\ Config.active reset = Config.active cfg
  /\ Config.summaryPresets reset = firstn 10 (Config.summaryPresets cfg)
  /\ Config.theme reset = Some (lit "light")
  /\ Config.autoHideMs reset = JNum 0
  /\ Config.markdownMode reset = JStr (lit "full")
  /\ Config.autoCopySelection reset = JBool true
  /\ Config.unlimitedInput reset = JBool false
  /\ Config.maxInputChars reset = Some 25000
  /\ Config.maxOutputTokens reset = Some 800.
Proof.
  intros Hs cfg reset.
  destruct (loadConfig_migrated s Hs) as [[raw Hraw] _].
  assert (Hreset : reset = migrate (resetPreferencesMutator cfg cfg)).
  { unfold reset, resetPreferences.
    pose proof (loadConfig_again s) as Hagain.
    destruct (loadConfig s) as [c s1] eqn:E. cbn [fst snd] in Hagain.
    rewrite saveConfig_eq, Hagain. reflexivity. }
  change (cfg = migrate raw) in Hraw. clearbody cfg reset. subst cfg reset.
  split.
  { rewrite migrate_providers_eq. unfold resetPreferencesMutator.
    cbn [Config.providers]. apply migrate_providers_fixed. }
  split.
  { rewrite migrate_active_eq. unfold resetPreferencesMutator. cbn [Config.active].
    destruct (loadConfig_active_aux raw) as [a [Ha [Hne [Hm Hc]]]].
    rewrite Ha. rewrite (orStr_Some_nonEmpty a (lit "openai")) by exact Hne.
    rewrite (orStr_Some_nonEmpty a (lit "gemini")) by exact Hne.
    destruct (includes [lit "mistral"; lit "cohere"] a) eqn:E; [|reflexivity].
    exfalso. unfold includes in E. simpl in E. rewrite orb_false_r in E.
    apply orb_true_iff in E. destruct E as [E|E]; apply streqb_eq in E; auto. }
  split.
  { rewrite migrate_presets. cbv zeta. unfold resetPreferencesMutator.
    cbn [Config.summaryPresets]. rewrite migrate_kept_flagged. cbn [negb].
    apply arrSlice0_firstn. unfold MAX_PRESETS; lia. }
  repeat split; reflexivity.
Qed.

Lemma resetPreferences_keeps_data_witness :
  Config.maxInputChars
    (fst (resetPreferences
            (snd (snd (setMaxInputChars (Some 90000) (coldStore Config.empty))))))
  = Some 25000.
Proof.
  destruct (resetPreferences_keeps_data
              (snd (snd (setMaxInputChars (Some 90000) (coldStore Config.empty)))))
    as [_ [_ [_ [_ [_ [_ [_ [_ [H _]]]]]]]]].
  - right. eexists. reflexivity.
  - exact H.
Defined.

End KeyAndThemeFacts.

(* ====================================================================== *)
(** * The preset handler *)

Section PresetHandlerFacts.

Lemma nonEmpty_strlen s : nonEmpty s = true <-> 1 <= strlen s.
Proof.
  unfold strlen. destruct s; simpl; split; intros H; try reflexivity;
    try discriminate; lia.
Qed.

Lemma normalizePreset_wellFormed fresh p : wellFormedPreset (normalizePreset fresh p).
Proof.
  unfold wellFormedPreset, normalizePreset.
  cbn [Preset.id Preset.name Preset.prompt Preset.hotkey Preset.isDefault].
  split; [eexists; reflexivity|]. split.
  { eexists. split; [reflexivity|].
    unfold orStr. destruct (Preset.name p) as [n|]; cbn [option_map].
    - destruct (nonEmpty (slice n 0 48)) eqn:E.
      + split; [apply nonEmpty_strlen; exact E | apply strlen_slice_0_le; lia].
      + vm_compute; split; discriminate.
    - vm_compute; split; discriminate. }
  split.
  { eexists. split; [reflexivity|].
    assert (Hne : 1 <= strlen (orStr (Preset.prompt p) DEFAULT_SUMMARY_PROMPT)).
    { apply nonEmpty_strlen, orStr_nonEmpty. reflexivity. }
    rewrite strlen_slice_0 by lia. lia. }
  split; eexists; reflexivity.
Qed.

Lemma normalizePresets_wellFormed genId i l p :
  In p (normalizePresets genId i l) -> wellFormedPreset p.
Proof.
  revert i; induction l as [|q l IH]; intros i; simpl; [tauto|].
  intros [H|H]; [subst p; apply normalizePreset_wellFormed | eapply IH; exact H].
Qed.

Lemma normalizePresets_firstn genId i n l :
  firstn n (normalizePresets genId i l) = normalizePresets genId i (firstn n l).
Proof.
  revert i n; induction l as [|q l IH]; intros i [|n]; simpl; try reflexivity.
  rewrite IH. reflexivity.
Qed.

(** X11.  After the preset handler the stored list is the first ten entries
    of what the handler built, so it never has more than ten presets.  Every
    stored preset that comes from the submission has an id, a name of 1 to 48
    units, a prompt of 1 to 1,200 units, a normalized accelerator and a
    boolean flag.  When no submitted preset is the default, the previous
    default is put in front and only the first nine submitted presets are
    kept: a tenth one is dropped. *)
Theorem setSummaryPresets_stored genId (presets : list Preset.t) (s : Store) :
  cacheInv s ->
  let cfg := fst (loadConfig s) in
  let stored := Config.summaryPresets (snd (fst (setSummaryPresets genId presets s))) in
  stored = firstn 10 (normalizedPresets genId cfg presets)
  /\ (List.length stored <= 10)%nat
  /\ (existsb submittedAsDefault (arrSlice0 MAX_PRESETS presets) = true ->
      stored = normalizePresets genId 0 (firstn 10 presets)
      /\ forall p, In p stored -> wellFormedPreset p)
  /\ (existsb submittedAsDefault (arrSlice0 MAX_PRESETS presets) = false ->
      exists def,
        find flaggedDefault (Config.summaryPresets cfg) = Some def
        /\ stored = def :: normalizePresets genId 0 (firstn 9 presets)
        /\ forall p, In p (tl stored) -> wellFormedPreset p).
Proof.
  intros Hs cfg stored.
  destruct (loadConfig_migrated s Hs) as [[raw Hraw] _].
  change (cfg = migrate raw) in Hraw.
  assert (Hcfg : existsb flaggedDefault (Config.summaryPresets cfg) = true).
  { rewrite Hraw. apply migrate_has_default. }
  assert (Hstored : stored = firstn 10 (normalizedPresets genId cfg presets)).
  { unfold stored. rewrite setSummaryPresets_config. fold cfg.
    rewrite migrate_presets. cbv zeta.
    change (Config.summaryPresets (Config.with_summaryPresets ?l ?c)) with l.
    rewrite (normalizedPresets_kept_flagged genId cfg presets Hcfg). cbn [negb].
    apply arrSlice0_firstn. unfold MAX_PRESETS; lia. }
  clearbody stored cfg.
  split; [exact Hstored|]. split.
  { rewrite Hstored, length_firstn. lia. }
  assert (Hslice : arrSlice0 MAX_PRESETS presets = firstn 10 presets).
  { apply arrSlice0_firstn. unfold MAX_PRESETS; lia. }
  split.
  - intros Hsub.
    assert (Heq : stored = normalizePresets genId 0 (firstn 10 presets)).
    { rewrite Hstored. unfold normalizedPresets.
      rewrite normalizePresets_flagged, Hsub. cbn [negb].
      rewrite Hslice, normalizePresets_firstn, firstn_firstn. reflexivity. }
    split; [exact Heq|].
    intros p Hp. rewrite Heq in Hp. eapply normalizePresets_wellFormed; exact Hp.
  - intros Hsub.
    destruct (find flaggedDefault (Config.summaryPresets cfg)) as [def|] eqn:F.
    2:{ exfalso.
        destruct (existsb_exists flaggedDefault (Config.summaryPresets cfg)) as [Hex _].
        destruct (Hex Hcfg) as [x [Hin Hx]].
        pose proof (find_none _ _ F x Hin). congruence. }
    exists def. split; [reflexivity|].
    assert (Heq : stored = def :: normalizePresets genId 0 (firstn 9 presets)).
    { rewrite Hstored. unfold normalizedPresets.
      rewrite normalizePresets_flagged, Hsub, F. cbn [negb].
      rewrite firstn_cons, Hslice, normalizePresets_firstn, firstn_firstn. reflexivity. }
    split; [exact Heq|].
    intros p Hp. rewrite Heq in Hp. cbn [tl] in Hp.
    eapply normalizePresets_wellFormed; exact Hp.
Qed.

Lemma setSummaryPresets_stored_witness :
  List.length
    (Config.summaryPresets
       (snd (fst (setSummaryPresets sampleGenId tenUserPresets (coldStore Config.empty)))))
  = 10%nat
  /\ ~ In (Some (lit "u9"))
          (map Preset.id
             (Config.summaryPresets
                (snd (fst (setSummaryPresets sampleGenId tenUserPresets
                             (coldStore Config.empty)))))).
Proof.
  destruct (setSummaryPresets_stored sampleGenId tenUserPresets (coldStore Config.empty)
              (or_introl eq_refl)) as [_ [_ [_ Hnone]]].
  destruct (Hnone eq_refl) as [def [Hdef [Hstored _]]].
  vm_compute in Hdef. inversion Hdef; subst def. clear Hdef.
  rewrite Hstored. split; [reflexivity|].
  vm_compute. intros H.
  repeat (destruct H as [H|H]; [discriminate H|]). exact H.
Defined.

(** ** Conflicts *)

Lemma jsval_eqb_eq a b : jsval_eqb a b = true <-> a = b.
Proof.
  destruct a, b; simpl; split; intros H; try discriminate; try reflexivity.
  - apply Bool.eqb_prop in H. congruence.
  - inversion H. apply Bool.eqb_reflx.
  - apply Z.eqb_eq in H. congruence.
  - inversion H. apply Z.eqb_refl.
  - apply streqb_eq in H. congruence.
  - inversion H. apply streqb_refl.
Qed.

Lemma seenGet_None seen k :
  seenGet seen k = None <-> ~ In k (map fst seen).
Proof.
  induction seen as [|[k' v] seen IH]; simpl; [tauto|].
  destruct (jsval_eqb k' k) eqn:E.
  - apply jsval_eqb_eq in E. subst. split; [discriminate | tauto].
  - split.
    + intros H [Hk|Hk]; [subst; rewrite (proj2 (jsval_eqb_eq k k) eq_refl) in E;
                         discriminate | apply IH in H; contradiction].
    + intros H. apply IH. tauto.
Qed.

Lemma seenGet_Some_In seen k a : seenGet seen k = Some a -> In k (map fst seen).
Proof.
  induction seen as [|[k' v] seen IH]; simpl; [discriminate|].
  destruct (jsval_eqb k' k) eqn:E.
  - apply jsval_eqb_eq in E. intros _. left; exact E.
  - intros H. right. apply IH; exact H.
Qed.

(** The scan from any intermediate state: it ends without a conflict
    exactly when it had none, the hotkeys still to come are all different,
    and none of them was seen before. *)
Lemma conflict_scan l :
  forall seen conflicts,
    snd (fold_left conflictStep l (seen, conflicts)) = []
    <-> conflicts = []
        /\ NoDup (boundHotkeys l)
        /\ forall h, In h (boundHotkeys l) -> ~ In h (map fst seen).
Proof.
  induction l as [|p l IH]; intros seen conflicts.
  - simpl. split; [intros H; repeat split; [exact H | constructor | tauto] | tauto].
  - change (fold_left conflictStep (p :: l) (seen, conflicts))
      with (fold_left conflictStep l (conflictStep (seen, conflicts) p)).
    unfold conflictStep at 2. unfold boundHotkeys. cbn [map filter].
    fold (boundHotkeys l).
    destruct (truthy (Preset.hotkey p)) eqn:Et.
    + destruct (seenGet seen (Preset.hotkey p)) as [a|] eqn:Eg.
      * rewrite IH. split.
        -- intros [H _]. destruct conflicts; discriminate.
        -- intros [_ [_ H]]. exfalso.
           apply (H (Preset.hotkey p)); [left; reflexivity|].
           eapply seenGet_Some_In; exact Eg.
      * apply seenGet_None in Eg. rewrite IH. rewrite map_app. cbn [map fst].
        split.
        -- intros [Hc [Hnd Hseen]]. split; [exact Hc|]. split.
           ++ constructor; [|exact Hnd].
              intros Hin. apply (Hseen _ Hin). apply in_or_app. right. left. reflexivity.
           ++ intros h [Hh|Hh]; [subst h; exact Eg|].
              intros Hin. apply (Hseen _ Hh). apply in_or_app. left. exact Hin.
        -- intros [Hc [Hnd Hseen]]. split; [exact Hc|].
           inversion Hnd as [|x xs Hx Hxs]. subst x xs.
           split; [exact Hxs|].
           intros h Hh Hin. apply in_app_or in Hin. destruct Hin as [Hin|[Hin|[]]].
           ++ apply (Hseen h); [right; exact Hh | exact Hin].
           ++ subst h. contradiction.
    + rewrite IH. reflexivity.
Qed.

(** X12.  The duplicate scan of the preset handler reports no conflict
    exactly when the accelerators of the presets that have one are pairwise
    different. *)
Theorem conflicts_none_iff_distinct (l : list Preset.t) :
  conflictsOf l = [] <-> NoDup (boundHotkeys l).
Proof.
  unfold conflictsOf. rewrite conflict_scan. cbn [map]. tauto.
Qed.

Lemma conflicts_none_iff_distinct_witness :
  NoDup (boundHotkeys (Config.summaryPresets bindingsCfg)).
Proof.
  apply (proj1 (conflicts_none_iff_distinct (Config.summaryPresets bindingsCfg))).
  vm_compute. reflexivity.
Defined.

End PresetHandlerFacts.

(* ====================================================================== *)
(** * The canonical form of accelerators *)

Section CanonicalForm.

Lemma set_mem_add_same (m : jsstring) mods :
  set_mem str_eq_dec m (set_add str_eq_dec m mods) = true.
Proof. apply set_mem_correct2, set_add_intro2. reflexivity. Qed.

Lemma set_mem_add_other (m m' : jsstring) mods :
  m <> m' ->
  set_mem str_eq_dec m (set_add str_eq_dec m' mods) = set_mem str_eq_dec m mods.
Proof.
  intros Hne.
  destruct (set_mem str_eq_dec m mods) eqn:E.
  - apply set_mem_correct2, set_add_intro1, set_mem_correct1 with (Aeq_dec := str_eq_dec).
    exact E.
  - apply set_mem_complete2. intros Hin.
    apply set_add_elim2 in Hin; [|exact Hne].
    apply (set_mem_complete1 str_eq_dec _ _ E). exact Hin.
Qed.

(** One round of the loop, read through [modifierOf] and [keyOfToken]. *)
Lemma acceleratorStep_modifierOf mods key p :
  acceleratorStep (mods, key) p
  = match modifierOf p with
    | Some m => (set_add str_eq_dec m mods, key)
    | None => (mods, keyOfToken p)
    end.
Proof.
  unfold acceleratorStep, modifierOf, keyOfToken.
  destruct (includes [lit "cmd"; lit "command"; lit "commandorcontrol"] _); [reflexivity|].
  destruct (includes [lit "ctrl"; lit "control"] _); [reflexivity|].
  destruct (includes [lit "alt"; lit "option"] _); [reflexivity|].
  destruct (includes [lit "shift"] _); [reflexivity|].
  destruct (includes mouseButtons _); reflexivity.
Qed.

(** What the whole loop leaves: for every name, membership in [mods]; and
    the key. *)
Lemma accelerator_fold parts :
  forall mods key,
    snd (fold_left acceleratorStep parts (mods, key)) = lastKey parts key
    /\ forall m,
         set_mem str_eq_dec m (fst (fold_left acceleratorStep parts (mods, key)))
         = set_mem str_eq_dec m mods || mentions parts m.
Proof.
  induction parts as [|p parts IH]; intros mods key.
  - simpl. split; [reflexivity | intros m; rewrite orb_false_r; reflexivity].
  - change (fold_left acceleratorStep (p :: parts) (mods, key))
      with (fold_left acceleratorStep parts (acceleratorStep (mods, key) p)).
    rewrite acceleratorStep_modifierOf.
    unfold lastKey, mentions. cbn [fold_left existsb].
    fold (mentions parts). 
    destruct (modifierOf p) as [m'|].
    + destruct (IH (set_add str_eq_dec m' mods) key) as [Hk Hm].
      split; [exact Hk|]. intros m. rewrite Hm.
      destruct (str_eq_dec m m') as [->|Hne].
      * rewrite set_mem_add_same, streqb_refl, orb_true_r. reflexivity.
      * rewrite set_mem_add_other by exact Hne.
        assert (E : streqb m' m = false).
        { destruct (streqb m' m) eqn:E; [|reflexivity].
          apply streqb_eq in E. congruence. }
        rewrite E. reflexivity.
    + destruct (IH mods (keyOfToken p)) as [Hk Hm].
      split; [exact Hk|]. intros m. rewrite Hm. reflexivity.
Qed.

(** The canonical form: the modifiers the tokens mention, in the fixed
    order, then the key of the last token that is not a modifier. *)
Lemma normalizeAccelerator_canonical (s : jsstring) :
  nonEmpty s = true ->
  normalizeAccelerator (JStr s)
  = if nonEmpty (lastKey (acceleratorParts s) [])
    then join (lit "+")
              (filter (mentions (acceleratorParts s)) modifierOrder
               ++ [lastKey (acceleratorParts s) []])
    else [].
Proof.
  intros Hs. unfold normalizeAccelerator. rewrite Hs. cbn [negb].
  match goal with
  | |- context [fold_left acceleratorStep ?l ?a] =>
      destruct (accelerator_fold l (fst a) (snd a)) as [Hk Hm];
      change (fst a, snd a) with a in Hk, Hm;
      cbn [fst snd] in Hk, Hm;
      destruct (fold_left acceleratorStep l a) as [mods key]
  end.
  cbn [fst snd] in Hk, Hm. subst key.
  destruct (nonEmpty (lastKey (acceleratorParts s) [])); cbn [negb]; [|reflexivity].
  f_equal. f_equal. apply filter_ext. intros m. rewrite Hm. reflexivity.
Qed.

(** X13.  The normalized accelerator depends only on which modifiers the
    tokens mention and on the last token that is not a modifier: two
    accelerator strings that agree on these normalize to the same string,
    whatever the order, the repetition and the spelling or casing of their
    modifier tokens. *)
Theorem normalizeAccelerator_order_insensitive (s1 s2 : jsstring) :
  nonEmpty s1 = true -> nonEmpty s2 = true ->
  (forall m, In m modifierOrder ->
             mentions (acceleratorParts s1) m = mentions (acceleratorParts s2) m) ->
  lastKey (acceleratorParts s1) [] = lastKey (acceleratorParts s2) [] ->
  normalizeAccelerator (JStr s1) = normalizeAccelerator (JStr s2).
Proof.
  intros H1 H2 Hm Hk.
  rewrite !normalizeAccelerator_canonical by assumption.
  rewrite Hk.
  destruct (nonEmpty (lastKey (acceleratorParts s2) [])); [|reflexivity].
  f_equal. f_equal.
  unfold modifierOrder in *. cbn [filter].
  rewrite !Hm by (simpl; tauto). reflexivity.
Qed.

Lemma normalizeAccelerator_order_insensitive_witness :
  normalizeAccelerator (JStr (lit "shift + CTRL+ctrl+ x"))
  = normalizeAccelerator (JStr (lit "Control+Shift+X")).
Proof.
  apply normalizeAccelerator_order_insensitive; try reflexivity.
  intros m Hm. unfold modifierOrder in Hm.
  repeat (destruct Hm as [Hm|Hm]; [subst m; reflexivity|]). destruct Hm.
Defined.

End CanonicalForm.

(* ====================================================================== *)
(** * Normalizing twice *)

Section Idempotence.

(** ** Splitting and joining *)

Lemma split_no_sep sep s : ~ In sep s -> split sep s = [s].
Proof.
  induction s as [|c s IH]; intros H; simpl; [reflexivity|].
  destruct (N.eqb c sep) eqn:E.
  - apply N.eqb_eq in E. exfalso. apply H. left; exact E.
  - rewrite IH; [reflexivity|]. intros Hin. apply H. right; exact Hin.
Qed.

Lemma split_app_sep sep p t :
  ~ In sep p -> split sep (p ++ sep :: t) = p :: split sep t.
Proof.
  induction p as [|c p IH]; intros H; simpl.
  - rewrite N.eqb_refl. reflexivity.
  - destruct (N.eqb c sep) eqn:E.
    + apply N.eqb_eq in E. exfalso. apply H. left; exact E.
    + rewrite IH; [reflexivity|]. intros Hin. apply H. right; exact Hin.
Qed.

Lemma split_join sep xs :
  xs <> [] -> Forall (fun p => ~ In sep p) xs -> split sep (join [sep] xs) = xs.
Proof.
  induction xs as [|p xs IH]; intros Hne Hall; [congruence|].
  inversion Hall as [|? ? Hp Hxs]; subst.
  destruct xs as [|q xs].
  - simpl. apply split_no_sep; exact Hp.
  - change (join [sep] (p :: q :: xs)) with (p ++ [sep] ++ join [sep] (q :: xs)).
    cbn [app]. rewrite split_app_sep by exact Hp.
    rewrite IH; [reflexivity | discriminate | exact Hxs].
Qed.

Lemma split_parts_no_sep sep s p : In p (split sep s) -> ~ In sep p.
Proof.
  revert p; induction s as [|c s IH]; intros p; simpl.
  - intros [<-|[]]. tauto.
  - destruct (N.eqb c sep) eqn:E.
    + intros [<-|H]; [tauto | apply IH; exact H].
    + destruct (split sep s) as [|q qs] eqn:Es.
      * intros [<-|[]]. intros [H|[]]. subst. rewrite N.eqb_refl in E. discriminate.
      * intros [<-|H].
        -- intros [Hc|Hq]; [subst; rewrite N.eqb_refl in E; discriminate|].
           apply (IH q); [left; reflexivity | exact Hq].
        -- apply IH. right; exact H.
Qed.

(** ** Trimming *)

Lemma trimStart_noLeadingSpace s : noLeadingSpace (trimStart s) = true.
Proof.
  induction s as [|c s IH]; simpl; [reflexivity|].
  destruct (isWhiteSpace c) eqn:E; [exact IH | simpl; rewrite E; reflexivity].
Qed.

Lemma trimStart_fixed s : noLeadingSpace s = true -> trimStart s = s.
Proof.
  destruct s as [|c s]; simpl; [reflexivity|].
  destruct (isWhiteSpace c); [discriminate | reflexivity].
Qed.

Lemma trimStart_suffix s : exists w, s = w ++ trimStart s.
Proof.
  induction s as [|c s [w Hw]]; simpl; [exists []; reflexivity|].
  destruct (isWhiteSpace c).
  - exists (c :: w). simpl. f_equal. exact Hw.
  - exists []. reflexivity.
Qed.

Lemma noLeadingSpace_prefix u w :
  u <> [] -> noLeadingSpace (u ++ w) = noLeadingSpace u.
Proof. destruct u; [congruence | reflexivity]. Qed.

(** What [trim] returns has no white space at either end. *)
Lemma trim_ends s :
  noLeadingSpace (trim s) = true /\ noLeadingSpace (rev (trim s)) = true.
Proof.
  unfold trim. rewrite rev_involutive.
  split; [|apply trimStart_noLeadingSpace].
  destruct (trimStart_suffix (rev (trimStart s))) as [w Hw].
  destruct (trimStart (rev (trimStart s))) as [|c u]; [reflexivity|].
  assert (Ht : trimStart s = rev (c :: u) ++ rev w).
  { rewrite <- rev_app_distr, <- Hw, rev_involutive. reflexivity. }
  rewrite <- (noLeadingSpace_prefix (rev (c :: u)) (rev w)).
  - rewrite <- Ht. apply trimStart_noLeadingSpace.
  - simpl. intros H. apply app_eq_nil in H. destruct H; discriminate.
Qed.

Lemma trim_fixed s :
  noLeadingSpace s = true -> noLeadingSpace (rev s) = true -> trim s = s.
Proof.
  intros H1 H2. unfold trim.
  rewrite (trimStart_fixed s H1), (trimStart_fixed (rev s) H2).
  apply rev_involutive.
Qed.

Lemma trimStart_incl c s : In c (trimStart s) -> In c s.
Proof.
  induction s as [|d s IH]; simpl; [tauto|].
  destruct (isWhiteSpace d); [intros H; right; apply IH; exact H | tauto].
Qed.

Lemma trim_incl c s : In c (trim s) -> In c s.
Proof.
  unfold trim. intros H. apply in_rev in H. apply trimStart_incl in H.
  apply in_rev in H. apply trimStart_incl in H. exact H.
Qed.

(** ** Tokens *)

Lemma existsb_plus_false s : existsb (N.eqb 43) s = false <-> ~ In 43%N s.
Proof.
  split.
  - intros H Hin.
    assert (E : existsb (N.eqb 43) s = true).
    { apply existsb_exists. exists 43%N. split; [exact Hin | apply N.eqb_refl]. }
    congruence.
  - intros H. destruct (existsb (N.eqb 43) s) eqn:E; [|reflexivity].
    apply existsb_exists in E. destruct E as [x [Hx Hx']].
    apply N.eqb_eq in Hx'. subst. contradiction.
Qed.

Lemma isToken_spec s :
  isToken s = true
  <-> nonEmpty s = true /\ noLeadingSpace s = true
      /\ noLeadingSpace (rev s) = true /\ ~ In 43%N s.
Proof.
  unfold isToken. rewrite !andb_true_iff, negb_true_iff, existsb_plus_false. tauto.
Qed.

Lemma acceleratorParts_tokens s p : In p (acceleratorParts s) -> isToken p = true.
Proof.
  unfold acceleratorParts. intros H. apply filter_In in H. destruct H as [H Hne].
  apply in_map_iff in H. destruct H as [q [Hq Hin]]. subst p.
  apply isToken_spec. destruct (trim_ends q) as [H1 H2].
  repeat split; try assumption.
  intros Hplus. apply trim_incl in Hplus.
  exact (split_parts_no_sep _ _ _ Hin Hplus).
Qed.

(** The tokens of a joined list of tokens are that list. *)
Lemma acceleratorParts_join xs :
  xs <> [] -> forallb isToken xs = true ->
  acceleratorParts (join (lit "+") xs) = xs.
Proof.
  intros Hne Hall. unfold acceleratorParts.
  assert (Hforall : forall p, In p xs -> isToken p = true).
  { apply forallb_forall; exact Hall. }
  change (lit "+") with [43%N].
  rewrite split_join; [|exact Hne|].
  2:{ apply Forall_forall. intros p Hp. apply Hforall in Hp.
      apply isToken_spec in Hp. tauto. }
  clear Hne Hall. induction xs as [|p xs IH]; [reflexivity|].
  cbn [map filter].
  assert (Hp : isToken p = true) by (apply Hforall; left; reflexivity).
  apply isToken_spec in Hp. destruct Hp as [H1 [H2 [H3 _]]].
  rewrite (trim_fixed p H2 H3), H1. f_equal.
  apply IH. intros q Hq. apply Hforall. right; exact Hq.
Qed.

(** ** Capitalizing *)

Lemma sliceFrom_1 c rest : sliceFrom (c :: rest) 1 = rest.
Proof.
  unfold sliceFrom, slice, clampIndex, strlen. cbn [List.length].
  rewrite Nat2Z.inj_succ.
  destruct (1 <? 0) eqn:E1; [apply Z.ltb_lt in E1; lia|].
  destruct (Z.succ (Z.of_nat (List.length rest)) <? 0) eqn:E2;
    [apply Z.ltb_lt in E2; lia|].
  set (len := Z.succ (Z.of_nat (List.length rest))).
  replace (Z.to_nat (Z.min 1 len)) with 1%nat by lia.
  replace (Z.to_nat (Z.min len len - Z.min 1 len)) with (List.length rest) by lia.
  cbn [skipn]. apply firstn_all.
Qed.

Lemma capitalizeKey_cons c rest : capitalizeKey (c :: rest) = upperUnit c :: rest.
Proof.
  unfold capitalizeKey. destruct (strlen (c :: rest) =? 1) eqn:E.
  - apply Z.eqb_eq in E. unfold strlen in E. cbn [List.length] in E.
    destruct rest; [reflexivity | cbn [List.length] in E; lia].
  - cbn [toUpperCase map app]. rewrite sliceFrom_1. reflexivity.
Qed.

Lemma upperUnit_cases c :
  upperUnit c = c \/ ((97 <= c <= 122)%N /\ upperUnit c = (c - 32)%N).
Proof.
  unfold upperUnit. destruct ((97 <=? c) && (c <=? 122))%N eqn:E; [|left; reflexivity].
  right. apply andb_true_iff in E. destruct E as [E1 E2].
  apply N.leb_le in E1, E2. split; [lia | reflexivity].
Qed.

Lemma upperUnit_idem c : upperUnit (upperUnit c) = upperUnit c.
Proof.
  destruct (upperUnit_cases c) as [H|[Hr H]]; rewrite H; [exact H|].
  unfold upperUnit. destruct ((97 <=? c - 32) && (c - 32 <=? 122))%N eqn:E; [|reflexivity].
  apply andb_true_iff in E. destruct E as [E1 E2]. apply N.leb_le in E1, E2. lia.
Qed.

Lemma lowerUnit_upperUnit c : lowerUnit (upperUnit c) = lowerUnit c.
Proof.
  destruct (upperUnit_cases c) as [H|[Hr H]]; rewrite H; [reflexivity|].
  unfold lowerUnit.
  destruct ((65 <=? c - 32) && (c - 32 <=? 90))%N eqn:E.
  - destruct ((65 <=? c) && (c <=? 90))%N eqn:E'.
    + apply andb_true_iff in E'. destruct E' as [E1 E2]. apply N.leb_le in E1, E2. lia.
    + lia.
  - apply andb_false_iff in E. destruct E as [E|E]; apply N.leb_gt in E; lia.
Qed.

Lemma isWhiteSpace_letter c : (65 <= c <= 122)%N -> isWhiteSpace c = false.
Proof.
  intros H. unfold isWhiteSpace.
  assert (Hz : 65 <= Z.of_N c <= 122) by lia.
  repeat match goal with
         | |- context [?a <=? ?b] =>
             let E := fresh "E" in
             destruct (a <=? b) eqn:E;
             [apply Z.leb_le in E | apply Z.leb_gt in E]; try lia
         | |- context [?a =? ?b] =>
             let E := fresh "E" in
             destruct (a =? b) eqn:E;
             [apply Z.eqb_eq in E | apply Z.eqb_neq in E]; try lia
         end; reflexivity.
Qed.

Lemma isWhiteSpace_upperUnit c : isWhiteSpace (upperUnit c) = isWhiteSpace c.
Proof.
  destruct (upperUnit_cases c) as [H|[Hr H]]; rewrite H; [reflexivity|].
  rewrite !isWhiteSpace_letter by lia. reflexivity.
Qed.

Lemma toLowerCase_capitalizeKey p : toLowerCase (capitalizeKey p) = toLowerCase p.
Proof.
  destruct p as [|c rest]; [reflexivity|].
  rewrite capitalizeKey_cons. unfold toLowerCase. cbn [map].
  rewrite lowerUnit_upperUnit. reflexivity.
Qed.

Lemma capitalizeKey_idem p : capitalizeKey (capitalizeKey p) = capitalizeKey p.
Proof.
  destruct p as [|c rest]; [reflexivity|].
  rewrite !capitalizeKey_cons, upperUnit_idem. reflexivity.
Qed.

Lemma capitalizeKey_token p : isToken p = true -> isToken (capitalizeKey p) = true.
Proof.
  intros H. apply isToken_spec in H. destruct H as [H1 [H2 [H3 H4]]].
  destruct p as [|c rest]; [discriminate|].
  rewrite capitalizeKey_cons. apply isToken_spec.
  split; [reflexivity|]. split.
  { cbn [noLeadingSpace] in *. rewrite isWhiteSpace_upperUnit. exact H2. }
  split.
  { cbn [rev] in *. destruct (rev rest) as [|d r] eqn:Er.
    - cbn [app noLeadingSpace] in *. rewrite isWhiteSpace_upperUnit. exact H3.
    - exact H3. }
  intros [Hc|Hin].
  - apply H4. left.
    destruct (upperUnit_cases c) as [E|[Hr E]]; rewrite E in Hc; [exact Hc | lia].
  - apply H4. right; exact Hin.
Qed.

(** The key of a token that is not a modifier is a token again, still not
    a modifier, and its own key. *)
Lemma keyOfToken_fixed p :
  isToken p = true ->
  isToken (keyOfToken p) = true
  /\ modifierOf (keyOfToken p) = modifierOf p
  /\ keyOfToken (keyOfToken p) = keyOfToken p.
Proof.
  intros Hp. unfold keyOfToken.
  destruct (includes mouseButtons (toLowerCase p)) eqn:E.
  - rewrite E. auto.
  - split; [apply capitalizeKey_token; exact Hp|]. split.
    + unfold modifierOf. rewrite toLowerCase_capitalizeKey. reflexivity.
    + rewrite toLowerCase_capitalizeKey, E. apply capitalizeKey_idem.
Qed.

Lemma lastKey_cases parts :
  forall key0,
    lastKey parts key0 = key0
    \/ exists p, In p parts /\ modifierOf p = None /\ lastKey parts key0 = keyOfToken p.
Proof.
  unfold lastKey. induction parts as [|p parts IH]; intros key0; [left; reflexivity|].
  cbn [fold_left]. destruct (modifierOf p) eqn:E.
  - destruct (IH key0) as [H|[q [Hq [Hm Hk]]]]; [left; exact H|].
    right. exists q. split; [right; exact Hq | split; assumption].
  - destruct (IH (keyOfToken p)) as [H|[q [Hq [Hm Hk]]]].
    + right. exists p. split; [left; reflexivity | split; assumption].
    + right. exists q. split; [right; exact Hq | split; assumption].
Qed.

Lemma lastKey_app parts k key0 :
  modifierOf k = None -> lastKey (parts ++ [k]) key0 = keyOfToken k.
Proof.
  intros H. unfold lastKey. rewrite fold_left_app. cbn [fold_left]. rewrite H. reflexivity.
Qed.

Lemma mentions_app parts k m :
  modifierOf k = None -> mentions (parts ++ [k]) m = mentions parts m.
Proof.
  intros H. unfold mentions. rewrite existsb_app. cbn [existsb]. rewrite H.
  rewrite !orb_false_r. reflexivity.
Qed.

Lemma join_nonEmpty xs k : nonEmpty k = true -> nonEmpty (join (lit "+") (xs ++ [k])) = true.
Proof.
  intros Hk. induction xs as [|x xs IH]; [exact Hk|].
  cbn [app]. destruct (xs ++ [k]) as [|y ys] eqn:E.
  - destruct xs; discriminate.
  - change (join (lit "+") (x :: y :: ys)) with (x ++ lit "+" ++ join (lit "+") (y :: ys)).
    destruct x; reflexivity.
Qed.

(** Normalizing a normalized accelerator gives it back. *)
Lemma normalizeAccelerator_idem_aux (acc : jsval) :
  normalizeAccelerator (JStr (normalizeAccelerator acc)) = normalizeAccelerator acc.
Proof.
  destruct acc as [| | b | n | s]; try reflexivity.
  destruct (nonEmpty s) eqn:Hs.
  2:{ destruct s; [reflexivity | discriminate]. }
  rewrite (normalizeAccelerator_canonical s Hs).
  set (parts := acceleratorParts s).
  destruct (nonEmpty (lastKey parts [])) eqn:Hk; [|reflexivity].
  destruct (lastKey_cases parts []) as [H0|[p [Hp [Hmod Hkey]]]].
  { rewrite H0 in Hk. discriminate. }
  assert (Htok : isToken p = true) by (apply (acceleratorParts_tokens s); exact Hp).
  destruct (keyOfToken_fixed p Htok) as [Hktok [Hkmod Hkfix]].
  rewrite Hmod in Hkmod. rewrite Hkey in *.
  set (k := keyOfToken p) in *.
  set (M := filter (mentions parts) modifierOrder).
  assert (HM : forallb isToken M = true
               /\ (forall m, In m modifierOrder -> mentions M m = mentions parts m)
               /\ lastKey M [] = []).
  { unfold M, modifierOrder. cbn [filter].
    destruct (mentions parts (lit "CommandOrControl")) eqn:E1,
             (mentions parts (lit "Control")) eqn:E2,
             (mentions parts (lit "Alt")) eqn:E3,
             (mentions parts (lit "Shift")) eqn:E4;
      (split; [reflexivity|]); (split; [|reflexivity]);
      intros m Hm;
      repeat (destruct Hm as [Hm|Hm]; [subst m; symmetry; assumption|]);
      destruct Hm. }
  destruct HM as [HMtok [HMment HMkey]].
  assert (Hparts : acceleratorParts (join (lit "+") (M ++ [k])) = M ++ [k]).
  { apply acceleratorParts_join.
    - destruct M; discriminate.
    - rewrite forallb_app, HMtok. cbn [forallb]. rewrite Hktok. reflexivity. }
  rewrite normalizeAccelerator_canonical by (apply join_nonEmpty; exact Hk).
  rewrite Hparts. rewrite lastKey_app by exact Hkmod. rewrite Hkfix, Hk.
  f_equal. f_equal.
  unfold modifierOrder at 1. cbn [filter].
  rewrite !mentions_app by exact Hkmod.
  rewrite !HMment by (unfold modifierOrder; simpl; tauto).
  unfold M, modifierOrder. cbn [filter].
  destruct (mentions parts (lit "CommandOrControl")),
           (mentions parts (lit "Control")),
           (mentions parts (lit "Alt")),
           (mentions parts (lit "Shift")); reflexivity.
Qed.

(** ** ASCII accelerators *)

Lemma isAscii_In s : isAscii s = true <-> forall c, In c s -> (c < 128)%N.
Proof.
  unfold isAscii. rewrite forallb_forall. split; intros H c Hc.
  - apply N.ltb_lt. apply H; exact Hc.
  - apply N.ltb_lt. apply H; exact Hc.
Qed.

Lemma isAscii_app a b : isAscii (a ++ b) = isAscii a && isAscii b.
Proof. unfold isAscii. apply forallb_app. Qed.

Lemma split_incl sep s : forall p c, In p (split sep s) -> In c p -> In c s.
Proof.
  induction s as [|d s IH]; intros p c; simpl.
  - intros [<-|[]] [].
  - destruct (N.eqb d sep) eqn:E.
    + intros [<-|H] Hc; [destruct Hc | right; eapply IH; eassumption].
    + destruct (split sep s) as [|q qs] eqn:Es.
      * intros [<-|[]] [Hc|[]]. left; exact Hc.
      * intros [<-|H] Hc.
        -- destruct Hc as [Hc|Hc]; [left; exact Hc|].
           right. apply (IH q c); [left; reflexivity | exact Hc].
        -- right. apply (IH p c); [right; exact H | exact Hc].
Qed.

Lemma acceleratorParts_ascii s p :
  isAscii s = true -> In p (acceleratorParts s) -> isAscii p = true.
Proof.
  intros Hs Hp. apply isAscii_In. intros c Hc.
  unfold acceleratorParts in Hp. apply filter_In in Hp. destruct Hp as [Hp _].
  apply in_map_iff in Hp. destruct Hp as [q [Hq Hin]]. subst p.
  apply trim_incl in Hc.
  apply (proj1 (isAscii_In s) Hs). eapply split_incl; eassumption.
Qed.

Lemma upperUnit_ascii c : (c < 128)%N -> (upperUnit c < 128)%N.
Proof.
  intros H. unfold upperUnit.
  destruct ((97 <=? c)%N && (c <=? 122)%N) eqn:E; [|exact H].
  apply andb_true_iff in E. destruct E as [E1 E2].
  apply N.leb_le in E1. apply N.leb_le in E2. lia.
Qed.

Lemma keyOfToken_ascii p : isAscii p = true -> isAscii (keyOfToken p) = true.
Proof.
  intros Hp. unfold keyOfToken.
  destruct (includes mouseButtons (toLowerCase p)); [exact Hp|].
  destruct p as [|c rest]; [reflexivity|].
  rewrite capitalizeKey_cons. apply isAscii_In. intros d [Hd|Hd].
  - subst d. apply upperUnit_ascii. apply (proj1 (isAscii_In _) Hp). left; reflexivity.
  - apply (proj1 (isAscii_In _) Hp). right; exact Hd.
Qed.

Lemma join_ascii xs :
  (forall x, In x xs -> isAscii x = true) -> isAscii (join (lit "+") xs) = true.
Proof.
  induction xs as [|x xs IH]; intros H; [reflexivity|].
  destruct xs as [|y ys]; [apply H; left; reflexivity|].
  change (join (lit "+") (x :: y :: ys)) with (x ++ lit "+" ++ join (lit "+") (y :: ys)).
  rewrite !isAscii_app. rewrite (H x (or_introl eq_refl)).
  rewrite IH by (intros z Hz; apply H; right; exact Hz). reflexivity.
Qed.

(** The normal form of an ASCII accelerator is an ASCII string. *)
Lemma normalizeAccelerator_ascii (acc : jsval) :
  asciiVal acc = true -> isAscii (normalizeAccelerator acc) = true.
Proof.
  destruct acc as [| | b | n | s]; try reflexivity.
  cbn [asciiVal]. intros Hs.
  destruct (nonEmpty s) eqn:Hne.
  2:{ destruct s; [reflexivity | discriminate]. }
  rewrite (normalizeAccelerator_canonical s Hne).
  destruct (nonEmpty (lastKey (acceleratorParts s) [])); [|reflexivity].
  apply join_ascii. intros x Hx. apply in_app_or in Hx. destruct Hx as [Hx|[Hx|[]]].
  - apply filter_In in Hx. destruct Hx as [Hx _].
    unfold modifierOrder in Hx.
    repeat (destruct Hx as [Hx|Hx]; [subst x; reflexivity|]). destruct Hx.
  - subst x. destruct (lastKey_cases (acceleratorParts s) []) as [->|[q [Hq [_ ->]]]];
      [reflexivity|].
    apply keyOfToken_ascii. eapply acceleratorParts_ascii; eassumption.
Qed.

(** X14.  On ASCII accelerators normalizing is idempotent: the normal form
    of an ASCII accelerator is an ASCII string and normalizes to itself.
    So the accelerator the preset handler stores for an ASCII hotkey is the
    very string [registerShortcuts] computes from it. *)
Theorem normalizeAccelerator_idempotent (acc : jsval) :
  asciiVal acc = true ->
  isAscii (normalizeAccelerator acc) = true
  /\ normalizeAccelerator (JStr (normalizeAccelerator acc)) = normalizeAccelerator acc
  /\ (forall fresh p,
        Preset.hotkey p = acc ->
        normalizeAccelerator (Preset.hotkey (normalizePreset fresh p))
        = match Preset.hotkey (normalizePreset fresh p) with
          | JStr h => h
          | _ => []
          end).
Proof.
  intros Hacc. split; [apply normalizeAccelerator_ascii; exact Hacc|].
  split; [apply normalizeAccelerator_idem_aux|].
  intros fresh p _. unfold normalizePreset. cbn [Preset.hotkey].
  apply normalizeAccelerator_idem_aux.
Qed.

Lemma normalizeAccelerator_idempotent_witness :
  normalizeAccelerator (JStr (normalizeAccelerator (JStr (lit "shift + ctrl+k"))))
  = normalizeAccelerator (JStr (lit "shift + ctrl+k"))
  /\ normalizeAccelerator (JStr (lit "shift + ctrl+k")) = lit "Control+Shift+K".
Proof.
  split; [|reflexivity].
  exact (proj1 (proj2 (normalizeAccelerator_idempotent (JStr (lit "shift + ctrl+k"))
                         eq_refl))).
Defined.

End Idempotence.

(* ====================================================================== *)
(** * Registered shortcuts *)

Section RegistrationFacts.

(** X15.  For a preset whose hotkey is an ASCII string (or not a string):
    [registerShortcuts] registers the preset exactly when its hotkey
    normalizes to a non-empty string that contains neither ['click'] nor
    ['mousebutton'] (in this lower-case spelling); the accelerator it is
    registered under is the normalized hotkey, which is not empty and is
    itself in normal form. *)
Theorem registerShortcuts_exact (cfg : Config.t) (a : jsstring) (p : Preset.t) :
  asciiVal (Preset.hotkey p) = true ->
  In (a, p) (registerShortcuts cfg)
  <-> In p (Config.summaryPresets cfg)
      /\ a = normalizeAccelerator (Preset.hotkey p)
      /\ nonEmpty a = true
      /\ normalizeAccelerator (JStr a) = a
      /\ strIncludes a (lit "click") = false
      /\ strIncludes a (lit "mousebutton") = false.
Proof.
  intros _. unfold registerShortcuts. rewrite in_flat_map. split.
  - intros [q [Hq Hin]].
    destruct (nonEmpty (normalizeAccelerator (Preset.hotkey q))) eqn:E1;
      cbn [negb] in Hin; [|destruct Hin].
    destruct (strIncludes (normalizeAccelerator (Preset.hotkey q)) (lit "click")) eqn:E2;
      cbn [orb] in Hin; [destruct Hin|].
    destruct (strIncludes (normalizeAccelerator (Preset.hotkey q)) (lit "mousebutton"))
      eqn:E3; [destruct Hin|].
    destruct Hin as [Hin|[]]. inversion Hin; subst.
    repeat split; try assumption. apply normalizeAccelerator_idem_aux.
  - intros [Hp [Ha [H1 [_ [H2 H3]]]]]. exists p. split; [exact Hp|].
    rewrite <- Ha, H1, H2, H3. left; reflexivity.
Qed.

Lemma registerShortcuts_exact_witness :
  In (lit "Control+Shift+E",
      Preset.mk (Some (lit "a")) None None (JStr (lit "ctrl+shift+e")) (JBool true))
     (registerShortcuts bindingsCfg).
Proof.
  apply (proj2 (registerShortcuts_exact bindingsCfg (lit "Control+Shift+E")
                  (Preset.mk (Some (lit "a")) None None (JStr (lit "ctrl+shift+e"))
                             (JBool true)) eq_refl)).
  split; [left; reflexivity|]. repeat split; reflexivity.
Defined.

End RegistrationFacts.

(* ====================================================================== *)
(** * Capture and the text that is sent *)

Section CaptureMore.

(** X16.  When the first clipboard read has succeeded, auto-copy is on, the
    platform is one of macOS, Windows and Linux, and the clipboard read
    after the simulated copy is a non-empty text different from the one
    before, capture returns that text trimmed; when the read is empty it
    returns the trimmed previous clipboard; on any other platform it returns
    the trimmed previous clipboard.  Whatever capture returns has no white
    space at either end, and it does return whenever the first read has
    succeeded and the copy step has come to an end. *)
Theorem captureSelectionText_selection cfg platform before copied :
  (forall selection,
     Config.autoCopySelection cfg <> JBool false ->
     platform <> OtherPlatform ->
     copied = Fulfilled selection ->
     (nonEmpty selection = true -> selection <> before ->
      captureSelectionText cfg platform (Ok before) copied = Fulfilled (trim selection))
     /\ (selection = [] ->
         captureSelectionText cfg platform (Ok before) copied = Fulfilled (trim before)))
  /\ (platform = OtherPlatform ->
      captureSelectionText cfg platform (Ok before) copied = Fulfilled (trim before))
  /\ (forall firstRead text,
        captureSelectionText cfg platform firstRead copied = Fulfilled text ->
        noLeadingSpace text = true /\ noLeadingSpace (rev text) = true)
  /\ (copied <> Pending ->
      exists text,
        captureSelectionText cfg platform (Ok before) copied = Fulfilled text
        /\ noLeadingSpace text = true
        /\ noLeadingSpace (rev text) = true).
Proof.
  split; [|split; [|split]].
  - intros selection Hauto Hplat Hcopied. subst copied.
    assert (Hrun : captureSelectionText cfg platform (Ok before) (Fulfilled selection)
                   = Fulfilled (trim (if negb (nonEmpty selection) || streqb selection before
                                      then before else selection))).
    { unfold captureSelectionText.
      destruct (Config.autoCopySelection cfg) as [| |[|]| |]; try congruence;
        destruct platform; try congruence; reflexivity. }
    rewrite Hrun. split.
    + intros Hne Hdiff. rewrite Hne. cbn [negb orb].
      destruct (streqb selection before) eqn:E; [|reflexivity].
      apply streqb_eq in E. contradiction.
    + intros ->. reflexivity.
  - intros ->. apply captureSelectionText_off. unfold copyAttempted.
    destruct (Config.autoCopySelection cfg) as [| |[|]| |]; reflexivity.
  - intros firstRead text H. destruct firstRead as [before0|e]; [|discriminate].
    destruct (captureSelectionText_cases cfg platform before0 copied)
      as [[t Ht]|[Hp _]]; [|congruence].
    rewrite Ht in H. inversion H. subst text. apply trim_ends.
  - intros Hsettled.
    destruct (captureSelectionText_cases cfg platform before copied)
      as [[t Ht]|[_ [_ Hp]]]; [|contradiction].
    exists (trim t). split; [exact Ht | apply trim_ends].
Qed.

Lemma captureSelectionText_selection_witness :
  captureSelectionText Config.empty Darwin (Ok (lit "old")) (Fulfilled (lit " picked text "))
  = Fulfilled (lit "picked text").
Proof.
  destruct (captureSelectionText_selection Config.empty Darwin (lit "old")
              (Fulfilled (lit " picked text "))) as [H _].
  assert (Hauto : Config.autoCopySelection Config.empty <> JBool false) by discriminate.
  assert (Hplat : Darwin <> OtherPlatform) by discriminate.
  assert (Hdiff : lit " picked text " <> lit "old") by discriminate.
  exact (proj1 (H (lit " picked text ") Hauto Hplat eq_refl) eq_refl Hdiff).
Defined.

End CaptureMore.

(* ====================================================================== *)
(** * Outcomes of the provider call *)

Section GatewayOutcomes.

Lemma supported_cases provider :
  In provider supportedProviders ->
  provider = lit "openai" \/ provider = lit "anthropic" \/ provider = lit "gemini"
  \/ provider = lit "groq" \/ provider = lit "grok".
Proof.
  intros H. repeat (destruct H as [H|H]; [subst; tauto|]). destruct H.
Qed.

Lemma not_supported_eqb provider :
  ~ In provider supportedProviders ->
  streqb provider (lit "openai") = false /\ streqb provider (lit "anthropic") = false
  /\ streqb provider (lit "gemini") = false /\ streqb provider (lit "groq") = false
  /\ streqb provider (lit "grok") = false.
Proof.
  intros H.
  repeat split;
    match goal with
    | |- streqb ?a ?b = false =>
        destruct (streqb a b) eqn:E; [|reflexivity];
        apply streqb_eq in E; exfalso; apply H; subst; simpl; tauto
    end.
Qed.

(** X17.  For each of the five supported providers a missing or empty key
    makes the call throw ['Missing API key'] without any request being
    built, so whatever the network would answer; any other provider name
    throws ['Unsupported provider'], key or not.  With a non-empty key a
    supported provider gets a request, with one exception: for Gemini a
    model name with an unpaired surrogate makes [encodeURIComponent] throw
    a [URIError] before any request is built. *)
Theorem summarizeWithProvider_before_network
  cfg (provider : jsstring) (key model systemPrompt : option jsstring) userText :
  (In provider supportedProviders -> truthyStr key = false ->
   buildRequest cfg provider key model systemPrompt userText
   = Throw (Error (lit "Missing API key"))
   /\ forall fetch,
        summarizeWithProvider cfg provider key model systemPrompt userText fetch
        = Throw (Error (lit "Missing API key")))
  /\ (~ In provider supportedProviders ->
      buildRequest cfg provider key model systemPrompt userText
      = Throw (Error (lit "Unsupported provider"))
      /\ forall fetch,
           summarizeWithProvider cfg provider key model systemPrompt userText fetch
           = Throw (Error (lit "Unsupported provider")))
  /\ (In provider supportedProviders -> truthyStr key = true ->
      let malformed :=
        streqb provider (lit "gemini") && negb (wellFormed (geminiModelName model)) in
      (malformed = true ->
       buildRequest cfg provider key model systemPrompt userText
       = Throw URIError_malformed
       /\ forall fetch,
            summarizeWithProvider cfg provider key model systemPrompt userText fetch
            = Throw URIError_malformed)
      /\ (malformed = false ->
          exists req,
            buildRequest cfg provider key model systemPrompt userText = Ok req
            /\ forall fetch,
                 summarizeWithProvider cfg provider key model systemPrompt userText fetch
                 = readResponse (fetch req))).
Proof.
  split; [|split].
  - intros Hin Hkey.
    assert (Hb : buildRequest cfg provider key model systemPrompt userText
                 = Throw (Error (lit "Missing API key"))).
    { destruct (supported_cases provider Hin) as [->|[->|[->|[->| ->]]]];
        destruct key as [k|]; try reflexivity;
        simpl in Hkey; unfold buildRequest; simpl; rewrite Hkey; reflexivity. }
    split; [exact Hb|]. intros fetch. unfold summarizeWithProvider. rewrite Hb. reflexivity.
  - intros Hnot.
    destruct (not_supported_eqb provider Hnot) as [H1 [H2 [H3 [H4 H5]]]].
    assert (Hb : buildRequest cfg provider key model systemPrompt userText
                 = Throw (Error (lit "Unsupported provider"))).
    { unfold buildRequest. rewrite H1, H2, H3, H4, H5. reflexivity. }
    split; [exact Hb|]. intros fetch. unfold summarizeWithProvider. rewrite Hb. reflexivity.
  - intros Hin Hkey malformed. destruct key as [k|]; [|discriminate]. simpl in Hkey.
    assert (Hgem : modelOrDefault model (lit "gemini")
                   = Some (orStr model (lit "gemini-2.5-flash-lite"))).
    { unfold modelOrDefault. destruct model as [m|]; [|reflexivity].
      cbn [truthyStr orStr]. destruct (nonEmpty m); reflexivity. }
    assert (Hb : (malformed = true ->
                  buildRequest cfg provider (Some k) model systemPrompt userText
                  = Throw URIError_malformed)
                 /\ (malformed = false ->
                     exists req,
                       buildRequest cfg provider (Some k) model systemPrompt userText
                       = Ok req)).
    { subst malformed.
      destruct (supported_cases provider Hin) as [->|[->|[->|[->| ->]]]];
        try (split; [discriminate|]; intros _;
             unfold buildRequest; simpl; rewrite Hkey; simpl; eexists; reflexivity).
      rewrite streqb_refl. cbn [andb]. unfold geminiModelName.
      assert (Hrun : buildRequest cfg (lit "gemini") (Some k) model systemPrompt userText
                     = match modelOrDefault model (lit "gemini") with
                       | Some m0 =>
                           if negb (wellFormed (stripGenerateContent m0))
                           then Throw URIError_malformed
                           else
                             Ok (mkRequest
                                   (GeminiGenerateContent (stripGenerateContent m0) k)
                                   [contentTypeJson]
                                   (GeminiBody
                                      (orStr systemPrompt DEFAULT_SUMMARY_PROMPT
                                       ++ [10%N; 10%N] ++ lit "INPUT:" ++ [10%N]
                                       ++ slice userText 0 MAX_TEXT_LEN)
                                      (Config.maxOutputTokens cfg)))
                       | None =>
                           Throw (mkExn (lit "TypeError")
                                    (lit "Cannot read properties of undefined (reading 'replace')"))
                       end).
      { unfold buildRequest.
        change (streqb (lit "gemini") (lit "openai") || streqb (lit "gemini") (lit "groq"))
          with false.
        change (streqb (lit "gemini") (lit "anthropic")) with false.
        change (streqb (lit "gemini") (lit "gemini")) with true.
        cbv iota. rewrite Hkey. reflexivity. }
      rewrite Hrun, Hgem.
      destruct (wellFormed (stripGenerateContent (orStr model (lit "gemini-2.5-flash-lite"))));
        cbn [negb]; split; try discriminate; intros _; [eexists|]; reflexivity. }
    destruct Hb as [Hbad Hgood]. split.
    + intros Hm. split; [exact (Hbad Hm)|].
      intros fetch. unfold summarizeWithProvider. rewrite (Hbad Hm). reflexivity.
    + intros Hm. destruct (Hgood Hm) as [req Hreq]. exists req. split; [exact Hreq|].
      intros fetch. unfold summarizeWithProvider. rewrite Hreq. reflexivity.
Qed.

Lemma summarizeWithProvider_before_network_witness :
  summarizeWithProvider Config.empty (lit "gemini") (Some []) None None shortText
                        rejectingFetch
  = Throw (Error (lit "Missing API key"))
  /\ summarizeWithProvider Config.empty (lit "cohere") (Some (lit "k")) None None
                           shortText rejectingFetch
     = Throw (Error (lit "Unsupported provider")).
Proof.
  split.
  - destruct (summarizeWithProvider_before_network Config.empty (lit "gemini") (Some [])
                None None shortText) as [H _].
    assert (Hin : In (lit "gemini") supportedProviders)
      by (right; right; left; reflexivity).
    exact (proj2 (H Hin eq_refl) rejectingFetch).
  - destruct (summarizeWithProvider_before_network Config.empty (lit "cohere")
                (Some (lit "k")) None None shortText) as [_ [H _]].
    assert (Hnot : ~ In (lit "cohere") supportedProviders).
    { intros Hin. repeat (destruct Hin as [Hin|Hin]; [discriminate Hin|]). exact Hin. }
    exact (proj2 (H Hnot) rejectingFetch).
Defined.

(** X18.  Once a request is out: a transport failure surfaces as the
    exception it is; a response with a status in 200-299 yields the
    extracted answer trimmed, or the exception of the extraction; and when
    the call has settled the flow clears the in-flight flag and, if the
    popup window exists, sends it exactly one message: the summary together
    with the full selection, or the error text, which is the message of the
    exception or, when that is empty, its name. *)
Theorem summarizeWithProvider_outcomes
  cfg provider key model systemPrompt userText fetch req :
  buildRequest cfg provider key model systemPrompt userText = Ok req ->
  let outcome := summarizeWithProvider cfg provider key model systemPrompt userText fetch in
  (forall e, fetch req = Throw e -> outcome = Throw e)
  /\ (forall res txt, fetch req = Ok res -> 200 <= status res <= 299 ->
        answer res = Ok txt -> outcome = Ok (trim txt))
  /\ (forall res e, fetch req = Ok res -> 200 <= status res <= 299 ->
        answer res = Throw e -> outcome = Throw e)
  /\ (forall fullText st,
       summaryInFlight (fst (runSummary_settled fullText outcome st)) = false
       /\ popupWindow (fst (runSummary_settled fullText outcome st)) = popupWindow st
       /\ snd (runSummary_settled fullText outcome st)
          = match popupWindow st with
            | NoWindow => []
            | Window _ =>
                [SendSummary (match outcome with
                              | Ok summary => SummaryResult summary fullText
                              | Throw e => SummaryError (errorText e)
                              end)]
            end)
  /\ (forall e, nonEmpty (exn_message e) = true -> errorText e = exn_message e)
  /\ (forall name, errorText (mkExn name []) = name).
Proof.
  intros Hreq outcome.
  assert (Hout : outcome = readResponse (fetch req)).
  { unfold outcome, summarizeWithProvider. rewrite Hreq. reflexivity. }
  assert (Hok : forall res, 200 <= status res <= 299 -> ok res = true).
  { intros res H. unfold ok. apply andb_true_iff. split; apply Z.leb_le; lia. }
  split; [|split; [|split; [|split; [|split]]]].
  - intros e He. rewrite Hout, He. reflexivity.
  - intros res txt Hf Hs Ha. rewrite Hout, Hf. unfold readResponse. cbn [bind].
    rewrite (Hok res Hs), Ha. reflexivity.
  - intros res e Hf Hs Ha. rewrite Hout, Hf. unfold readResponse. cbn [bind].
    rewrite (Hok res Hs), Ha. reflexivity.
  - intros fullText st. unfold runSummary_settled. cbn [fst snd summaryInFlight popupWindow].
    split; [reflexivity|]. split; [reflexivity|].
    destruct outcome, (popupWindow st); reflexivity.
  - intros e He. unfold errorText. rewrite He. reflexivity.
  - intros name. reflexivity.
Qed.

Lemma summarizeWithProvider_outcomes_witness :
  summarizeWithProvider geminiCfg (lit "anthropic") (Some (lit "sk-test")) None None
                        shortText (fun _ => Ok answered)
  = Ok (lit "A greeting.").
Proof.
  destruct (summarizeWithProvider_outcomes geminiCfg (lit "anthropic")
              (Some (lit "sk-test")) None None shortText (fun _ => Ok answered) _ eq_refl)
    as [_ [H _]].
  apply (H answered (lit "  A greeting. ")); [reflexivity | | reflexivity].
  unfold answered; cbn [status]; lia.
Defined.

End GatewayOutcomes.

(* ====================================================================== *)
(** * The popup through a sequence of triggers *)

Section LifecycleFacts.

(** The trace of the request half, spelled out. *)
Lemma runSummary_request_events cfg preset selection newHash now st :
  eventsOf (runSummary_request cfg preset selection newHash now st)
  = (if isVisible (popupWindow st) then [ShowInactiveAndFocus] else [ShowPopupNearCursor])
    ++ [SendSummary (Working (slice selection 0 160))]
    ++ match effectiveMaxLengthOf cfg preset with
       | LimNum n =>
           if n <? strlen selection then
             [SendSummary
                (WorkingTruncated
                   (strlen selection - n)
                   (if truthy (Config.unlimitedInput cfg) then ModelContextLimit
                    else match Config.activeDocumentSession cfg with
                         | Some _ => DocumentContext
                         | None => SafetyLimit
                         end)
                   (slice (slice selection 0 n) 0 160))]
           else []
       | _ => []
       end
    ++ [CallProvider (providerCallOf cfg preset selection)].
Proof.
  unfold runSummary_request, providerCallOf, effectiveMaxLengthOf, ensurePopupShown, eventsOf.
  cbn [popupWindow].
  destruct (isVisible (popupWindow st)); cbn [negb fst snd];
    destruct (getMaxInputLength _ _ _ _ _); reflexivity.
Qed.

Lemma runSummary_request_state cfg preset selection newHash now st :
  stateOf (runSummary_request cfg preset selection newHash now st)
  = mkState (Window true) (popupAutoHideTimer st) (popupFading st) selection newHash true
            (if isVisible (popupWindow st) then lastPopupShowTs st else now)
  /\ outcomeOf (runSummary_request cfg preset selection newHash now st)
     = AwaitingProvider (providerCallOf cfg preset selection)
  /\ providerCalls (eventsOf (runSummary_request cfg preset selection newHash now st))
     = 1%nat.
Proof.
  destruct (runSummary_request_result cfg preset selection newHash now st)
    as [evs [Hreq Hnone]].
  rewrite Hreq. unfold stateOf, outcomeOf, eventsOf. cbn [fst snd].
  rewrite providerCalls_app, Hnone. repeat split; reflexivity.
Qed.



(** X20.  A trigger that finds the popup hidden, or finds a fingerprint
    different from the last one, starts a request: it records the selection
    and its fingerprint, sets the in-flight flag, sends the interim message
    and calls the provider exactly once.  A hidden popup is shown near the
    cursor and the show time becomes the current time; a visible popup is
    only raised, not moved, and its show time and fading flag stay as they
    were. *)
Theorem runSummary_starts_request cfg preset captured now sendOk st :
  isVisible (popupWindow st) = false
  \/ fingerprint (selectionOf captured) preset <> lastSummaryInputHash st ->
  let r := runSummary_captured cfg preset captured now sendOk st in
  outcomeOf r = AwaitingProvider (providerCallOf cfg preset (selectionOf captured))
  /\ providerCalls (eventsOf r) = 1%nat
  /\ (exists rest,
        eventsOf r
        = (if isVisible (popupWindow st) then ShowInactiveAndFocus else ShowPopupNearCursor)
          :: SendSummary (Working (slice (selectionOf captured) 0 160)) :: rest)
  /\ stateOf r
     = mkState (Window true) (popupAutoHideTimer st) (popupFading st)
               (selectionOf captured) (fingerprint (selectionOf captured) preset) true
               (if isVisible (popupWindow st) then lastPopupShowTs st else now).
Proof.
  intros Hcase r.
  assert (Hr : r = runSummary_request cfg preset (selectionOf captured)
                     (fingerprint (selectionOf captured) preset) now st).
  { unfold r, runSummary_captured. destruct Hcase as [Hvis|Hhash].
    - rewrite Hvis. reflexivity.
    - destruct (streqb (fingerprint (selectionOf captured) preset)
                       (lastSummaryInputHash st)) eqn:E.
      + apply streqb_eq in E. contradiction.
      + rewrite andb_false_r. reflexivity. }
  rewrite Hr.
  destruct (runSummary_request_state cfg preset (selectionOf captured)
              (fingerprint (selectionOf captured) preset) now st) as [Hst [Hout Hcalls]].
  split; [exact Hout|]. split; [exact Hcalls|]. split; [|exact Hst].
  rewrite runSummary_request_events.
  destruct (isVisible (popupWindow st)); eexists; reflexivity.
Qed.

Lemma runSummary_starts_request_witness :
  stateOf (runSummary_captured geminiCfg (firstPreset geminiCfg) shortText 1000 true
                               initialState)
  = mkState (Window true) false false shortText
            (fingerprint shortText (firstPreset geminiCfg)) true 1000.
Proof.
  exact (proj2 (proj2 (proj2
           (runSummary_starts_request geminiCfg (firstPreset geminiCfg) shortText 1000 true
              initialState (or_introl eq_refl))))).
Defined.



(** X22.  A whole cycle, whatever the configuration, the text and the
    times: from a hidden, idle popup a trigger shows the popup and calls the
    provider; once the call has settled, the same trigger again starts the
    fade-out instead of calling the provider; after the window has finished
    hiding, the same trigger once more shows the popup near the cursor and
    calls the provider again. *)
Theorem runSummary_cycle cfg preset captured settled (t1 t2 t3 : Z) st :
  isVisible (popupWindow st) = false ->
  popupFading st = false ->
  let selection := selectionOf captured in
  let call := providerCallOf cfg preset selection in
  let r1 := runSummary_captured cfg preset captured t1 true st in
  let s1 := fst (runSummary_settled selection settled (stateOf r1)) in
  let r2 := runSummary_captured cfg preset captured t2 true s1 in
  let s2 := fst (finalizeHidePopup (stateOf r2)) in
  let r3 := runSummary_captured cfg preset captured t3 true s2 in
  outcomeOf r1 = AwaitingProvider call
  /\ popupWindow (stateOf r1) = Window true
  /\ outcomeOf r2 = Returned
  /\ eventsOf r2 = [SendStartFadeOut]
  /\ popupWindow s2 = Window false /\ popupFading s2 = false
  /\ outcomeOf r3 = AwaitingProvider call
  /\ (exists rest,
        eventsOf r3
        = ShowPopupNearCursor :: SendSummary (Working (slice selection 0 160)) :: rest)
  /\ lastPopupShowTs (stateOf r3) = t3.
Proof.
  intros Hhidden Hfade selection call r1 s1 r2 s2 r3.
  assert (Hr1 : r1 = runSummary_request cfg preset selection
                       (fingerprint selection preset) t1 st).
  { unfold r1, runSummary_captured. fold selection. rewrite Hhidden. reflexivity. }
  destruct (runSummary_request_state cfg preset selection
              (fingerprint selection preset) t1 st) as [Hst1 [Hout1 _]].
  rewrite <- Hr1 in Hst1, Hout1. rewrite Hhidden in Hst1.
  assert (Hs1 : s1 = mkState (Window true) (popupAutoHideTimer st) false selection
                             (fingerprint selection preset) false t1).
  { unfold s1, runSummary_settled. rewrite Hst1, Hfade. reflexivity. }
  assert (Hr2 : r2 = (mkState (Window true) (popupAutoHideTimer st) true selection
                              (fingerprint selection preset) false t1,
                      [SendStartFadeOut], Returned)).
  { unfold r2, runSummary_captured. fold selection. rewrite Hs1.
    cbn [popupWindow lastSummaryInputHash summaryInFlight isVisible].
    rewrite streqb_refl. reflexivity. }
  assert (Hs2 : s2 = mkState (Window false) false false selection
                             (fingerprint selection preset) false t1).
  { unfold s2. rewrite Hr2. reflexivity. }
  assert (Hr3 : r3 = runSummary_request cfg preset selection
                       (fingerprint selection preset) t3 s2).
  { unfold r3, runSummary_captured. fold selection. rewrite Hs2. reflexivity. }
  destruct (runSummary_request_state cfg preset selection
              (fingerprint selection preset) t3 s2) as [Hst3 [Hout3 _]].
  pose proof (runSummary_request_events cfg preset selection
                (fingerprint selection preset) t3 s2) as Hev3.
  rewrite <- Hr3 in Hst3, Hout3, Hev3.
  split; [exact Hout1|]. split; [rewrite Hst1; reflexivity|].
  split; [rewrite Hr2; reflexivity|]. split; [rewrite Hr2; reflexivity|].
  split; [rewrite Hs2; reflexivity|]. split; [rewrite Hs2; reflexivity|].
  split; [exact Hout3|]. split.
  - rewrite Hev3, Hs2. cbn [popupWindow isVisible]. eexists; reflexivity.
  - rewrite Hst3, Hs2. reflexivity.
Qed.

Lemma runSummary_cycle_witness :
  eventsOf
    (runSummary_captured geminiCfg (firstPreset geminiCfg) shortText 1500 true
                         afterFirstSettled)
  = [SendStartFadeOut].
Proof.
  exact (proj1 (proj2 (proj2 (proj2
           (runSummary_cycle geminiCfg (firstPreset geminiCfg) shortText
              (Ok (lit "A greeting.")) 1000 1500 9000 initialState eq_refl eq_refl))))).
Defined.

(** X23.  The fade sequence: on a window that is not fading,
    [scheduleHidePopup] sends ['clipai:start-fade-out'] once and marks the
    popup fading.  While it is fading, a second call sends nothing and
    changes nothing; so does a repeat trigger with the same fingerprint on
    the visible popup, provided no request is in flight or more than 800 ms
    have passed since the popup was shown (with a request in flight and at
    most 800 ms passed the trigger does not reach [scheduleHidePopup]: it
    goes on to the provider call).  [finalizeHidePopup] then hides the
    window, clears the fading flag and the auto-hide timer.  Without a
    window both do nothing. *)
Theorem fade_sequence (st : State) (visible : bool) :
  popupWindow st = Window visible ->
  popupFading st = false ->
  let fading := fst (scheduleHidePopup true st) in
  snd (scheduleHidePopup true st) = [SendStartFadeOut]
  /\ popupFading fading = true
  /\ popupWindow fading = Window visible
  /\ (forall sendOk, scheduleHidePopup sendOk fading = (fading, []))
  /\ (forall cfg preset captured now sendOk,
        visible = true ->
        fingerprint (selectionOf captured) preset = lastSummaryInputHash st ->
        (summaryInFlight st = false \/ 800 < now - lastPopupShowTs st
         -> runSummary_captured cfg preset captured now sendOk fading = (fading, [], Returned))
        /\ (summaryInFlight st = true -> now - lastPopupShowTs st <= 800 ->
            providerCalls
              (eventsOf (runSummary_captured cfg preset captured now sendOk fading))
            = 1%nat))
  /\ snd (finalizeHidePopup fading) = [HidePopup]
  /\ popupWindow (fst (finalizeHidePopup fading)) = Window false
  /\ popupFading (fst (finalizeHidePopup fading)) = false
  /\ popupAutoHideTimer (fst (finalizeHidePopup fading)) = false
  /\ (forall sendOk idle,
        popupWindow idle = NoWindow ->
        scheduleHidePopup sendOk idle = (idle, []) /\ finalizeHidePopup idle = (idle, [])).
Proof.
  intros Hwin Hfade fading.
  destruct st as [w tm f sel h fl ts].
  cbn [popupWindow popupFading lastSummaryInputHash summaryInFlight lastPopupShowTs] in *.
  subst w f.
  assert (Hf : fading = mkState (Window visible) tm true sel h fl ts) by reflexivity.
  clearbody fading. subst fading.
  split; [reflexivity|]. split; [reflexivity|]. split; [reflexivity|].
  split; [intros sendOk; reflexivity|].
  split.
  { intros cfg preset captured now sendOk Hv Hhash. subst visible.
    unfold runSummary_captured.
    cbn [popupWindow lastSummaryInputHash summaryInFlight lastPopupShowTs isVisible].
    rewrite Hhash, streqb_refl. cbn [andb]. split.
    - intros Hcond.
      assert (Hgo : negb fl || (800 <? now - ts) = true).
      { destruct Hcond as [->|Hlate]; [reflexivity|].
        apply orb_true_iff. right. apply Z.ltb_lt. exact Hlate. }
      rewrite Hgo. reflexivity.
    - intros -> Hsoon.
      assert (Hgo : negb true || (800 <? now - ts) = false).
      { cbn [negb orb]. apply Z.ltb_ge. exact Hsoon. }
      rewrite Hgo.
      exact (proj2 (proj2 (runSummary_request_state cfg preset (selectionOf captured) h now
                             (mkState (Window true) tm true sel h true ts)))). }
  split; [reflexivity|]. split; [reflexivity|]. split; [reflexivity|].
  split; [reflexivity|].
  intros sendOk idle Hidle. split.
  - unfold scheduleHidePopup. rewrite Hidle. reflexivity.
  - unfold finalizeHidePopup. rewrite Hidle. reflexivity.
Qed.

Lemma fade_sequence_witness :
  snd (scheduleHidePopup true afterFirstSettled) = [SendStartFadeOut]
  /\ scheduleHidePopup true (fst (scheduleHidePopup true afterFirstSettled))
     = (fst (scheduleHidePopup true afterFirstSettled), []).
Proof.
  destruct (fade_sequence afterFirstSettled true eq_refl eq_refl) as [H1 [_ [_ [H2 _]]]].
  split; [exact H1 | exact (H2 true)].
Defined.

End LifecycleFacts.

(* ====================================================================== *)
(** * The prompt and the text that is sent *)

Section TextFacts.

Lemma slice_0_app s extra n :
  0 <= n <= strlen s -> slice (s ++ extra) 0 n = slice s 0 n.
Proof.
  intros H. rewrite !slice_0_firstn by lia.
  unfold strlen in *. rewrite length_app.
  replace (Z.to_nat (Z.min n (Z.of_nat (List.length s + List.length extra))))
    with (Z.to_nat n) by lia.
  replace (Z.to_nat (Z.min n (Z.of_nat (List.length s)))) with (Z.to_nat n) by lia.
  rewrite firstn_app.
  replace (Z.to_nat n - List.length s)%nat with 0%nat by lia.
  cbn [firstn]. apply app_nil_r.
Qed.

Lemma truthyStr_app n extra : truthyStr (Some n) = true -> truthyStr (Some (n ++ extra)) = true.
Proof. destruct n; [discriminate | reflexivity]. Qed.

(** X24.  The system prompt always starts with the preset's prompt (the
    default prompt when the preset has none), and is just that without an
    active document session.  Of the session's notes only the first 200
    units are used: notes that agree on them give the same prompt. *)
Theorem contextualPrompt_structure (cfg : Config.t) (preset : option Preset.t) :
  let base :=
    orStr (match preset with Some p => Preset.prompt p | None => None end)
          DEFAULT_SUMMARY_PROMPT in
  nonEmpty base = true
  /\ (Config.activeDocumentSession cfg = None -> contextualPromptOf cfg preset = base)
  /\ (forall session, Config.activeDocumentSession cfg = Some session ->
        contextualPromptOf cfg preset = base ++ contextAddition session)
  /\ (forall type title author notes extra,
        200 <= strlen notes ->
        contextAddition (Session.mk type title author (Some (notes ++ extra)))
        = contextAddition (Session.mk type title author (Some notes))).
Proof.
  intros base. split; [apply orStr_nonEmpty; reflexivity|].
  split; [intros H; unfold contextualPromptOf; rewrite H; reflexivity|].
  split; [intros session H; unfold contextualPromptOf; rewrite H; reflexivity|].
  intros type title author notes extra Hlen.
  destruct notes as [|c notes]; [unfold strlen in Hlen; simpl in Hlen; lia|].
  unfold contextAddition. cbn [Session.type Session.title Session.author Session.notes].
  cbn [app truthyStr nonEmpty orStr].
  change (c :: notes ++ extra) with ((c :: notes) ++ extra).
  rewrite slice_0_app by lia. reflexivity.
Qed.

Lemma contextualPrompt_structure_witness :
  contextAddition
    (Session.mk (lit "book") (lit "T") None (Some (repeat 120%N 200 ++ lit "tail")))
  = contextAddition (Session.mk (lit "book") (lit "T") None (Some (repeat 120%N 200))).
Proof.
  destruct (contextualPrompt_structure Config.empty None) as [_ [_ [_ H]]].
  apply H. vm_compute. discriminate.
Defined.

(** A run either is the request half or returned through the toggle. *)
Lemma runSummary_captured_cases cfg preset captured now sendOk st :
  runSummary_captured cfg preset captured now sendOk st
  = runSummary_request cfg preset (selectionOf captured)
      (fingerprint (selectionOf captured) preset) now st
  \/ runSummary_captured cfg preset captured now sendOk st
     = (fst (scheduleHidePopup sendOk st), snd (scheduleHidePopup sendOk st), Returned).
Proof.
  unfold runSummary_captured.
  destruct (isVisible (popupWindow st)
            && streqb (fingerprint (selectionOf captured) preset) (lastSummaryInputHash st));
    [|left; reflexivity].
  destruct (negb (summaryInFlight st) || (800 <? now - lastPopupShowTs st));
    [|left; reflexivity].
  right. destruct (scheduleHidePopup sendOk st); reflexivity.
Qed.

Lemma scheduleHidePopup_events sendOk st e :
  In e (snd (scheduleHidePopup sendOk st)) -> e = SendStartFadeOut \/ e = HidePopup.
Proof.
  unfold scheduleHidePopup, finalizeHidePopup.
  destruct (popupWindow st); [intros []|].
  destruct (popupFading st); [intros []|].
  destruct sendOk; intros [H|[]]; auto.
Qed.

(** X25.  The truncation notice accounts for the cut exactly.  With a
    numeric, non-negative ceiling, a run that calls the provider sends the
    notice if and only if the selection is longer than the ceiling; the
    number it names is the length of the selection minus the length of the
    text handed to the provider, and its preview is the first 160 units of
    that text.  The reason named is the model context limit under unlimited
    input, else the document context when a session is active, else the
    safety limit. *)
Theorem truncation_notice cfg preset captured now sendOk st (n : Z) :
  effectiveMaxLengthOf cfg preset = LimNum n ->
  0 <= n ->
  let r := runSummary_captured cfg preset captured now sendOk st in
  let selection := selectionOf captured in
  let sent := call_userText (providerCallOf cfg preset selection) in
  let reason :=
    if truthy (Config.unlimitedInput cfg) then ModelContextLimit
    else match Config.activeDocumentSession cfg with
         | Some _ => DocumentContext
         | None => SafetyLimit
         end in
  (forall k why preview,
     In (SendSummary (WorkingTruncated k why preview)) (eventsOf r) ->
     n < strlen selection
     /\ k = strlen selection - strlen sent /\ 0 < k
     /\ why = reason /\ preview = slice sent 0 160)
  /\ (outcomeOf r <> Returned -> n < strlen selection ->
      In (SendSummary (WorkingTruncated (strlen selection - strlen sent) reason
                                        (slice sent 0 160)))
         (eventsOf r))
  /\ (strlen selection <= n -> sent = selection).
Proof.
  intros Hlim Hn r selection sent reason.
  assert (Hsent : sent = slice selection 0 n).
  { unfold sent, providerCallOf. cbn [call_userText]. rewrite Hlim. reflexivity. }
  assert (Hlen : n < strlen selection -> strlen sent = n).
  { intros H. rewrite Hsent, strlen_slice_0 by exact Hn. lia. }
  assert (Hev : r = runSummary_request cfg preset selection
                      (fingerprint selection preset) now st ->
                eventsOf r
                = (if isVisible (popupWindow st)
                   then [ShowInactiveAndFocus] else [ShowPopupNearCursor])
                  ++ [SendSummary (Working (slice selection 0 160))]
                  ++ (if n <? strlen selection
                      then [SendSummary (WorkingTruncated (strlen selection - n) reason
                                           (slice (slice selection 0 n) 0 160))]
                      else [])
                  ++ [CallProvider (providerCallOf cfg preset selection)]).
  { intros ->. rewrite runSummary_request_events, Hlim. reflexivity. }
  destruct (runSummary_captured_cases cfg preset captured now sendOk st) as [Hreq|Htog];
    fold r selection in Hreq || fold r in Htog.
  - specialize (Hev Hreq). split; [|split].
    + intros k why preview Hin. rewrite Hev in Hin.
      assert (Hin' : In (SendSummary (WorkingTruncated k why preview))
                        (if n <? strlen selection
                         then [SendSummary (WorkingTruncated (strlen selection - n) reason
                                              (slice (slice selection 0 n) 0 160))]
                         else [])).
      { apply in_app_or in Hin. destruct Hin as [Hin|Hin].
        - destruct (isVisible (popupWindow st)); destruct Hin as [Hin|[]]; discriminate.
        - apply in_app_or in Hin. destruct Hin as [Hin|Hin];
            [destruct Hin as [Hin|[]]; discriminate|].
          apply in_app_or in Hin. destruct Hin as [Hin|[Hin|[]]];
            [exact Hin | discriminate]. }
      destruct (n <? strlen selection) eqn:E; [|destruct Hin'].
      apply Z.ltb_lt in E. destruct Hin' as [Hin'|[]]. inversion Hin'; subst k why preview.
      rewrite (Hlen E), <- Hsent. repeat split; try reflexivity; lia.
    + intros _ Hlong. rewrite Hev.
      apply in_or_app. right. apply in_or_app. right. apply in_or_app. left.
      rewrite (proj2 (Z.ltb_lt _ _) Hlong), (Hlen Hlong), Hsent. left; reflexivity.
    + intros Hshort. rewrite Hsent, slice_0_firstn by exact Hn.
      apply firstn_all2. unfold strlen in *. lia.
  - split; [|split].
    + intros k why preview Hin. rewrite Htog in Hin. unfold eventsOf in Hin.
      cbn [fst snd] in Hin. apply scheduleHidePopup_events in Hin.
      destruct Hin; discriminate.
    + intros Hout. rewrite Htog in Hout. unfold outcomeOf in Hout. cbn [snd] in Hout.
      congruence.
    + intros Hshort. rewrite Hsent, slice_0_firstn by exact Hn.
      apply firstn_all2. unfold strlen in *. lia.
Qed.

Lemma truncation_notice_witness :
  In (SendSummary (WorkingTruncated 200 SafetyLimit (slice longSelection 0 160)))
     (eventsOf (runSummary_captured geminiCfg (firstPreset geminiCfg) longSelection 1000
                                    true initialState)).
Proof.
  destruct (truncation_notice geminiCfg (firstPreset geminiCfg) longSelection 1000 true
              initialState 1000 eq_refl) as [_ [H _]]; [lia|].
  assert (Hout : outcomeOf (runSummary_captured geminiCfg (firstPreset geminiCfg)
                              longSelection 1000 true initialState) <> Returned).
  { vm_compute. discriminate. }
  assert (Hlong : 1000 < strlen (selectionOf longSelection)).
  { vm_compute. reflexivity. }
  specialize (H Hout Hlong). vm_compute in H. vm_compute. exact H.
Defined.

(** X26.  What reaches the wire.  For a run whose ceiling is a non-negative
    number [n], the request the gateway builds from the run's provider call
    carries the run's system prompt and the selection cut to the smaller of
    [n] and 25,000 units. *)
Theorem sent_text_end_to_end cfg preset captured now sendOk st (n : Z) c req :
  effectiveMaxLengthOf cfg preset = LimNum n ->
  0 <= n ->
  In (CallProvider c) (eventsOf (runSummary_captured cfg preset captured now sendOk st)) ->
  buildRequest cfg (call_provider c) (call_key c) (call_model c)
               (Some (call_systemPrompt c)) (call_userText c) = Ok req ->
  carriesUserText (body req) (contextualPromptOf cfg preset)
                  (slice (selectionOf captured) 0 (Z.min n 25000))
  /\ strlen (slice (selectionOf captured) 0 (Z.min n 25000)) <= Z.min n 25000.
Proof.
  intros Hlim Hn Hin Hreq.
  apply runSummary_captured_calls in Hin. subst c.
  pose proof (buildRequest_carries _ _ _ _ _ _ _ Hreq) as Hc.
  unfold providerCallOf in Hc. cbn [call_userText call_systemPrompt] in Hc.
  rewrite Hlim in Hc. cbn [sliceTo] in Hc.
  assert (Hprompt : orStr (Some (contextualPromptOf cfg preset)) DEFAULT_SUMMARY_PROMPT
                    = contextualPromptOf cfg preset).
  { apply orStr_Some_nonEmpty. unfold contextualPromptOf.
    set (base := orStr _ DEFAULT_SUMMARY_PROMPT).
    assert (Hb : nonEmpty base = true) by (apply orStr_nonEmpty; reflexivity).
    destruct (Config.activeDocumentSession cfg); [|exact Hb].
    destruct base; [discriminate | reflexivity]. }
  rewrite Hprompt in Hc.
  assert (Hslice : slice (slice (selectionOf captured) 0 n) 0 MAX_TEXT_LEN
                   = slice (selectionOf captured) 0 (Z.min n 25000)).
  { unfold MAX_TEXT_LEN.
    destruct (Z.le_ge_cases n 25000) as [Hle|Hge].
    - rewrite Z.min_l by lia.
      rewrite (slice_0_firstn (slice (selectionOf captured) 0 n)) by lia.
      rewrite firstn_all2; [reflexivity|].
      pose proof (strlen_slice_0_le (selectionOf captured) n Hn) as Hl.
      pose proof (strlen_nonneg (slice (selectionOf captured) 0 n)).
      unfold strlen in *. lia.
    - rewrite Z.min_r by lia. apply slice_0_slice_0. lia. }
  rewrite Hslice in Hc. split; [exact Hc|].
  apply strlen_slice_0_le. lia.
Qed.

Lemma sent_text_end_to_end_witness :
  strlen (slice (selectionOf longSelection) 0 (Z.min 1000 25000)) <= Z.min 1000 25000.
Proof.
  refine (proj2 (sent_text_end_to_end geminiCfg (firstPreset geminiCfg) longSelection 1000
                   true initialState 1000
                   (providerCallOf geminiCfg (firstPreset geminiCfg) longSelection)
                   _ eq_refl _ _ eq_refl)).
  - lia.
  - vm_compute. right; right; right; left; reflexivity.
Defined.

End TextFacts.

(* ====================================================================== *)
(** * Ceilings under unlimited input, and the fingerprint *)

Section CeilingMore.

Lemma selectionOf_nonEmpty captured : nonEmpty (selectionOf captured) = true.
Proof. unfold selectionOf. destruct (nonEmpty captured) eqn:E; [exact E | reflexivity]. Qed.

Lemma slice_0_nonEmpty s n : nonEmpty s = true -> 1 <= n -> nonEmpty (slice s 0 n) = true.
Proof.
  intros Hs Hn. apply nonEmpty_strlen. rewrite strlen_slice_0 by lia.
  apply nonEmpty_strlen in Hs. lia.
Qed.

Lemma default_models_not_listed p m :
  In p [lit "openai"; lit "gemini"; lit "anthropic"; lit "grok"] ->
  lookup PROVIDER_DEFAULT_MODELS p = Some m ->
  lookup MODEL_CONTEXT_LIMITS m = None /\ inherited m = false.
Proof.
  intros Hp Hm.
  repeat (destruct Hp as [Hp|Hp];
          [subst p; vm_compute in Hm; inversion Hm; subst m; split; reflexivity|]).
  destruct Hp.
Qed.

(** X27.  For a loaded configuration with unlimited input on, the ceiling
    depends on the active model.  When its name is not one inherited from
    [Object.prototype], the ceiling is a number of at least 5,000, and it is
    25,000 when the model is not in the context-limit table, which is the
    case for the default model of every provider except Groq.  When its
    name is an inherited one (['constructor'], ['toString'], ...), the
    table lookup yields a function, the ceiling is [NaN], and every provider
    call of the run carries the empty text.  Outside that case, and with
    unlimited input off and a cap of at least one character, the text of a
    provider call is never empty: with nothing captured it is the
    placeholder ["(No selection)"], cut to the ceiling. *)
Theorem ceiling_floor_and_text (doc : Config.t) (preset : option Preset.t) :
  let cfg := fst (loadConfig (coldStore doc)) in
  let inheritedModel :=
    match activeModel cfg with
    | Some modelKey => inherited modelKey
    | None => false
    end in
  (truthy (Config.unlimitedInput cfg) = true -> inheritedModel = false ->
   exists n,
     effectiveMaxLengthOf cfg preset = LimNum n
     /\ 5000 <= n
     /\ (match activeModel cfg with
         | Some modelKey => lookup MODEL_CONTEXT_LIMITS modelKey = None
         | None => True
         end -> n = 25000))
  /\ (truthy (Config.unlimitedInput cfg) = true -> inheritedModel = true ->
      effectiveMaxLengthOf cfg preset = LimNaN
      /\ forall captured now sendOk st c,
           In (CallProvider c)
              (eventsOf (runSummary_captured cfg preset captured now sendOk st)) ->
           call_userText c = [])
  /\ (forall p m, In p [lit "openai"; lit "gemini"; lit "anthropic"; lit "grok"] ->
        lookup PROVIDER_DEFAULT_MODELS p = Some m ->
        lookup MODEL_CONTEXT_LIMITS m = None /\ inherited m = false)
  /\ ((truthy (Config.unlimitedInput cfg) = true /\ inheritedModel = false)
      \/ (truthy (Config.unlimitedInput cfg) = false
          /\ exists m, Config.maxInputChars cfg = Some m /\ 1 <= m) ->
      forall captured now sendOk st c,
        In (CallProvider c)
           (eventsOf (runSummary_captured cfg preset captured now sendOk st)) ->
        nonEmpty (call_userText c) = true
        /\ (captured = [] ->
            exists n, effectiveMaxLengthOf cfg preset = LimNum n
                      /\ call_userText c = slice (lit "(No selection)") 0 n)).
Proof.
  intros cfg inheritedModel.
  assert (Hcfg : cfg = migrate doc) by reflexivity. clearbody cfg.
  assert (Hown : forall k L, lookup MODEL_CONTEXT_LIMITS k = Some L -> inherited k = false).
  { intros k L H. destruct (inherited k) eqn:E; [|reflexivity]. exfalso.
    unfold inherited in E. apply existsb_exists in E. destruct E as [x [Hin Hx]].
    apply streqb_eq in Hx. subst x.
    repeat (destruct Hin as [Hin|Hin]; [subst k; vm_compute in H; discriminate|]).
    destruct Hin. }
  assert (Hunl : truthy (Config.unlimitedInput cfg) = true -> inheritedModel = false ->
                 exists n,
                   effectiveMaxLengthOf cfg preset = LimNum n /\ 5000 <= n
                   /\ (match activeModel cfg with
                       | Some modelKey => lookup MODEL_CONTEXT_LIMITS modelKey = None
                       | None => True
                       end -> n = 25000)).
  { intros Hu. unfold inheritedModel, effectiveMaxLengthOf, activeModel, getMaxInputLength.
    rewrite Hu. cbn [negb].
    destruct (modelOrDefault _ _) as [k|].
    - intros Hinh. destruct (lookup MODEL_CONTEXT_LIMITS k) as [L|].
      + destruct (migrate_numeric_fields doc) as [_ [t [Ht _]]].
        rewrite <- Hcfg in Ht. rewrite Ht.
        eexists. split; [reflexivity|]. split; [lia | discriminate].
      + rewrite Hinh. exists 25000. unfold MAX_TEXT_LEN.
        split; [reflexivity|]. split; [lia | reflexivity].
    - intros _. exists 25000. unfold MAX_TEXT_LEN.
      split; [reflexivity|]. split; [lia | reflexivity]. }
  split; [exact Hunl|]. split.
  { intros Hu Hinh.
    assert (Hnan : effectiveMaxLengthOf cfg preset = LimNaN).
    { revert Hinh.
      unfold inheritedModel, effectiveMaxLengthOf, activeModel, getMaxInputLength.
      rewrite Hu. cbn [negb].
      destruct (modelOrDefault _ _) as [k|]; [|discriminate].
      intros Hinh. destruct (lookup MODEL_CONTEXT_LIMITS k) as [L|] eqn:El.
      - rewrite (Hown k L El) in Hinh. discriminate.
      - rewrite Hinh. reflexivity. }
    split; [exact Hnan|].
    intros captured now sendOk st c Hin.
    apply runSummary_captured_calls in Hin. subst c.
    unfold providerCallOf. cbn [call_userText]. rewrite Hnan. reflexivity. }
  split; [exact default_models_not_listed|].
  intros Hmode captured now sendOk st c Hin.
  apply runSummary_captured_calls in Hin. subst c.
  assert (Hn : exists n, effectiveMaxLengthOf cfg preset = LimNum n /\ 1 <= n).
  { destruct Hmode as [[Hu Hinh]|[Hu [m [Hm H1]]]].
    - destruct (Hunl Hu Hinh) as [n [Hn [H5 _]]]. exists n. split; [exact Hn | lia].
    - exists m. split; [|exact H1].
      unfold effectiveMaxLengthOf, getMaxInputLength. rewrite Hu, Hm. reflexivity. }
  destruct Hn as [n [Hn H1]].
  unfold providerCallOf. cbn [call_userText]. rewrite Hn. cbn [sliceTo]. split.
  - apply slice_0_nonEmpty; [apply selectionOf_nonEmpty | exact H1].
  - intros ->. exists n. split; reflexivity.
Qed.

Lemma ceiling_floor_and_text_witness :
  (exists n,
     effectiveMaxLengthOf
       (fst (loadConfig (coldStore (docWith "openai" "gpt-5-mini" (JBool true) None)))) None
     = LimNum n
     /\ n = 25000)
  /\ effectiveMaxLengthOf
       (fst (loadConfig (coldStore (docWith "openai" "constructor" (JBool true) None)))) None
     = LimNaN.
Proof.
  split.
  - destruct (ceiling_floor_and_text (docWith "openai" "gpt-5-mini" (JBool true) None) None)
      as [H _].
    destruct (H eq_refl eq_refl) as [n [Hn [_ Hfall]]].
    exists n. split; [exact Hn | apply Hfall; reflexivity].
  - destruct (ceiling_floor_and_text (docWith "openai" "constructor" (JBool true) None) None)
      as [_ [H _]].
    exact (proj1 (H eq_refl eq_refl)).
Defined.

Lemma digits36_nonEmpty fuel n acc : acc <> [] -> digits36 fuel n acc <> [].
Proof.
  revert n acc; induction fuel as [|fuel IH]; intros n acc H; simpl; [exact H|].
  destruct (n / 36 =? 0); [discriminate | apply IH; discriminate].
Qed.

Lemma toString36_nonEmpty h : nonEmpty (toString36 h) = true.
Proof.
  unfold toString36. destruct (h <? 0); [reflexivity|].
  change (digits36 7 h []) with
    (if h / 36 =? 0 then [digit36 (h mod 36)]
     else digits36 6 (h / 36) [digit36 (h mod 36)]).
  destruct (h / 36 =? 0); [reflexivity|].
  pose proof (digits36_nonEmpty 6 (h / 36) [digit36 (h mod 36)]) as H.
  destruct (digits36 6 (h / 36) [digit36 (h mod 36)]); [|reflexivity].
  exfalso. apply H; [discriminate | reflexivity].
Qed.

(** X28.  A fingerprint is never the empty string.  So as long as no
    request has been recorded (the fingerprint variable still holds its
    initial [''], as at start-up and after the no-key guidance), a trigger
    never toggles the popup off, visible or not: it starts a request. *)
Theorem first_trigger_never_toggles cfg preset captured now sendOk st :
  nonEmpty (fingerprint (selectionOf captured) preset) = true
  /\ (lastSummaryInputHash st = [] ->
      let r := runSummary_captured cfg preset captured now sendOk st in
      outcomeOf r = AwaitingProvider (providerCallOf cfg preset (selectionOf captured))
      /\ providerCalls (eventsOf r) = 1%nat
      /\ popupWindow (stateOf r) = Window true
      /\ summaryInFlight (stateOf r) = true
      /\ lastSummaryInputHash (stateOf r) = fingerprint (selectionOf captured) preset).
Proof.
  assert (Hne : nonEmpty (fingerprint (selectionOf captured) preset) = true).
  { unfold fingerprint, hashString. apply toString36_nonEmpty. }
  split; [exact Hne|].
  intros Hempty r.
  assert (Hr : r = runSummary_request cfg preset (selectionOf captured)
                     (fingerprint (selectionOf captured) preset) now st).
  { unfold r, runSummary_captured. rewrite Hempty.
    destruct (streqb (fingerprint (selectionOf captured) preset) []) eqn:E.
    - apply streqb_eq in E. rewrite E in Hne. discriminate.
    - rewrite andb_false_r. reflexivity. }
  rewrite Hr.
  destruct (runSummary_request_state cfg preset (selectionOf captured)
              (fingerprint (selectionOf captured) preset) now st) as [Hst [Hout Hcalls]].
  rewrite Hst. cbn [popupWindow summaryInFlight lastSummaryInputHash].
  repeat split; assumption.
Qed.

Lemma first_trigger_never_toggles_witness :
  outcomeOf
    (runSummary_captured geminiCfg None shortText 5 true
       (stateOf (runSummary_begin Config.empty 0 initialState)))
  = AwaitingProvider (providerCallOf geminiCfg None (selectionOf shortText)).
Proof.
  destruct (first_trigger_never_toggles geminiCfg None shortText 5 true
              (stateOf (runSummary_begin Config.empty 0 initialState))) as [_ H].
  exact (proj1 (H eq_refl)).
Defined.

End CeilingMore.

(* ====================================================================== *)
(** * Popup placement *)

Section PlacementFacts.

(** X29.  Measured from the origin of the display's bounds, the popup
    never reaches beyond the work area's width and height less a padding of
    24; when the work area is at least 528 x 228 it also keeps the padding
    on the left and at the top, so the whole 480 x 180 window lies inside;
    and where the cursor leaves room, the popup is centred under the cursor,
    24 units below it. *)
Theorem popupPosition_inside (px py : Z) (display : Display) :
  let x := fst (popupPosition px py display) in
  let y := snd (popupPosition px py display) in
  x + 480 + 24 <= bounds_x display + workArea_width display
  /\ y + 180 + 24 <= bounds_y display + workArea_height display
  /\ (528 <= workArea_width display -> bounds_x display + 24 <= x)
  /\ (228 <= workArea_height display -> bounds_y display + 24 <= y)
  /\ (bounds_x display + 24 <= px - 240 ->
      px + 240 + 24 <= bounds_x display + workArea_width display -> x = px - 240)
  /\ (bounds_y display + 24 <= py + 24 ->
      py + 24 + 180 + 24 <= bounds_y display + workArea_height display -> y = py + 24).
Proof.
  unfold popupPosition. cbn [fst snd]. repeat split; intros; lia.
Qed.

Lemma popupPosition_inside_witness :
  popupPosition 960 500 (mkDisplay 0 0 1920 1080) = (720, 524)
  /\ popupPosition 1910 1070 (mkDisplay 0 0 1920 1080) = (1416, 876).
Proof.
  destruct (popupPosition_inside 960 500 (mkDisplay 0 0 1920 1080))
    as [_ [_ [_ [_ [Hx Hy]]]]].
  split.
  - apply injective_projections; [apply Hx | apply Hy]; cbn; lia.
  - reflexivity.
Defined.

End PlacementFacts.

(* ====================================================================== *)
(** * Model listing *)

Section ListingFacts.

Lemma includes_In l x : includes l x = true <-> In x l.
Proof.
  unfold includes. rewrite existsb_exists. split.
  - intros [y [Hy E]]. apply streqb_eq in E. subst y. exact Hy.
  - intros H. exists x. split; [exact H | apply streqb_refl].
Qed.

Lemma dedupeCap_spec ids : forall seen out,
  NoDup out -> (forall x, In x out -> In x seen) -> (List.length out < 150)%nat ->
  NoDup (dedupeCap ids seen out)
  /\ (List.length (dedupeCap ids seen out) <= 150)%nat
  /\ (forall x, In x (dedupeCap ids seen out) -> In x out \/ In x ids).
Proof.
  induction ids as [|id rest IH]; intros seen out Hnd Hseen Hlen; cbn [dedupeCap].
  - split; [exact Hnd|]. split; [lia|]. intros x Hx. left; exact Hx.
  - destruct (includes seen id) eqn:Einc.
    + destruct (IH seen out Hnd Hseen Hlen) as [H1 [H2 H3]].
      split; [exact H1|]. split; [exact H2|].
      intros x Hx. destruct (H3 x Hx) as [H|H]; [left; exact H | right; right; exact H].
    + assert (Hnew : ~ In id out).
      { intros Hin. apply Hseen in Hin. apply includes_In in Hin. congruence. }
      assert (Hnd' : NoDup (out ++ [id])).
      { apply NoDup_app; [exact Hnd | repeat constructor; intros [] |].
        intros a Ha [Hb|[]]. subst a. exact (Hnew Ha). }
      assert (Hlen' : List.length (out ++ [id]) = S (List.length out)).
      { rewrite length_app. cbn. lia. }
      assert (Hin' : forall x, In x (out ++ [id]) -> In x out \/ In x (id :: rest)).
      { intros x Hx. apply in_app_or in Hx. destruct Hx as [Hx|[Hx|[]]];
          [left; exact Hx | right; left; exact Hx]. }
      destruct (150 <=? List.length (out ++ [id]))%nat eqn:Ecap.
      * split; [exact Hnd'|]. split; [lia | exact Hin'].
      * apply Nat.leb_gt in Ecap.
        destruct (IH (id :: seen) (out ++ [id]) Hnd') as [H1 [H2 H3]].
        { intros x Hx. apply in_app_or in Hx. destruct Hx as [Hx|[Hx|[]]];
            [right; apply Hseen; exact Hx | left; exact Hx]. }
        { exact Ecap. }
        split; [exact H1|]. split; [exact H2|].
        intros x Hx. destruct (H3 x Hx) as [H|H];
          [apply Hin'; exact H | right; right; exact H].
Qed.

Lemma lookup_cachePut_same k e cache : lookup (cachePut k e cache) k = Some e.
Proof.
  induction cache as [|[k' w] rest IH]; cbn [cachePut lookup].
  - rewrite streqb_refl. reflexivity.
  - destruct (streqb k' k) eqn:E; cbn [lookup]; rewrite E; [reflexivity | exact IH].
Qed.

(** X30.  Listing the models of OpenAI, Groq or Gemini with a stored key
    and no cache entry younger than ten minutes.  When the request yields
    identifiers, the list returned is non-empty, has no repetition and at
    most 150 entries, each of them an identifier of the response (Gemini
    names without their ["models/"] prefix) or the provider's default
    model; and if any identifier passes the allow/deny filter, every entry
    returned does.  When the request fails, the list is the provider's
    default model alone.  In both cases the list is cached: a call in the
    following ten minutes returns it again, whatever the network would
    answer. *)
Theorem listModels_fresh (cfg : Config.t) (provider : option jsstring) (now : Z)
  (fetched : result (list jsstring)) (cache : ModelCache) :
  let prov := orStr provider (activeOf cfg) in
  In prov [lit "openai"; lit "groq"; lit "gemini"] ->
  truthyStr (keyOf (Config.providers cfg) prov) = true ->
  noFreshEntry cache (modelCacheKey cfg provider) now ->
  let l := fst (listModels cfg provider now fetched cache) in
  let cache' := snd (listModels cfg provider now fetched cache) in
  l <> []
  /\ NoDup l
  /\ (List.length l <= 150)%nat
  /\ (forall ids, fetched = Ok ids ->
      (forall m, In m l ->
         In m (rawModels prov ids) \/ lookup PROVIDER_DEFAULT_MODELS prov = Some m)
      /\ ((exists m, In m (rawModels prov ids) /\ wantedModel m = true) ->
          forall m, In m l -> In m (rawModels prov ids) /\ wantedModel m = true))
  /\ (forall message, fetched = Throw message ->
      exists m, lookup PROVIDER_DEFAULT_MODELS prov = Some m /\ l = [m])
  /\ (forall now' fetched', now <= now' < now + TTL ->
      listModels cfg provider now' fetched' cache' = (l, cache')).
Proof.
  intros prov Hprov Hkey Hfresh l cache'.
  assert (Hp : prov = orStr provider (activeOf cfg)) by reflexivity.
  assert (Hck : modelCacheKey cfg provider
                = prov ++ lit "|" ++ slice (orStr (keyOf (Config.providers cfg) prov) []) 0 8).
  { unfold modelCacheKey. rewrite <- Hp. rewrite Hkey. reflexivity. }
  assert (Hko : forall (A : Type) (f : option jsstring -> A),
             f (ProviderCfg.key
                  match lookup (Config.providers cfg) prov with
                  | Some c => c
                  | None => ProviderCfg.empty
                  end) = f (keyOf (Config.providers cfg) prov)).
  { intros A f. unfold keyOf. destruct (lookup (Config.providers cfg) prov); reflexivity. }
  assert (Hdef : exists d, lookup PROVIDER_DEFAULT_MODELS prov = Some d
                           /\ defaultModelList prov = [d]
                           /\ streqb prov (lit "anthropic") = false
                           /\ streqb prov (lit "grok") = false
                           /\ streqb prov (lit "openai") || streqb prov (lit "groq")
                              || streqb prov (lit "gemini") = true).
  { clear - Hprov. clearbody prov.
    destruct Hprov as [H|[H|[H|[]]]]; subst prov; eexists; vm_compute; repeat split. }
  destruct Hdef as [d [Hd [Hdl [Ha [Hg Hsup]]]]].
  set (list := match fetched with
               | Ok ids => selectModels prov ids
               | Throw _ => defaultModelList prov
               end).
  assert (Hrun : forall cch t fetched0,
             (match lookup cch (modelCacheKey cfg provider) with
              | Some e => TTL <= t - entry_ts e
              | None => True
              end) ->
             listModels cfg provider t fetched0 cch
             = (match fetched0 with
                | Ok ids => selectModels prov ids
                | Throw _ => defaultModelList prov
                end,
                cachePut (modelCacheKey cfg provider)
                  (mkEntry t match fetched0 with
                             | Ok ids => selectModels prov ids
                             | Throw _ => defaultModelList prov
                             end) cch)).
  { intros cch t fetched0 Hnone. rewrite Hck in *. unfold listModels. rewrite <- Hp.
    rewrite (Hko _ (fun k => truthyStr k)) in *.
    rewrite (Hko _ (fun k => orStr k [])) in *.
    rewrite Hkey, Ha, Hg, Hsup. cbn [negb].
    destruct (lookup cch _) as [e|].
    - replace (t - entry_ts e <? TTL) with false by (symmetry; apply Z.ltb_ge; exact Hnone).
      destruct fetched0; reflexivity.
    - destruct fetched0; reflexivity. }
  assert (Hl : l = list /\ cache' = cachePut (modelCacheKey cfg provider) (mkEntry now list) cache).
  { unfold l, cache'. rewrite (Hrun cache now fetched Hfresh). split; reflexivity. }
  destruct Hl as [Hl Hc]. clearbody l cache'. subst l cache'.
  assert (Hsel : forall ids,
             let r := selectModels prov ids in
             r <> [] /\ NoDup r /\ (List.length r <= 150)%nat
             /\ (forall m, In m r -> In m (rawModels prov ids) \/ m = d)
             /\ ((exists m, In m (rawModels prov ids) /\ wantedModel m = true) ->
                 forall m, In m r -> In m (rawModels prov ids) /\ wantedModel m = true)).
  { intros ids. unfold selectModels. fold (rawModels prov ids). fold wantedModel.
    change (fun m => testAny allowWords m && negb (testAny denyWords m)) with wantedModel.
    set (raw := rawModels prov ids).
    set (filtered := match filter wantedModel raw with [] => raw | _ => filter wantedModel raw end).
    destruct (dedupeCap_spec filtered [] [] (NoDup_nil _)) as [H1 [H2 H3]];
      [intros x [] | cbn; lia |].
    assert (Hfr : forall x, In x filtered -> In x raw).
    { intros x Hx. unfold filtered in Hx.
      destruct (filter wantedModel raw) eqn:Ef; [exact Hx|].
      rewrite <- Ef in Hx. apply filter_In in Hx. apply Hx. }
    assert (Hfw : (exists m, In m raw /\ wantedModel m = true) ->
                  forall x, In x filtered -> wantedModel x = true).
    { intros [m [Hm Hw]] x Hx. unfold filtered in Hx.
      destruct (filter wantedModel raw) eqn:Ef.
      - assert (Hin : In m (filter wantedModel raw)) by (apply filter_In; split; assumption).
        rewrite Ef in Hin. destruct Hin.
      - rewrite <- Ef in Hx. apply filter_In in Hx. apply Hx. }
    assert (Hne : filtered <> [] -> dedupeCap filtered [] [] <> []).
    { destruct filtered as [|f0 frest]; [congruence|]. intros _.
      cbn [dedupeCap includes existsb app List.length Nat.leb].
      pose proof (dedupeCap_spec frest [f0] [f0]) as Hs.
      intros E.
      assert (Hpre : forall ids0 seen out, out <> [] -> dedupeCap ids0 seen out <> []).
      { induction ids0 as [|i0 r0 IHd]; intros seen0 out0 Hout; cbn [dedupeCap]; [exact Hout|].
        destruct (includes seen0 i0); [apply IHd; exact Hout|].
        destruct (150 <=? List.length (out0 ++ [i0]))%nat;
          [|apply IHd]; destruct out0; discriminate. }
      revert E. apply Hpre. discriminate. }
    destruct (dedupeCap filtered [] []) as [|o0 orest] eqn:Eout.
    - assert (Hf0 : filtered = []).
      { destruct filtered; [reflexivity | exfalso; apply Hne; [discriminate | reflexivity]]. }
      rewrite Hdl. split; [discriminate|]. split; [repeat constructor; intros []|].
      split; [cbn; lia|]. split.
      + intros m [Hm|[]]. right. symmetry. exact Hm.
      + intros [m [Hm Hw]]. exfalso.
        unfold filtered in Hf0.
        destruct (filter wantedModel raw) eqn:Ef; [|discriminate].
        rewrite Hf0 in Hm. destruct Hm.
    - split; [discriminate|]. split; [exact H1|]. split; [exact H2|]. split.
      + intros m Hm. left. apply Hfr. destruct (H3 m Hm) as [[]|H]. exact H.
      + intros Hex m Hm. destruct (H3 m Hm) as [[]|H].
        split; [apply Hfr; exact H | apply (Hfw Hex); exact H]. }
  assert (Hlist : list <> [] /\ NoDup list /\ (List.length list <= 150)%nat).
  { unfold list. destruct fetched as [ids|msg].
    - destruct (Hsel ids) as [G1 [G2 [G3 _]]]. repeat split; assumption.
    - rewrite Hdl. split; [discriminate|]. split; [repeat constructor; intros [] | cbn; lia]. }
  destruct Hlist as [L1 [L2 L3]].
  split; [exact L1|]. split; [exact L2|]. split; [exact L3|]. split.
  { intros ids ->. unfold list. destruct (Hsel ids) as [_ [_ [_ [G4 G5]]]]. split.
    - intros m Hm. destruct (G4 m Hm) as [H|H]; [left; exact H | right; subst m; exact Hd].
    - exact G5. }
  split.
  { intros message ->. exists d. split; [exact Hd | exact Hdl]. }
  intros now' fetched' Hwin.
  unfold listModels. rewrite <- Hp.
  rewrite (Hko _ (fun k => truthyStr k)).
  rewrite (Hko _ (fun k => orStr k [])).
  rewrite Hkey. rewrite <- Hck. rewrite lookup_cachePut_same. cbn [entry_ts entry_list].
  replace (now' - now <? TTL) with true by (symmetry; apply Z.ltb_lt; lia).
  reflexivity.
Qed.

Lemma listModels_fresh_witness :
  fst (listModels geminiCfg None 1000 (Ok geminiListing) [])
  = [lit "gemini-2.5-flash"; lit "gemini-2.5-pro"]
  /\ listModels geminiCfg None 2000 (Throw (Error (lit "offline")))
       (snd (listModels geminiCfg None 1000 (Ok geminiListing) []))
     = (fst (listModels geminiCfg None 1000 (Ok geminiListing) []),
        snd (listModels geminiCfg None 1000 (Ok geminiListing) [])).
Proof.
  assert (Hprov : In (orStr None (activeOf geminiCfg)) [lit "openai"; lit "groq"; lit "gemini"]).
  { right. right. left. reflexivity. }
  assert (Hkey : truthyStr (keyOf (Config.providers geminiCfg) (orStr None (activeOf geminiCfg)))
                 = true) by reflexivity.
  assert (Hfresh : noFreshEntry [] (modelCacheKey geminiCfg None) 1000) by exact I.
  destruct (listModels_fresh geminiCfg None 1000 (Ok geminiListing) [] Hprov Hkey Hfresh)
    as [_ [_ [_ [_ [_ Hagain]]]]].
  split; [vm_compute; reflexivity|].
  apply Hagain. unfold TTL. lia.
Defined.

End ListingFacts.
